(** * dgit: file intake, trace capture and instrumentation providers

    A shallow embedding of [dgitcore/datasets/files.py] and
    [dgitcore/instrumentation.py].

    - Python dictionaries are finite maps from keys to values ([gmap]);
      the distinction between a key that is missing and a key bound to
      [None] is kept.
    - Python strings are sequences of 8-bit characters.
    - Exceptions are an error result; console output, the clock, the uuid
      generator, the operator and the documents on disk are an explicit
      world threaded through the calls.
    - Library and collaborator functions whose value depends on the host
      (file system, mimetype tables, checksum helper, glob matcher) are
      fields of an environment record. *)

From Stdlib Require Import Ascii String Sorted.
From stdpp Require Import base strings pretty list gmap.

(** ** Python values, exceptions and the string primitives the code uses *)
Module Py.

(** The values the records of this module hold: [None], booleans, strings
    and lists of strings. On these, Python's [==] is structural equality. *)
Inductive pyval :=
  | PyNone
  | PyBool (b : bool)
  | PyStr (s : string)
  | PyList (l : list string).

#[global] Instance pyval_eq_dec : EqDecision pyval.
Proof. solve_decision. Defined.

Definition py_eq (a b : pyval) : bool := bool_decide (a = b).

Inductive exn :=
  | NameError (name : string)
  | KeyError (key : string)
  | ValueError (msg : string)
  | TypeError
  | AttributeError
  | IOError (path : string)
  | EOFError
  | YAMLError.

Inductive res (A : Type) :=
  | Ok (a : A)
  | Raise (e : exn).
Arguments Ok {A} a.
Arguments Raise {A} e.

(** [d[k]]: a missing key raises [KeyError]. *)
Definition getitem (d : gmap string pyval) (k : string) : res pyval :=
  match d !! k with
  | Some v => Ok v
  | None => Raise (KeyError k)
  end.

Definition dquote : ascii := "034"%char.
Definition squote : ascii := "039"%char.
Definition newline : ascii := "010"%char.
Definition slash : ascii := "/"%char.

(** [sub in s] on strings. *)
Fixpoint contains (sub s : string) : bool :=
  if String.prefix sub s then true
  else match s with
       | EmptyString => false
       | String _ s' => contains sub s'
       end.

(** [s.startswith(c)] and [s.endswith(c)] for a one-character [c]. *)
Definition startswith (c : ascii) (s : string) : bool :=
  match s with
  | String d _ => Ascii.eqb d c
  | EmptyString => false
  end.

Fixpoint endswith (c : ascii) (s : string) : bool :=
  match s with
  | EmptyString => false
  | String d EmptyString => Ascii.eqb d c
  | String _ s' => endswith c s'
  end.

(** [s.rfind(c)]: the last index of [c], [None] for Python's -1. *)
Fixpoint rfind (c : ascii) (s : string) : option nat :=
  match s with
  | EmptyString => None
  | String d s' =>
      match rfind c s' with
      | Some k => Some (S k)
      | None => if Ascii.eqb d c then Some 0 else None
      end
  end.

(** The slices [s[i:]] and [s[:i]]. *)
Fixpoint slice_from (i : nat) (s : string) : string :=
  match i, s with
  | 0, _ => s
  | S _, EmptyString => EmptyString
  | S i', String _ s' => slice_from i' s'
  end.

Fixpoint slice_to (i : nat) (s : string) : string :=
  match i, s with
  | 0, _ => EmptyString
  | S _, EmptyString => EmptyString
  | S i', String c s' => String c (slice_to i' s')
  end.

(** [str.isspace] on the ASCII range: tab to carriage return, the four
    separators 28..31, and the blank. Strings are sequences of bytes
    here; the spaces of Unicode beyond this range are not told apart. *)
Definition isspace (c : ascii) : bool :=
  let n := nat_of_ascii c in
  ((9 <=? n) && (n <=? 13)) || ((28 <=? n) && (n <=? 32)).

Fixpoint lstrip (s : string) : string :=
  match s with
  | EmptyString => EmptyString
  | String c s' => if isspace c then lstrip s' else s
  end.

Fixpoint rstrip_with (p : ascii -> bool) (s : string) : string :=
  match s with
  | EmptyString => EmptyString
  | String c s' =>
      match rstrip_with p s' with
      | EmptyString => if p c then EmptyString else String c EmptyString
      | t => String c t
      end
  end.

Definition strip (s : string) : string := rstrip_with isspace (lstrip s).

(** *** posixpath *)

(** [os.path.basename]: [i = p.rfind('/') + 1; return p[i:]]. *)
Definition os_path_basename (p : string) : string :=
  let i := match rfind slash p with Some k => S k | None => 0 end in
  slice_from i p.

(** [os.path.join(a, b)] with one component [b]. *)
Definition os_path_join (a b : string) : string :=
  if startswith slash b then b
  else if bool_decide (a = EmptyString) || endswith slash a then a +:+ b
  else a +:+ String slash b.

Definition all_slashes (s : string) : bool :=
  bool_decide (rstrip_with (fun c => Ascii.eqb c slash) s = EmptyString).

(** [os.path.dirname]: the head up to the last slash, trailing slashes
    removed unless the head is made of slashes only. *)
Definition os_path_dirname (p : string) : string :=
  let i := match rfind slash p with Some k => S k | None => 0 end in
  let head := slice_to i p in
  if negb (bool_decide (head = EmptyString)) && negb (all_slashes head)
  then rstrip_with (fun c => Ascii.eqb c slash) head
  else head.

End Py.

(** ** [dgitcore/datasets/files.py] *)
Module files.
Import Py.

(** A file record is a dictionary. *)
Abbreviation record := (gmap string pyval).

(** The manifest [datapackage.json], as [json.loads] returns it: the
    [resources] array and the remaining members. The manifests covered
    are the objects that have a [resources] array all of whose entries
    are objects; a file that does not decode, an object without
    [resources] and an entry that is not an object are not
    represented. *)
Record package := Package {
  resources : list record;
  members : gmap string pyval;
}.

(** What [yaml.load] returns on the text the operator saved. The
    documents covered are the empty one, a list of strings, a mapping
    from strings to strings, and text that does not load; a scalar
    document and a mapping with a value that is not a string are not
    represented. *)
Inductive yamlval :=
  | YNull
  | YSeq (l : list string)
  | YMap (m : gmap string string)
  | YInvalid.

Inductive event :=
  | Print (text : string)
  | PrintList (text : string) (l : list string)
  | PrintCount (n : nat)
  | PrintRecords (rs : list record)
  | Editor (shown : yamlval)
  | Input (prompt : string).

(** The mutable surroundings of a call. *)
Record World := mkWorld {
  clock : nat;                     (* readings of [datetime.now()] so far *)
  uuids : nat;                     (* values drawn from [uuid.uuid1()] so far *)
  trace : list event;              (* console and operator events, oldest first *)
  edits : list yamlval;            (* what the operator saves in the coming editor sessions *)
  keystrokes : nat;                (* ENTER keys still to come on standard input *)
  documents : gmap string package; (* manifests on disk, by path *)
}.

(** The host: library and collaborator functions the module calls. *)
Record Env := mkEnv {
  now_iso : nat -> string;                 (* [datetime.now().isoformat()] at the n-th reading *)
  uuid1 : nat -> string;                   (* [str(uuid.uuid1())] at the n-th draw *)
  guess_type : string -> option string;    (* [mimetypes.guess_type(f)[0]] *)
  compute_sha256 : string -> res pyval;    (* helper of the package, not in this module *)
  relpath : string -> string;              (* [os.path.relpath] from the current directory *)
  abspath : string -> string;
  realpath : string -> string;
  path_exists : string -> bool;
  path_isfile : string -> bool;
  fnmatch : string -> string -> bool;      (* [fnmatch.fnmatch(name, pattern)] *)
  environ_HOME : option string;            (* [os.environ] at key HOME *)
  readlines : string -> res (list string); (* [open(name).readlines()] *)
  read512 : string -> res string;          (* [open(name).read(512)] *)
}.

(** Computations: a result or an exception, and the world after. *)
Definition M (A : Type) : Type := World -> res A * World.

Definition ret {A} (a : A) : M A := fun w => (Ok a, w).
Definition raise {A} (e : exn) : M A := fun w => (Raise e, w).
Definition bind {A B} (m : M A) (k : A -> M B) : M B :=
  fun w => match m w with
           | (Ok a, w') => k a w'
           | (Raise e, w') => (Raise e, w')
           end.
Definition lift {A} (r : res A) : M A := fun w => (r, w).

Declare Scope py_scope.
Delimit Scope py_scope with py.
Notation "x <- m ;; k" := (bind m (fun x => k))
  (at level 100, m at next level, right associativity) : py_scope.
Notation "m ;;; k" := (bind m (fun _ => k))
  (at level 100, right associativity) : py_scope.
Open Scope py_scope.

Definition emit (e : event) : M unit :=
  fun w => (Ok tt, mkWorld (clock w) (uuids w) (trace w ++ [e]) (edits w)
                           (keystrokes w) (documents w)).

Definition print (text : string) : M unit := emit (Print text).

Section Host.
Variable E : Env.

Definition datetime_now : M string :=
  fun w => (Ok (now_iso E (clock w)),
            mkWorld (S (clock w)) (uuids w) (trace w) (edits w)
                    (keystrokes w) (documents w)).

Definition uuid_uuid1 : M string :=
  fun w => (Ok (uuid1 E (uuids w)),
            mkWorld (clock w) (S (uuids w)) (trace w) (edits w)
                    (keystrokes w) (documents w)).

(** [os.path.relpath(p, cwd)] refuses the empty path. *)
Definition os_path_relpath (p : string) : res string :=
  if bool_decide (p = EmptyString) then Raise (ValueError "no path specified")
  else Ok (relpath E p).

Definition opt_str (o : option string) : pyval :=
  match o with
  | Some s => PyStr s
  | None => PyNone
  end.

(** *** Add files and links *)

Definition add_link (f : string) : M (string * record) :=
  u <- uuid_uuid1 ;;
  let update : record := list_to_map [
    ("type", PyStr "data");
    ("generator", PyBool false);
    ("uuid", PyStr u);
    ("relativepath", PyStr f);
    ("mimetypes", PyStr "");
    ("content", PyStr "");
    ("sha256", PyStr "");
    ("localfullpath", PyNone);
    ("localrelativepath", PyNone)
  ] in
  ret (f, update).

Definition add_file_normal (f targetdir : string) (generator script : bool)
    (source : pyval) : M (string * record) :=
  let basename := os_path_basename f in
  let relativepath :=
    if bool_decide (targetdir <> ".") then os_path_join targetdir basename
    else basename in
  relpath <- lift (os_path_relpath f) ;;
  let filetype := "data" in
  let filetype :=
    if script then
      let filetype := "script" in
      if generator then "generator" else filetype
    else filetype in
  u <- uuid_uuid1 ;;
  let mime := opt_str (guess_type E f) in
  digest <- lift (compute_sha256 E f) ;;
  let update : record := list_to_map [
    ("type", PyStr filetype);
    ("generator", PyBool generator);
    ("uuid", PyStr u);
    ("relativepath", PyStr relativepath);
    ("mimetypes", mime);
    ("content", PyStr "");
    ("source", source);
    ("sha256", digest);
    ("localfullpath", PyStr f);
    ("localrelativepath", PyStr relpath)
  ] in
  ret (basename, update).

(** The body of the loop of [add_files] for one path [f]: the record is
    built, tagged by whether its key was seen, and stamped with [ts]. *)
Definition add_files_step (ts targetdir : string) (generator : bool)
    (source : pyval) (script : bool) (f : string) (seen : list string)
    : M (list string * record) :=
  print ("Looking at " +:+ f) ;;;
  r <- (if negb (contains "://" f)
        then add_file_normal f targetdir generator script source
        else (print "Adding special file" ;;; add_link f)) ;;
  let '(base, update) := r in
  let '(update, seen) :=
    if bool_decide (base ∉ seen)
    then (<["change" := PyStr "add"]> update, seen ++ [base])
    else (<["change" := PyStr "update"]> update, seen) in
  let update := <["ts" := PyStr ts]> update in
  ret (seen, update).

Fixpoint add_files_loop (ts targetdir : string) (generator : bool)
    (source : pyval) (script : bool) (args seen : list string)
    (files : list record) : M (list record) :=
  match args with
  | [] => ret files
  | f :: args' =>
      r <- add_files_step ts targetdir generator source script f seen ;;
      let '(seen, update) := r in
      add_files_loop ts targetdir generator source script args' seen (files ++ [update])
  end.

Definition add_files (args : list string) (targetdir : string)
    (generator : bool) (source : pyval) (script : bool) : M (list record) :=
  ts <- datetime_now ;;
  add_files_loop ts targetdir generator source script args [] [].

(** *** Gather files from the trace of an execution *)

(** [re]: the lazy group [(.+?)] followed by one closing character
    accepted by [stop]: the shortest non-empty run free of newlines whose
    next character closes it. *)
Fixpoint lazy_group (stop : ascii -> bool) (t : string) : option string :=
  match t with
  | EmptyString => None
  | String c t' =>
      if Ascii.eqb c newline then None
      else match t' with
           | EmptyString => None
           | String d _ =>
               if stop d then Some (String c EmptyString)
               else option_map (String c) (lazy_group stop t')
           end
  end.

Fixpoint after_prefix (p s : string) : option string :=
  match p, s with
  | EmptyString, _ => Some s
  | String a p', String b s' => if Ascii.eqb a b then after_prefix p' s' else None
  | String _ _, EmptyString => None
  end.

Definition is_quote (c : ascii) : bool := Ascii.eqb c dquote || Ascii.eqb c squote.

(** The pattern [open\([b]["'](.+?)["']] tried at the head of [l]. *)
Definition match_open_bytes (l : string) : option string :=
  match after_prefix "open(b" l with
  | Some (String q t) => if is_quote q then lazy_group is_quote t else None
  | _ => None
  end.

(** The pattern [open\("(.+?)"] tried at the head of [l]. *)
Definition match_open_plain (l : string) : option string :=
  match after_prefix "open(" l with
  | Some (String q t) =>
      if Ascii.eqb q dquote then lazy_group (fun c => Ascii.eqb c dquote) t else None
  | _ => None
  end.

(** [re.search]: the match at the leftmost position where there is one;
    the value is group 1. *)
Fixpoint re_search (at_head : string -> option string) (l : string) : option string :=
  match at_head l with
  | Some g => Some g
  | None =>
      match l with
      | EmptyString => None
      | String _ l' => re_search at_head l'
      end
  end.

Definition matched_file (l : string) : option string :=
  match re_search match_open_bytes l with
  | Some g => Some g
  | None => re_search match_open_plain l
  end.

Definition action_of (l : string) : string :=
  if contains "O_RDONLY" l then "input" else "output".

(** The statement under [if fnmatch.fnmatch(matchedfile, i)]. *)
Definition note_action (matchedfile action : string)
    (files : gmap string (list string)) : gmap string (list string) :=
  match files !! matchedfile with
  | None => <[matchedfile := [action]]> files
  | Some actions =>
      if bool_decide (action ∉ actions)
      then <[matchedfile := actions ++ [action]]> files
      else files
  end.

(** The loop [for i in includes]. *)
Definition note_includes (matchedfile action : string) (includes : list string)
    (files : gmap string (list string)) : gmap string (list string) :=
  foldl (fun files i =>
           if fnmatch E matchedfile i then note_action matchedfile action files
           else files)
        files includes.

(** The body of the loop [for l in lines] of [extract_files]. *)
Definition scan_line (includes : list string) (files : gmap string (list string))
    (l : string) : res (gmap string (list string)) :=
  match matched_file l with
  | None => Ok files
  | Some matchedfile =>
      if path_exists E matchedfile && path_isfile E matchedfile then
        let action := action_of l in
        match os_path_relpath matchedfile with
        | Raise e => Raise e
        | Ok matchedfile => Ok (note_includes matchedfile action includes files)
        end
      else Ok files
  end.

Fixpoint scan_lines (includes : list string) (lines : list string)
    (files : gmap string (list string)) : res (gmap string (list string)) :=
  match lines with
  | [] => Ok files
  | l :: lines' =>
      match scan_line includes files l with
      | Raise e => Raise e
      | Ok files => scan_lines includes lines' files
      end
  end.

(** [[l.strip() for l in lines if 'open(' in l]] *)
Definition open_lines (lines : list string) : list string :=
  map strip (List.filter (contains "open(") lines).

(** The editor round trip: the document is shown, the operator saves
    the next of the pending edits, or leaves the file as it is when none
    is pending. *)
Definition editor (shown : yamlval) : M yamlval :=
  fun w => (Ok (match edits w with [] => shown | saved :: _ => saved end),
            mkWorld (clock w) (uuids w) (trace w ++ [Editor shown]) (tail (edits w))
                    (keystrokes w) (documents w)).

(** [input(prompt)]: end of input raises [EOFError]. *)
Definition input (prompt : string) : M unit :=
  fun w => match keystrokes w with
           | 0 => (Raise EOFError,
                   mkWorld (clock w) (uuids w) (trace w ++ [Input prompt]) (edits w)
                           0 (documents w))
           | S k => (Ok tt,
                     mkWorld (clock w) (uuids w) (trace w ++ [Input prompt]) (edits w)
                             k (documents w))
           end.

Definition yaml_load (v : yamlval) : res yamlval :=
  match v with
  | YInvalid => Raise YAMLError
  | _ => Ok v
  end.

Definition yaml_len (v : yamlval) : res nat :=
  match v with
  | YSeq l => Ok (length l)
  | YMap m => Ok (size m)
  | _ => Raise TypeError
  end.

Definition yaml_in (f : string) (v : yamlval) : bool :=
  match v with
  | YSeq l => bool_decide (f ∈ l)
  | YMap m => bool_decide (is_Some (m !! f))
  | _ => false
  end.

Definition yaml_keys (v : yamlval) : res (gmap string string) :=
  match v with
  | YMap m => Ok m
  | _ => Raise AttributeError
  end.

Fixpoint insert_sorted (x : string) (l : list string) : list string :=
  match l with
  | [] => [x]
  | y :: l' => if String.leb x y then x :: l else y :: insert_sorted x l'
  end.

Definition sorted (l : list string) : list string := foldr insert_sorted [] l.

(** The loop [while True] over the directory mapping. Each failed round
    ends in [input], which takes one keystroke: [n] bounds the keystrokes
    that are left. *)
Fixpoint remap_loop (n : nat) (prefixes : gmap string string) : M (gmap string string) :=
  data <- editor (YMap prefixes) ;;
  let revised := match yaml_load data with Ok v => v | Raise _ => YMap ∅ end in
  keys <- lift (yaml_keys revised) ;;
  if bool_decide (dom keys = dom prefixes) then ret keys
  else
    print "Could not process edited file. Either some rows are missing or entry has YAML syntax errors" ;;;
    input "Press ENTER to continue" ;;;
    match n with
    | 0 => raise EOFError
    | S n' => remap_loop n' prefixes
    end.

Definition run_output (files : gmap string (list string)) (prefixes : gmap string string)
    (ts f : string) : M record :=
  relativepath <- lift (match prefixes !! os_path_dirname f with
                        | Some d => Ok d
                        | None => Raise (KeyError (os_path_dirname f))
                        end) ;;
  let relativepath :=
    if bool_decide (relativepath = ".") then os_path_basename f
    else os_path_join relativepath (os_path_basename f) in
  actions <- lift (match files !! f with
                   | Some a => Ok a
                   | None => Raise (KeyError f)
                   end) ;;
  u <- uuid_uuid1 ;;
  content <- lift (read512 E f) ;;
  digest <- lift (compute_sha256 E f) ;;
  localrelativepath <- lift (os_path_relpath f) ;;
  ret (list_to_map [
    ("relativepath", PyStr relativepath);
    ("type", PyStr "run-output");
    ("actions", PyList actions);
    ("uuid", PyStr u);
    ("mimetypes", opt_str (guess_type E f));
    ("content", PyStr content);
    ("sha256", digest);
    ("ts", PyStr ts);
    ("localrelativepath", PyStr localrelativepath);
    ("localfullpath", PyStr (abspath E f))
  ] : record).

Fixpoint run_outputs (files : gmap string (list string)) (prefixes : gmap string string)
    (ts : string) (filenames : list string) (result : list record) : M (list record) :=
  match filenames with
  | [] => ret result
  | f :: filenames' =>
      r <- run_output files prefixes ts f ;;
      run_outputs files prefixes ts filenames' (result ++ [r])
  end.

(** The interactive part of [extract_files], entered with at least one
    captured file. *)
Definition curate (files : gmap string (list string)) : M (list record) :=
  print "We captured files that matched the pattern you specified." ;;;
  print "Please select files to keep (press ENTER)" ;;;
  let filenames := sorted (map fst (map_to_list files)) in
  data <- editor (YSeq filenames) ;;
  selected <- lift (yaml_load data) ;;
  n <- lift (yaml_len selected) ;;
  emit (PrintCount n) ;;;
  if n =? 0 then ret []
  else
    let filenames := List.filter (fun f => yaml_in f selected) filenames in
    print "Please select target locations for the various directories we found" ;;;
    print "Please make sure you do not delete any rows or edit the keys." ;;;
    input "(press ENTER)" ;;;
    let prefixes : gmap string string :=
      foldl (fun prefixes f =>
               let dirname := os_path_dirname f in
               let dirname := if bool_decide (dirname = EmptyString) then "." else dirname in
               <[dirname := dirname]> prefixes)
            ∅ filenames in
    prefixes <- (fun w => remap_loop (keystrokes w) prefixes w) ;;
    let prefixes :=
      match prefixes !! "." with
      | Some d => <[EmptyString := d]> prefixes
      | None => prefixes
      end in
    ts <- datetime_now ;;
    result <- run_outputs files prefixes ts filenames [] ;;
    emit (PrintRecords result) ;;;
    ret result.

Definition extract_files (filename : string) (includes : list string) : M (list record) :=
  lines <- lift (readlines E filename) ;;
  files <- lift (scan_lines includes (open_lines lines) ∅) ;;
  if size files =? 0 then
    print "No input or output files found that match pattern" ;;;
    ret []
  else curate files.

(** *** The executable behind a run *)

(** A repository and its manager. The manager's methods receive the
    repository as their first argument; here they are already applied
    to it. [permalink] answers with the pair (relative path, permalink). *)
Record Repo := mkRepo {
  rootdir : string;
  permalink : string -> option string * option string;
  manager_add_files : list record -> M unit;
}.

Definition environ_getitem_HOME : res string :=
  match environ_HOME E with
  | Some h => Ok h
  | None => Raise (KeyError "HOME")
  end.

(** The loop [for f in args] of [find_executable_commitpath]. *)
Fixpoint find_first (repo : Repo) (args : list string)
    : res (option string * option string) :=
  match args with
  | [] => Ok (None, None)
  | f :: args' =>
      if path_exists E f then
        let f := realpath E f in
        let '(relpath, link) := permalink repo f in
        match link with
        | Some l => Ok (relpath, Some l)
        | None =>
            match environ_getitem_HOME with
            | Raise e => Raise e
            | Ok home =>
                if contains home f then Ok (Some f, None)
                else find_first repo args'
            end
        end
      else find_first repo args'
  end.

Definition find_executable_commitpath (repo : Repo) (args : list string)
    : M (option string * option string) :=
  emit (PrintList "Finding executable commit path" args) ;;;
  lift (find_first repo args).

(** *** Main function *)

(** The names bound in the body of [add], at module level, and the
    builtins: what a name in [add] can resolve to. *)
Definition add_locals : list string :=
  ["repo"; "args"; "execute"; "generator"; "targetdir"; "includes"; "script";
   "source"; "files"; "rootdir"; "datapath"; "package"; "h"; "found"; "i";
   "r"; "fd"].

Definition module_globals : list string :=
  ["__name__"; "__doc__"; "__package__"; "__loader__"; "__spec__"; "__file__";
   "__cached__"; "__builtins__";
   "os"; "sys"; "copy"; "fnmatch"; "re"; "shutil"; "yaml"; "json"; "tempfile";
   "webbrowser"; "subprocess"; "string"; "random"; "pipes"; "getpass";
   "datetime"; "sha256"; "mimetypes"; "platform"; "uuid"; "parser";
   "get_config"; "get_plugin_mgr"; "bcolors"; "clean_str"; "cd";
   "compute_sha256"; "run"; "clean_name"; "get_schema";
   "add_link"; "add_file_normal"; "add_files"; "extract_files";
   "find_executable_commitpath"; "run_executable"; "add"].

Definition builtins : list string :=
  ["abs"; "all"; "any"; "ascii"; "bin"; "bool"; "breakpoint"; "bytearray";
   "bytes"; "callable"; "chr"; "classmethod"; "compile"; "complex"; "delattr";
   "dict"; "dir"; "divmod"; "enumerate"; "eval"; "exec"; "filter"; "float";
   "format"; "frozenset"; "getattr"; "globals"; "hasattr"; "hash"; "help";
   "hex"; "id"; "input"; "int"; "isinstance"; "issubclass"; "iter"; "len";
   "list"; "locals"; "map"; "max"; "memoryview"; "min"; "next"; "object";
   "oct"; "open"; "ord"; "pow"; "print"; "property"; "range"; "repr";
   "reversed"; "round"; "set"; "setattr"; "slice"; "sorted"; "staticmethod";
   "str"; "sum"; "super"; "tuple"; "type"; "vars"; "zip"; "__import__";
   "None"; "True"; "False"; "Ellipsis"; "NotImplemented"; "__debug__";
   "BaseException"; "Exception"; "ArithmeticError"; "AssertionError";
   "AttributeError"; "EOFError"; "IOError"; "ImportError"; "IndexError";
   "KeyError"; "KeyboardInterrupt"; "LookupError"; "MemoryError"; "NameError";
   "NotImplementedError"; "OSError"; "OverflowError"; "RuntimeError";
   "StopIteration"; "SyntaxError"; "SystemExit"; "TypeError";
   "UnboundLocalError"; "UnicodeError"; "ValueError"; "ZeroDivisionError";
   "Warning"; "DeprecationWarning"; "UserWarning"].

Inductive binding :=
  | Local (name : string)
  | Global (name : string)
  | Builtin (name : string).

(** Reading the name [x] in the body of [add]. *)
Definition load_name (x : string) : res binding :=
  if bool_decide (x ∈ add_locals) then Ok (Local x)
  else if bool_decide (x ∈ module_globals) then Ok (Global x)
  else if bool_decide (x ∈ builtins) then Ok (Builtin x)
  else Raise (NameError x).

(** The loop [for i, r in enumerate(package['resources'])]: the index of
    the first resource whose relativepath equals that of [h]. *)
Fixpoint find_resource (h : record) (rs : list record) (i : nat) : res (option nat) :=
  match rs with
  | [] => Ok None
  | r :: rs' =>
      match getitem h "relativepath" with
      | Raise e => Raise e
      | Ok hp =>
          match getitem r "relativepath" with
          | Raise e => Raise e
          | Ok rp => if py_eq hp rp then Ok (Some i) else find_resource h rs' (S i)
          end
      end
  end.

(** The body of the loop [for h in files]. *)
Definition merge_record (rs : list record) (h : record) : res (list record) :=
  match find_resource h rs 0 with
  | Raise e => Raise e
  | Ok (Some i) => Ok (<[i := h]> rs)
  | Ok None => Ok (rs ++ [h])
  end.

Fixpoint merge_records (rs : list record) (files : list record) : res (list record) :=
  match files with
  | [] => Ok rs
  | h :: files' =>
      match merge_record rs h with
      | Raise e => Raise e
      | Ok rs' => merge_records rs' files'
      end
  end.

Definition read_document (path : string) : M package :=
  fun w => match documents w !! path with
           | Some p => (Ok p, w)
           | None => (Raise (IOError path), w)
           end.

Definition write_document (path : string) (p : package) : M unit :=
  fun w => (Ok tt, mkWorld (clock w) (uuids w) (trace w) (edits w) (keystrokes w)
                           (<[path := p]> (documents w))).

Section Add.
(** [run_executable], the callee of the execute branch: any behaviour. *)
Variable run_executable : binding -> Repo -> list string -> list string -> M (list record).

Definition add (repo : Repo) (args : list string) (execute generator : bool)
    (targetdir : string) (includes : list string) (script : bool)
    (source : pyval) : M unit :=
  files <- (if negb execute
            then add_files args targetdir generator source script
            else (repomanager <- lift (load_name "repomanager") ;;
                  run_executable repomanager repo args includes)) ;;
  if 0 <? length files then
    manager_add_files repo files ;;;
    let datapath := os_path_join (rootdir repo) "datapackage.json" in
    package <- read_document datapath ;;
    merged <- lift (merge_records (resources package) files) ;;
    write_document datapath (Package merged (members package))
  else ret tt.

End Add.

(** *** Notions used to state the properties *)

(** The key [add_files] files a path under: what the constructor it
    dispatches to returns first. *)
Definition batch_key (f : string) : string :=
  if contains "://" f then f else os_path_basename f.

(** The tags [add_files] puts on a record. *)
Definition stamped (ts : string) (again : bool) (r : record) : record :=
  <["ts" := PyStr ts]> (<["change" := PyStr (if again then "update" else "add")]> r).

(** The constructor [add_files] calls for a path. *)
Definition dispatch (targetdir : string) (generator script : bool) (source : pyval)
    (f : string) : M (string * record) :=
  if contains "://" f then add_link f
  else add_file_normal f targetdir generator script source.

(** The relativepaths of an array of resources, in order. *)
Definition paths (rs : list record) : list (option pyval) :=
  (fun r : record => r !! "relativepath") <$> rs.

(** The three filters of [extract_files] on an opened path. *)
Definition kept (includes : list string) (p : string) : bool :=
  path_exists E p && path_isfile E p && existsb (fnmatch E (relpath E p)) includes.

(** The action lists of a table: free of duplicates, not empty, made of
    "input" and "output". *)
Definition actions_ok (files : gmap string (list string)) : Prop :=
  forall k actions, files !! k = Some actions ->
    NoDup actions /\ actions <> [] /\
    forall a, a ∈ actions -> a = "input" \/ a = "output".

End Host.
End files.

(** ** A small host, for examples

    A working directory [/home/alice/work], four files on disk, and a
    glob matcher for patterns made of literal characters, [*] and [?]. *)
Module demo.
Import Py files.

Fixpoint glob (pat : string) : string -> bool :=
  match pat with
  | EmptyString => fun name => bool_decide (name = EmptyString)
  | String c pat' =>
      if Ascii.eqb c "*" then
        fix star (name : string) : bool :=
          glob pat' name
          || match name with
             | EmptyString => false
             | String _ name' => star name'
             end
      else if Ascii.eqb c "?" then
        fun name => match name with
                    | EmptyString => false
                    | String _ name' => glob pat' name'
                    end
      else
        fun name => match name with
                    | EmptyString => false
                    | String d name' => Ascii.eqb c d && glob pat' name'
                    end
  end.

Definition cwd : string := "/home/alice/work/".

Definition on_disk : list string :=
  ["/tmp/in.csv"; "/home/alice/work/out/result.csv";
   "/home/alice/work/model.py"; "/usr/bin/python3"].

Definition to_abs (p : string) : string :=
  if startswith slash p then p else cwd +:+ p.

Definition from_cwd (p : string) : string :=
  match after_prefix cwd (to_abs p) with
  | Some r => r
  | None => "../../.." +:+ to_abs p
  end.

Definition trace_log : list string :=
  ["20826 open(b'/tmp/in.csv', O_RDONLY|O_CLOEXEC) = 3" +:+ String newline EmptyString;
   "20826 read(3, b'a,b', 4096) = 3" +:+ String newline EmptyString;
   "20826 open(b'/tmp/in.csv', O_RDONLY) = 4" +:+ String newline EmptyString;
   "20826 open(b'/tmp/in.csv', O_WRONLY|O_CREAT) = 5" +:+ String newline EmptyString;
   "20826 open(b'/tmp/missing.csv', O_RDONLY) = -1 ENOENT" +:+ String newline EmptyString].

Definition host : Env := {|
  now_iso := fun n => "2016-03-01T10:00:00." +:+ pretty n;
  uuid1 := fun n => "uuid-" +:+ pretty n;
  guess_type := fun f => if contains ".csv" f then Some "text/csv" else None;
  compute_sha256 := fun f =>
    if bool_decide (to_abs f ∈ on_disk) then Ok (PyStr ("sha256:" +:+ to_abs f))
    else Raise (IOError f);
  relpath := from_cwd;
  abspath := to_abs;
  realpath := to_abs;
  path_exists := fun p => bool_decide (to_abs p ∈ on_disk);
  path_isfile := fun p => bool_decide (to_abs p ∈ on_disk);
  fnmatch := fun name pat => glob pat name;
  environ_HOME := Some "/home/alice";
  readlines := fun name =>
    if bool_decide (name = "strace.out.txt") then Ok trace_log
    else Raise (IOError name);
  read512 := fun f => Ok EmptyString;
|}.

Definition world0 : World := mkWorld 0 0 [] [] 0 ∅.

Definition repo : Repo := {|
  rootdir := "/home/alice/work";
  permalink := fun f =>
    if bool_decide (f = "/home/alice/work/model.py")
    then (Some "model.py", Some "https://example.org/alice/work/blob/3fa9c1/model.py")
    else (None, None);
  manager_add_files := fun _ => ret tt;
|}.

End demo.

(** ** [dgitcore/instrumentation.py] *)
Module instrumentation.

Record Key := mkKey {
  key_name : string;
  key_version : string;
}.

(** The attributes [__init__] assigns. *)
Record InstrumentationBase := mkBase {
  name : string;
  version : string;
  description : string;
  support : list string;
}.

(** The overridable methods: each receives the object and returns it as
    the call leaves it. *)
Class Provider := {
  initialize : InstrumentationBase -> InstrumentationBase;
}.

(** [InstrumentationBase.initialize]: [return]. *)
Definition base_initialize (self : InstrumentationBase) : InstrumentationBase := self.

Definition base_provider : Provider := {| initialize := base_initialize |}.

(** [InstrumentationBase.config]: [return], the object untouched. *)
Definition config (what : string) (params : option Py.pyval)
    (self : InstrumentationBase) : InstrumentationBase * Py.pyval :=
  (self, Py.PyNone).

(** [__init__(self, name, version, description, supported=[])] *)
Definition init `{Provider} (name version description : string)
    (supported : option (list string)) : InstrumentationBase :=
  let supported := default [] supported in
  let self := mkBase name version description (supported ++ [name]) in
  initialize self.

End instrumentation.

(** ** Further notions and the traced run

    Notions used to state further properties, and [run_executable] with
    what it asks of the host: the platform plugin, the temporary
    directory, the traced process and the two log files. *)
Module files_more.
Import Py files.

(** A computation that leaves the manifests and the operator alone. *)
Definition offline {A} (m : M A) : Prop :=
  forall w r w', m w = (r, w') ->
    documents w' = documents w /\ edits w' = edits w /\ keystrokes w' = keystrokes w.


(** The pair (path, action) is noted in the table. *)
Definition noted (files : gmap string (list string)) (k a : string) : Prop :=
  exists actions, files !! k = Some actions /\ a ∈ actions.


(** What the directory loop takes an answer for. *)
Definition revised_of (v : yamlval) : res (gmap string string) :=
  yaml_keys (match yaml_load v with Ok v' => v' | Raise _ => YMap ∅ end).


(** The document the operator saves in the next editor session. *)
Definition next_edit (shown : yamlval) (w : World) : yamlval :=
  match edits w with [] => shown | saved :: _ => saved end.

(** The world after an editor session. *)
Definition edited (v : yamlval) (w : World) : World :=
  mkWorld (clock w) (uuids w) (trace w ++ [Editor v]) (tail (edits w))
    (keystrokes w) (documents w).

Definition reprompt : list event :=
  [Print "Could not process edited file. Either some rows are missing or entry has YAML syntax errors";
   Input "Press ENTER to continue"].


(** The captured paths the operator kept, in the order shown. *)
Definition selection (files : gmap string (list string)) (selected : yamlval) : list string :=
  List.filter (fun f => yaml_in f selected) (sorted (map fst (map_to_list files))).

(** The key of a file in the directory mapping. *)
Definition directory (f : string) : string :=
  let dirname := os_path_dirname f in
  if bool_decide (dirname = EmptyString) then "." else dirname.

(** The directory mapping shown to the operator. *)
Definition directories (filenames : list string) : gmap string string :=
  foldl (fun prefixes f => <[directory f := directory f]> prefixes) ∅ filenames.



(** A computation that only adds events to the trace. *)
Definition grows {A} (m : M A) : Prop :=
  forall w r w', m w = (r, w') -> trace w `prefix_of` trace w'.

(** A value of a stamped record: a plain value, or the mapping stored
    under [execution_metadata]. *)
Inductive value :=
  | Plain (v : pyval)
  | Mapping (d : gmap string pyval).

(** What [run_executable] asks of the process and of the plugin manager. *)
Record Runner := mkRunner {
  (* mgr.get(what='instrumentation', name='platform').get_metadata() *)
  platform_metadata : M (gmap string pyval);
  (* tempfile.mkdtemp() *)
  mkdtemp : M string;
  (* subprocess.Popen(cmd, ...).communicate(): stdout and stderr *)
  communicate : list string -> M (string * string);
  (* with open(name, 'w') as fd: fd.write(text.decode('utf-8')) *)
  write_decoded : string -> string -> M unit;
}.

Section Run.
Variable E : Env.
Variable R : Runner.

Definition run_executable (repo : Repo) (args includes : list string)
    : M (list (gmap string value)) :=
  platform <- platform_metadata R ;;
  print "Obtaining Commit Information" ;;;
  r <- find_executable_commitpath E repo args ;;
  let '(executable, commiturl) := r in
  tmpdir <- mkdtemp R ;;
  print "Running the command" ;;;
  let strace_filename := os_path_join tmpdir "strace.out.txt" in
  let cmd := ["strace.py"; "-f"; "-o"; strace_filename; "-s"; "1024"; "-q"; "--"] ++ args in
  r <- communicate R cmd ;;
  let '(out, err) := r in
  write_decoded R (os_path_join tmpdir "stdout.log.txt") out ;;;
  write_decoded R (os_path_join tmpdir "stderr.log.txt") err ;;;
  files <- extract_files E strace_filename includes ;;
  let execution_metadata : gmap string pyval :=
    platform ∪ list_to_map [
      ("likelyexecutable", opt_str executable);
      ("commitpath", opt_str commiturl);
      ("args", PyList args)
    ] in
  ret (map (fun f : record =>
              <["execution_metadata" := Mapping execution_metadata]> (Plain <$> f))
           files).

End Run.

End files_more.

(** ** Further sample data

    A tracked repository, a captured log with one output file and a
    runner, used to instantiate the properties of [files_extra]. *)

Module demo_more.
Import Py files files_more.

Definition ra : record := {["relativepath" := PyStr "a.csv"]}.
Definition rb : record := {["relativepath" := PyStr "b.csv"]}.
Definition rc : record := {["relativepath" := PyStr "c.csv"]}.
Definition rb1 : record := <["sha256" := PyStr "01"]> rb.
Definition rb2 : record := <["sha256" := PyStr "02"]> rb.

Definition manifest_path : string := "/home/alice/work/datapackage.json".


Definition capture_log : list string :=
  ["311 open(b'/home/alice/work/out/result.csv', O_WRONLY|O_CREAT) = 3"
   +:+ String newline EmptyString].

Definition capture_host : Env := {|
  now_iso := now_iso demo.host;
  uuid1 := uuid1 demo.host;
  guess_type := guess_type demo.host;
  compute_sha256 := compute_sha256 demo.host;
  relpath := relpath demo.host;
  abspath := abspath demo.host;
  realpath := realpath demo.host;
  path_exists := path_exists demo.host;
  path_isfile := path_isfile demo.host;
  fnmatch := fnmatch demo.host;
  environ_HOME := environ_HOME demo.host;
  readlines := fun name =>
    if bool_decide (name = "/tmp/tmpx/strace.out.txt") then Ok capture_log
    else Raise (IOError name);
  read512 := read512 demo.host;
|}.

Definition attended : World := mkWorld 0 0 [] [] 1 ∅.

Definition runner : Runner := {|
  platform_metadata := ret {["os" := PyStr "Linux"]};
  mkdtemp := ret "/tmp/tmpx";
  communicate := fun _ => ret (EmptyString, EmptyString);
  write_decoded := fun _ _ => ret tt;
|}.




(** A log in which one file is read, read again and written. *)
Definition mixed_log : list string :=
  ["311 open(b'/home/alice/work/out/result.csv', O_RDONLY) = 3"
   +:+ String newline EmptyString;
   "311 open(b'/home/alice/work/out/result.csv', O_RDONLY|O_CLOEXEC) = 4"
   +:+ String newline EmptyString;
   "311 open(b'/home/alice/work/out/result.csv', O_WRONLY|O_CREAT) = 5"
   +:+ String newline EmptyString].

Definition mixed_host : Env := {|
  now_iso := now_iso demo.host;
  uuid1 := uuid1 demo.host;
  guess_type := guess_type demo.host;
  compute_sha256 := compute_sha256 demo.host;
  relpath := relpath demo.host;
  abspath := abspath demo.host;
  realpath := realpath demo.host;
  path_exists := path_exists demo.host;
  path_isfile := path_isfile demo.host;
  fnmatch := fnmatch demo.host;
  environ_HOME := environ_HOME demo.host;
  readlines := fun name =>
    if bool_decide (name = "/tmp/tmpx/strace.out.txt") then Ok mixed_log
    else Raise (IOError name);
  read512 := read512 demo.host;
|}.

(** A callee for the execute branch of [add]; never reached. *)
Definition no_run : binding -> Repo -> list string -> list string -> M (list record) :=
  fun _ _ _ _ => ret [].
End demo_more.

(** * Properties *)

(** ** Facts on the string primitives *)
Module PyFacts.
Import Py.

Lemma rfind_None_startswith c s : rfind c s = None -> startswith c s = false.
Proof.
  destruct s as [|d s]; simpl; [done|].
  destruct (rfind c s); [done|]. by destruct (Ascii.eqb d c).
Qed.

(** A basename never begins with a slash, so [os.path.join] keeps its
    first argument. *)
Lemma basename_no_leading_slash p : startswith slash (os_path_basename p) = false.
Proof.
  unfold os_path_basename.
  induction p as [|d p IH]; simpl; [done|].
  destruct (rfind slash p) as [k|] eqn:Hk; simpl.
  - exact IH.
  - destruct (Ascii.eqb d slash) eqn:Hd; simpl.
    + by apply rfind_None_startswith.
    + exact Hd.
Qed.

Lemma join_basename a p :
  os_path_join a (os_path_basename p) =
    if bool_decide (a = EmptyString) || endswith slash a
    then a +:+ os_path_basename p
    else a +:+ String slash (os_path_basename p).
Proof. unfold os_path_join. by rewrite basename_no_leading_slash. Qed.

Lemma contains_unfold sub s :
  contains sub s =
    if String.prefix sub s then true
    else match s with
         | EmptyString => false
         | String _ s' => contains sub s'
         end.
Proof. by destruct s. Qed.

Lemma prefix_contains sub s : String.prefix sub s = true -> contains sub s = true.
Proof. intros H. rewrite contains_unfold. by rewrite H. Qed.

Lemma contains_tail sub c s : contains sub s = true -> contains sub (String c s) = true.
Proof.
  intros H. rewrite contains_unfold. rewrite H.
  by destruct (String.prefix sub (String c s)).
Qed.

End PyFacts.

(** ** Facts on [files.py] *)
Module files_spec.
Import Py files PyFacts.

(** Running a sequence of two computations. *)
Lemma bind_Ok {A B} (m : M A) (k : A -> M B) w b w' :
  bind m k w = (Ok b, w') -> exists a w1, m w = (Ok a, w1) /\ k a w1 = (Ok b, w').
Proof.
  unfold bind. destruct (m w) as [[a|e] w1]; [|discriminate]. intros H. by exists a, w1.
Qed.

Lemma bind_run {A B} (m : M A) (k : A -> M B) w a w1 :
  m w = (Ok a, w1) -> bind m k w = k a w1.
Proof. unfold bind. by intros ->. Qed.

Lemma bind_raise {A B} (m : M A) (k : A -> M B) w e w1 :
  m w = (Raise e, w1) -> bind m k w = (Raise e, w1).
Proof. unfold bind. by intros ->. Qed.

Section Host.
Context (E : Env).

(** *** [add_link] *)

(** C9. For every path (in particular every path containing the scheme
    separator "://"), [add_link] returns a pair whose key is the path
    itself and whose record has type "data", an empty sha256, and no
    local path: [localfullpath] and [localrelativepath] hold [None],
    the absent value. *)
Theorem add_link_record (f : string) (w : World) :
  exists update w',
    add_link E f w = (Ok (f, update), w') /\
    update !! "type" = Some (PyStr "data") /\
    update !! "sha256" = Some (PyStr "") /\
    update !! "localfullpath" = Some PyNone /\
    update !! "localrelativepath" = Some PyNone.
Proof.
  eexists _, _. split; [reflexivity|]. repeat split.
Qed.

Lemma add_link_inv f w key update w' :
  add_link E f w = (Ok (key, update), w') ->
  key = f /\ uuids w' = S (uuids w) /\ clock w' = clock w /\
  update !! "relativepath" = Some (PyStr f).
Proof. intros H. injection H as <- <- <-. done. Qed.

(** *** [add_file_normal] *)

(** What a returning call of [add_file_normal] has computed. *)
Lemma add_file_normal_inv f targetdir generator script source w base update w' :
  add_file_normal E f targetdir generator script source w = (Ok (base, update), w') ->
  exists rel digest,
    os_path_relpath E f = Ok rel /\ compute_sha256 E f = Ok digest /\
    base = os_path_basename f /\
    w' = mkWorld (clock w) (S (uuids w)) (trace w) (edits w) (keystrokes w) (documents w) /\
    update = list_to_map [
      ("type", PyStr (if script then if generator then "generator" else "script" else "data"));
      ("generator", PyBool generator);
      ("uuid", PyStr (uuid1 E (uuids w)));
      ("relativepath", PyStr (if bool_decide (targetdir <> ".")
                              then os_path_join targetdir (os_path_basename f)
                              else os_path_basename f));
      ("mimetypes", opt_str (guess_type E f));
      ("content", PyStr "");
      ("source", source);
      ("sha256", digest);
      ("localfullpath", PyStr f);
      ("localrelativepath", PyStr rel)].
Proof.
  unfold add_file_normal, bind, lift, ret, uuid_uuid1.
  destruct (os_path_relpath E f) as [rel|e]; [|discriminate].
  destruct (compute_sha256 E f) as [digest|e]; [|discriminate].
  intros H. injection H as <- <- <-. by exists rel, digest.
Qed.

(** The call returns whenever the path is not empty and the checksum
    helper answers. *)
Lemma add_file_normal_returns f targetdir generator script source w digest :
  f <> EmptyString -> compute_sha256 E f = Ok digest ->
  exists update w',
    add_file_normal E f targetdir generator script source w
    = (Ok (os_path_basename f, update), w').
Proof.
  intros Hf Hd. unfold add_file_normal, bind, lift, ret, uuid_uuid1, os_path_relpath.
  rewrite bool_decide_eq_false_2 by done. rewrite Hd. by eexists _, _.
Qed.

(** C7. The record a call of [add_file_normal] produces has type
    "script" when script is set and generator is not, "generator" when
    both are set, and "data" when script is not set, whatever the
    generator flag. *)
Theorem add_file_normal_type f targetdir generator script source w base update w' :
  add_file_normal E f targetdir generator script source w = (Ok (base, update), w') ->
  update !! "type" =
    Some (PyStr match script, generator with
                | true, false => "script"
                | true, true => "generator"
                | false, _ => "data"
                end).
Proof.
  intros H. apply add_file_normal_inv in H as (rel & digest & _ & _ & _ & _ & ->).
  by destruct script, generator.
Qed.

(** C8. The record a call of [add_file_normal] produces has for
    relativepath the bare basename of the path when targetdir is ".",
    and [os.path.join] of targetdir and the basename otherwise; the join
    is targetdir, a slash, and the basename whenever targetdir is not
    empty and does not end in a slash (as for "sub"). *)
Theorem add_file_normal_relativepath f targetdir generator script source w base update w' :
  add_file_normal E f targetdir generator script source w = (Ok (base, update), w') ->
  (targetdir = "." ->
     update !! "relativepath" = Some (PyStr (os_path_basename f))) /\
  (targetdir <> "." ->
     update !! "relativepath" = Some (PyStr (os_path_join targetdir (os_path_basename f))) /\
     (targetdir <> EmptyString -> endswith slash targetdir = false ->
        os_path_join targetdir (os_path_basename f)
        = targetdir +:+ "/" +:+ os_path_basename f)).
Proof.
  intros H. apply add_file_normal_inv in H as (rel & digest & _ & _ & _ & _ & ->).
  split.
  - intros ->. reflexivity.
  - intros Hne. split.
    + change (Some (PyStr (if bool_decide (targetdir <> ".")
                           then os_path_join targetdir (os_path_basename f)
                           else os_path_basename f))
              = Some (PyStr (os_path_join targetdir (os_path_basename f)))).
      by rewrite bool_decide_eq_true_2.
    + intros Hempty Hslash. rewrite join_basename, Hslash.
      by rewrite bool_decide_eq_false_2.
Qed.

(** *** [add_files] *)

Lemma add_files_step_inv ts targetdir generator source script f seen w seen' update w' :
  add_files_step E ts targetdir generator source script f seen w = (Ok (seen', update), w') ->
  clock w' = clock w /\
  exists r wi wi',
    dispatch E targetdir generator script source f wi = (Ok (batch_key f, r), wi') /\
    seen' = (if bool_decide (batch_key f ∈ seen) then seen else seen ++ [batch_key f]) /\
    update = stamped ts (bool_decide (batch_key f ∈ seen)) r.
Proof.
  unfold add_files_step, dispatch, batch_key, stamped. intros H.
  apply bind_Ok in H as ([] & w1 & Hp & H). injection Hp as <-.
  apply bind_Ok in H as ([base r] & w2 & Hd & H).
  assert (exists wi, (if contains "://" f then add_link E f
                      else add_file_normal E f targetdir generator script source) wi
                     = (Ok (base, r), w2) /\
                     base = (if contains "://" f then f else os_path_basename f) /\
                     clock w2 = clock w)
    as (wi & Hwi & -> & Hclock).
  { destruct (contains "://" f); cbn [negb] in Hd.
    - apply bind_Ok in Hd as ([] & w1' & Hp & Hd). injection Hp as <-.
      eexists. split; [exact Hd|].
      by apply add_link_inv in Hd as (-> & _ & -> & _).
    - eexists. split; [exact Hd|].
      by apply add_file_normal_inv in Hd as (? & ? & _ & _ & -> & -> & _). }
  set (key := if contains "://" f then f else os_path_basename f) in *.
  assert (w' = w2) as ->.
  { destruct (bool_decide (key ∉ seen)); by injection H. }
  split; [done|]. exists r, wi, w2. split; [exact Hwi|].
  destruct (bool_decide_reflect (key ∈ seen)) as [Hin|Hin].
  - rewrite (bool_decide_eq_false_2 (key ∉ seen)) in H by tauto.
    by injection H as <- <-.
  - rewrite (bool_decide_eq_true_2 (key ∉ seen)) in H by done.
    by injection H as <- <-.
Qed.

Lemma add_files_loop_inv ts targetdir generator source script args :
  forall seen files w out w',
  add_files_loop E ts targetdir generator source script args seen files w = (Ok out, w') ->
  clock w' = clock w /\
  exists new, out = files ++ new /\ length new = length args /\
    forall i f update, args !! i = Some f -> new !! i = Some update ->
      exists r wi wi',
        dispatch E targetdir generator script source f wi = (Ok (batch_key f, r), wi') /\
        update = stamped ts (bool_decide (batch_key f ∈ seen ++ (batch_key <$> take i args))) r.
Proof.
  induction args as [|f args IH]; intros seen files w out w'; simpl.
  - intros H. injection H as <- <-. split; [done|]. exists [].
    rewrite app_nil_r. repeat split. by intros i f u [=].
  - intros H. apply bind_Ok in H as ([seen1 u1] & w1 & Hstep & H).
    apply add_files_step_inv in Hstep as (Hclock & r & wi & wi' & Hd & -> & ->).
    apply IH in H as (Hclock' & new & -> & Hlen & Hnew).
    split; [congruence|].
    exists (stamped ts (bool_decide (batch_key f ∈ seen)) r :: new).
    split; [by rewrite <- app_assoc|]. split; [simpl; by rewrite Hlen|].
    intros [|i] g u; simpl.
    + intros [= <-] [= <-]. exists r, wi, wi'. split; [done|].
      by rewrite app_nil_r.
    + intros Hg Hu. destruct (Hnew i g u Hg Hu) as (r' & vi & vi' & Hd' & ->).
      exists r', vi, vi'. split; [done|]. f_equal.
      apply bool_decide_ext. cbn [take fmap list_fmap].
      destruct (bool_decide_reflect (batch_key f ∈ seen)) as [Hin|Hin];
        rewrite !elem_of_app, ?elem_of_cons, ?elem_of_nil.
      * split; [intros [?|?]; auto|intros [?|[->|?]]; auto].
      * split; [intros [[?|[?|[]]]|?]; auto|intros [?|[?|?]]; auto].
Qed.

(** C3. In a batch [add_files] returns, the i-th record comes from the
    i-th path, built by [add_link] when the path contains "://" and by
    [add_file_normal] otherwise; its change is "add" when no earlier path
    of the batch has the same key and "update" when one has; its ts is
    the one reading of the clock taken when the batch starts. *)
Theorem add_files_batch args targetdir generator source script w files w' :
  add_files E args targetdir generator source script w = (Ok files, w') ->
  clock w' = S (clock w) /\
  length files = length args /\
  forall i f update, args !! i = Some f -> files !! i = Some update ->
    (exists r wi wi',
       (if contains "://" f then add_link E f
        else add_file_normal E f targetdir generator script source) wi
       = (Ok (batch_key f, r), wi') /\
       update = <["ts" := PyStr (now_iso E (clock w))]>
                  (<["change" := PyStr (if bool_decide (batch_key f ∈ batch_key <$> take i args)
                                        then "update" else "add")]> r)) /\
    update !! "change" =
      Some (PyStr (if bool_decide (batch_key f ∈ batch_key <$> take i args)
                   then "update" else "add")) /\
    update !! "ts" = Some (PyStr (now_iso E (clock w))).
Proof.
  unfold add_files. intros H. apply bind_Ok in H as (ts & w1 & Hts & H).
  injection Hts as <- <-.
  apply add_files_loop_inv in H as (Hclock & new & -> & Hlen & Hnew).
  split; [done|]. split; [done|]. intros i f update Hf Hu.
  destruct (Hnew i f update Hf Hu) as (r & wi & wi' & Hd & ->).
  split; [by exists r, wi, wi'|].
  unfold stamped. split.
  - rewrite lookup_insert_ne by done. by rewrite lookup_insert_eq.
  - by rewrite lookup_insert_eq.
Qed.

(** The batch is returned whenever each local path is not empty and has
    a checksum; links need nothing. *)
Lemma add_files_loop_returns ts targetdir generator source script args :
  (forall f, f ∈ args -> contains "://" f = false ->
     f <> EmptyString /\ exists digest, compute_sha256 E f = Ok digest) ->
  forall seen files w,
  exists out w', add_files_loop E ts targetdir generator source script args seen files w
                 = (Ok out, w').
Proof.
  induction args as [|f args IH]; intros Hargs seen files w; simpl.
  - by eexists _, _.
  - assert (exists r w1, add_files_step E ts targetdir generator source script f seen w
                         = (Ok r, w1)) as ([seen1 u1] & w1 & Hstep).
    { unfold add_files_step. unfold bind at 1. unfold print, emit.
      destruct (contains "://" f) eqn:Hlink; cbn [negb].
      - cbv [bind print emit add_link uuid_uuid1 ret].
        destruct (bool_decide (f ∉ seen)); by eexists _, _.
      - destruct (Hargs f) as (Hne & digest & Hd); [left|done|].
        edestruct (add_file_normal_returns f targetdir generator script source)
          as (update & w2 & Hn); [done..|].
        erewrite bind_run by exact Hn. cbv beta iota zeta.
        destruct (bool_decide (os_path_basename f ∉ seen)); cbv [ret]; by eexists _, _. }
    erewrite bind_run by exact Hstep.
    apply IH. intros g Hg. apply Hargs. by right.
Qed.

Lemma add_files_returns args targetdir generator source script w :
  (forall f, f ∈ args -> contains "://" f = false ->
     f <> EmptyString /\ exists digest, compute_sha256 E f = Ok digest) ->
  exists files w', add_files E args targetdir generator source script w = (Ok files, w').
Proof.
  intros Hargs. unfold add_files, bind, datetime_now.
  by apply add_files_loop_returns.
Qed.



(** *** The manifest merge of [add] *)

Lemma find_resource_first (h : record) v (rs : list record) :
  h !! "relativepath" = Some v ->
  forall i0 i r,
  rs !! i = Some r -> r !! "relativepath" = Some v ->
  (forall j r', j < i -> rs !! j = Some r' ->
     exists v', r' !! "relativepath" = Some v' /\ v' <> v) ->
  find_resource h rs i0 = Ok (Some (i0 + i)).
Proof.
  intros Hh. induction rs as [|r0 rs IH]; intros i0 i r Hi Hr Hbefore; [done|].
  cbn [find_resource]. unfold getitem. rewrite Hh.
  destruct i as [|i]; simpl in Hi.
  - injection Hi as ->. rewrite Hr. unfold py_eq.
    rewrite bool_decide_eq_true_2 by done. by rewrite Nat.add_0_r.
  - destruct (Hbefore 0 r0) as (v' & -> & Hne); [lia|done|].
    unfold py_eq. rewrite bool_decide_eq_false_2 by congruence.
    rewrite (IH (S i0) i r Hi Hr).
    + do 2 f_equal. lia.
    + intros j r' Hj Hr'. apply (Hbefore (S j) r'); [lia|done].
Qed.

Lemma find_resource_none (h : record) v (rs : list record) :
  h !! "relativepath" = Some v ->
  (forall r, r ∈ rs -> exists v', r !! "relativepath" = Some v' /\ v' <> v) ->
  forall i0, find_resource h rs i0 = Ok None.
Proof.
  intros Hh. induction rs as [|r0 rs IH]; intros Hall i0; [done|].
  cbn [find_resource]. unfold getitem. rewrite Hh.
  destruct (Hall r0) as (v' & -> & Hne); [left|].
  unfold py_eq. rewrite bool_decide_eq_false_2 by congruence.
  apply IH. intros r Hr. apply Hall. by right.
Qed.

Lemma merge_record_replace (rs : list record) (h : record) (v : pyval) i r :
  h !! "relativepath" = Some v ->
  rs !! i = Some r -> r !! "relativepath" = Some v ->
  (forall j r', j < i -> rs !! j = Some r' ->
     exists v', r' !! "relativepath" = Some v' /\ v' <> v) ->
  merge_record rs h = Ok (<[i := h]> rs).
Proof.
  intros Hh Hi Hr Hbefore. unfold merge_record.
  by rewrite (find_resource_first h v rs Hh 0 i r Hi Hr Hbefore).
Qed.

Lemma merge_record_append (rs : list record) (h : record) (v : pyval) :
  h !! "relativepath" = Some v ->
  (forall r, r ∈ rs -> exists v', r !! "relativepath" = Some v' /\ v' <> v) ->
  merge_record rs h = Ok (rs ++ [h]).
Proof.
  intros Hh Hall. unfold merge_record. by rewrite (find_resource_none h v rs Hh Hall).
Qed.

(** One step of the manifest merge. The merge takes the produced
    records one at a time ([merge_records]); for a record [h] and the resources array
    [rs] as it stands then: when position [i] is the first entry with
    the relativepath of [h], the array becomes [rs] with [h] at position
    [i], every other position and the length unchanged; when no entry
    has that relativepath, the array becomes [rs] followed by [h], one
    longer. *)
Theorem merge_record_upsert (rs : list record) (h : record) (v : pyval) :
  h !! "relativepath" = Some v ->
  (forall i r,
     rs !! i = Some r -> r !! "relativepath" = Some v ->
     (forall j r', j < i -> rs !! j = Some r' ->
        exists v', r' !! "relativepath" = Some v' /\ v' <> v) ->
     merge_record rs h = Ok (<[i := h]> rs) /\
     <[i := h]> rs !! i = Some h /\
     (forall j, j <> i -> <[i := h]> rs !! j = rs !! j) /\
     length (<[i := h]> rs) = length rs) /\
  ((forall r, r ∈ rs -> exists v', r !! "relativepath" = Some v' /\ v' <> v) ->
     merge_record rs h = Ok (rs ++ [h]) /\
     length (rs ++ [h]) = S (length rs)).
Proof.
  intros Hh. split.
  - intros i r Hi Hr Hbefore.
    split; [by eapply merge_record_replace|]. split; [|split].
    + apply list_lookup_insert_eq. by eapply lookup_lt_Some.
    + intros j Hj. by apply list_lookup_insert_ne.
    + apply length_insert.
  - intros Hall. split; [by eapply merge_record_append|].
    rewrite length_app. simpl. lia.
Qed.

(** In a manifest whose relativepaths are pairwise distinct the entry
    with the relativepath of [h] is the only one, it is the one
    replaced, and the merged array has pairwise distinct relativepaths
    again. *)
Lemma merge_record_unique (rs : list record) (h : record) (v : pyval) :
  h !! "relativepath" = Some v ->
  Forall (fun r : record => is_Some (r !! "relativepath")) rs ->
  NoDup (paths rs) ->
  exists rs',
    merge_record rs h = Ok rs' /\
    NoDup (paths rs') /\
    (forall i r, rs !! i = Some r -> r !! "relativepath" = Some v -> rs' = <[i := h]> rs) /\
    (Some v ∉ paths rs -> rs' = rs ++ [h]).
Proof.
  intros Hh Hall Hnd.
  destruct (decide (Some v ∈ paths rs)) as [Hin|Hnin].
  - apply list_elem_of_lookup in Hin as (i & Hi).
    unfold paths in Hi. rewrite list_lookup_fmap in Hi.
    destruct (rs !! i) as [r|] eqn:Hr; [|done]. injection Hi as Hi.
    assert (forall j r', j <> i -> rs !! j = Some r' ->
              exists v', r' !! "relativepath" = Some v' /\ v' <> v) as Hothers.
    { intros j r' Hj Hr'.
      pose proof (proj1 (Forall_lookup _ _) Hall j r' Hr') as [v' Hv'].
      exists v'. split; [exact Hv'|].
      intros ->. apply Hj. apply (NoDup_lookup (paths rs) j i (Some v) Hnd).
      - unfold paths. rewrite list_lookup_fmap, Hr'. simpl. by rewrite Hv'.
      - unfold paths. rewrite list_lookup_fmap, Hr. simpl. by rewrite Hi. }
    assert (merge_record rs h = Ok (<[i := h]> rs)) as Hm.
    { apply (merge_record_replace rs h v i r Hh Hr Hi).
      intros j r' Hj. apply Hothers. lia. }
    exists (<[i := h]> rs). split; [done|]. split; [|split].
    + unfold paths. rewrite list_fmap_insert, Hh.
      rewrite list_insert_id; [done|]. rewrite list_lookup_fmap, Hr. simpl. by rewrite Hi.
    + intros i' r' Hr' Hi'. destruct (decide (i' = i)) as [->|Hne]; [done|].
      destruct (Hothers i' r' Hne Hr') as (v' & Hv' & Hv). congruence.
    + intros Hnin. exfalso. apply Hnin. apply list_elem_of_lookup. exists i.
      unfold paths. rewrite list_lookup_fmap, Hr. simpl. by rewrite Hi.
  - assert (merge_record rs h = Ok (rs ++ [h])) as Hm.
    { apply (merge_record_append rs h v Hh). intros r Hr. destruct (proj1 (Forall_forall _ _) Hall r Hr) as [v' Hv'].
      exists v'. split; [done|]. intros ->. apply Hnin.
      unfold paths. apply list_elem_of_fmap. by exists r. }
    exists (rs ++ [h]). split; [done|]. split; [|split].
    + unfold paths. rewrite fmap_app. apply NoDup_app. split; [done|]. split.
      * intros x Hx Hx'. simpl in Hx'. apply list_elem_of_singleton in Hx'. subst x.
        by rewrite Hh in Hx.
      * simpl. apply NoDup_singleton.
    + intros i r Hr Hi. exfalso. apply Hnin. apply list_elem_of_lookup. exists i.
      unfold paths. rewrite list_lookup_fmap, Hr. simpl. by rewrite Hi.
    + done.
Qed.




Section Add.
Variable run_executable : binding -> Repo -> list string -> list string -> M (list record).


Lemma load_name_repomanager : load_name "repomanager" = Raise (NameError "repomanager").
Proof. vm_compute. reflexivity. Qed.

(** C2. Every call of [add] with execute set raises the unbound-name
    error for [repomanager], whatever [run_executable] would do: no
    record is produced and the world, its manifests included, is as it
    was. *)
Theorem add_execute_unbound_name repo args generator targetdir includes script source w :
  add E run_executable repo args true generator targetdir includes script source w
  = (Raise (NameError "repomanager"), w).
Proof.
  unfold add. cbn [negb].
  apply bind_raise. apply bind_raise. unfold lift. by rewrite load_name_repomanager.
Qed.

End Add.

(** *** [extract_files] *)

Lemma lazy_group_nonempty stop t g : lazy_group stop t = Some g -> g <> EmptyString.
Proof.
  destruct t as [|c t]; simpl; [done|].
  destruct (Ascii.eqb c newline); [done|].
  destruct t as [|d t]; [done|].
  destruct (stop d); [by intros [= <-]|].
  destruct (lazy_group stop (String d t)); simpl; [by intros [= <-]|done].
Qed.

Lemma re_search_head at_head l g :
  re_search at_head l = Some g -> exists l', at_head l' = Some g.
Proof.
  induction l as [|c l IH]; simpl.
  - destruct (at_head EmptyString) eqn:H; [|done]. intros [= <-]. by eexists.
  - destruct (at_head (String c l)) eqn:H; [intros [= <-]; by eexists|exact IH].
Qed.

Lemma matched_file_nonempty l p : matched_file l = Some p -> p <> EmptyString.
Proof.
  unfold matched_file.
  destruct (re_search match_open_bytes l) as [g|] eqn:Hb.
  - intros [= <-]. apply re_search_head in Hb as (l' & Hb).
    unfold match_open_bytes in Hb.
    destruct (after_prefix "open(b" l') as [[|q t]|]; [done| |done].
    destruct (is_quote q); [|done]. by eapply lazy_group_nonempty.
  - intros Hp. apply re_search_head in Hp as (l' & Hp).
    unfold match_open_plain in Hp.
    destruct (after_prefix "open(" l') as [[|q t]|]; [done| |done].
    destruct (Ascii.eqb q dquote); [|done]. by eapply lazy_group_nonempty.
Qed.

Lemma note_action_lookup key action (files : gmap string (list string)) :
  note_action key action files !! key =
    Some match files !! key with
         | None => [action]
         | Some actions =>
             if bool_decide (action ∈ actions) then actions else actions ++ [action]
         end.
Proof.
  unfold note_action. destruct (files !! key) as [actions|] eqn:Hk.
  - destruct (bool_decide_reflect (action ∈ actions)) as [Hin|Hin].
    + rewrite bool_decide_eq_false_2 by tauto. done.
    + rewrite bool_decide_eq_true_2 by done. by rewrite lookup_insert_eq.
  - by rewrite lookup_insert_eq.
Qed.

Lemma note_action_other key action (files : gmap string (list string)) k :
  k <> key -> note_action key action files !! k = files !! k.
Proof.
  intros Hk. unfold note_action. destruct (files !! key) as [actions|].
  - destruct (bool_decide (action ∉ actions)); [|done]. by rewrite lookup_insert_ne.
  - by rewrite lookup_insert_ne.
Qed.

Lemma note_action_recorded key action (files : gmap string (list string)) actions :
  files !! key = Some actions -> action ∈ actions -> note_action key action files = files.
Proof.
  intros Hk Hin. unfold note_action. rewrite Hk.
  by rewrite bool_decide_eq_false_2 by tauto.
Qed.

Lemma note_action_idemp key action (files : gmap string (list string)) :
  note_action key action (note_action key action files) = note_action key action files.
Proof.
  eapply note_action_recorded; [apply note_action_lookup|].
  destruct (files !! key) as [actions|]; [|by left].
  destruct (bool_decide_reflect (action ∈ actions)); [done|].
  apply elem_of_app. right. by left.
Qed.

Lemma note_includes_spec key action includes (files : gmap string (list string)) :
  note_includes E key action includes files =
    if existsb (fnmatch E key) includes then note_action key action files else files.
Proof.
  unfold note_includes.
  assert (forall incl fs,
            foldl (fun files i => if fnmatch E key i
                                  then note_action key action files else files)
                  (note_action key action fs) incl = note_action key action fs) as Hdone.
  { induction incl as [|i incl IH]; intros fs; simpl; [done|].
    destruct (fnmatch E key i); [|done]. by rewrite note_action_idemp. }
  revert files. induction includes as [|i includes IH]; intros files; simpl; [done|].
  destruct (fnmatch E key i); simpl; [apply Hdone|apply IH].
Qed.

Lemma note_action_NoDup key action (files : gmap string (list string)) :
  (forall k actions, files !! k = Some actions -> NoDup actions) ->
  forall k actions, note_action key action files !! k = Some actions -> NoDup actions.
Proof.
  intros Hfiles k actions. destruct (decide (k = key)) as [->|Hk].
  - rewrite note_action_lookup. intros [= <-].
    destruct (files !! key) as [old|] eqn:Hold.
    + destruct (bool_decide_reflect (action ∈ old)) as [Hin|Hin]; [by eapply Hfiles|].
      apply NoDup_app. split; [by eapply Hfiles|]. split; [|apply NoDup_singleton].
      intros x Hx ->%list_elem_of_singleton. done.
    + apply NoDup_singleton.
  - rewrite note_action_other by done. apply Hfiles.
Qed.

(** One line of the scan. A stripped trace line whose opened path exists, is a regular
    file and, in its form relative to the current directory (the form
    under which the code matches and records it), matches at least one
    include pattern, is recorded under the action "input" when the line
    contains O_RDONLY and "output" otherwise. The actions of the path
    become the one action when the path is new, stay as they are (and so
    does the whole table) when the action is already there, and gain
    the action at the end otherwise; the other paths are untouched, and
    action lists free of duplicates stay so. *)
Theorem scan_line_classifies includes (files : gmap string (list string)) l p :
  matched_file l = Some p ->
  path_exists E p = true -> path_isfile E p = true ->
  (exists i, i ∈ includes /\ fnmatch E (relpath E p) i = true) ->
  let action := if contains "O_RDONLY" l then "input" else "output" in
  let key := relpath E p in
  exists files',
    scan_line E includes files l = Ok files' /\
    files' !! key =
      Some match files !! key with
           | None => [action]
           | Some actions =>
               if bool_decide (action ∈ actions) then actions else actions ++ [action]
           end /\
    (forall k, k <> key -> files' !! k = files !! k) /\
    (forall actions, files !! key = Some actions -> action ∈ actions -> files' = files) /\
    ((forall k actions, files !! k = Some actions -> NoDup actions) ->
     forall k actions, files' !! k = Some actions -> NoDup actions).
Proof.
  intros Hp Hex Hfile (i & Hi & Hmatch) action key.
  exists (note_action key action files). split; [|split; [|split; [|split]]].
  - unfold scan_line. rewrite Hp, Hex, Hfile. cbn [andb].
    unfold os_path_relpath. rewrite bool_decide_eq_false_2 by by eapply matched_file_nonempty.
    rewrite note_includes_spec.
    assert (existsb (fnmatch E (relpath E p)) includes = true) as ->; [|done].
    apply existsb_exists. exists i. split; [by apply list_elem_of_In|done].
  - apply note_action_lookup.
  - intros k Hk. by apply note_action_other.
  - intros actions. apply note_action_recorded.
  - apply note_action_NoDup.
Qed.
Lemma scan_line_skip includes (files : gmap string (list string)) l :
  (forall p, matched_file l = Some p -> kept E includes p = false) ->
  scan_line E includes files l = Ok files.
Proof.
  intros Hl. unfold scan_line. destruct (matched_file l) as [p|] eqn:Hp; [|done].
  specialize (Hl p eq_refl). unfold kept in Hl.
  destruct (path_exists E p && path_isfile E p); [|done]. simpl in Hl.
  unfold os_path_relpath. rewrite bool_decide_eq_false_2 by by eapply matched_file_nonempty.
  by rewrite note_includes_spec, Hl.
Qed.

Lemma scan_lines_skip includes lines (files : gmap string (list string)) :
  (forall l p, l ∈ lines -> matched_file l = Some p -> kept E includes p = false) ->
  scan_lines E includes lines files = Ok files.
Proof.
  induction lines as [|l lines IH]; intros Hl; simpl; [done|].
  rewrite scan_line_skip by (intros p; apply Hl; left).
  apply IH. intros l' p Hin. apply Hl. by right.
Qed.

Lemma open_lines_elem l lines :
  l ∈ open_lines lines -> exists l0, l0 ∈ lines /\ contains "open(" l0 = true /\ l = strip l0.
Proof.
  unfold open_lines. intros (l0 & -> & Hl0)%list_elem_of_fmap.
  apply list_elem_of_In, filter_In in Hl0 as [Hin Hopen].
  exists l0. by rewrite list_elem_of_In.
Qed.

(** C5. When the trace log can be read and no path opened in it is an
    existing regular file matching an include pattern, [extract_files]
    returns the empty list; all it does is print the notice: no editor
    session, no prompt, no pending edit or keystroke consumed, no
    exception. *)
Theorem extract_files_no_match filename includes lines w :
  readlines E filename = Ok lines ->
  (forall l p, l ∈ lines -> contains "open(" l = true ->
     matched_file (strip l) = Some p ->
     path_exists E p && path_isfile E p
     && existsb (fnmatch E (relpath E p)) includes = false) ->
  extract_files E filename includes w
  = (Ok [], mkWorld (clock w) (uuids w)
              (trace w ++ [Print "No input or output files found that match pattern"])
              (edits w) (keystrokes w) (documents w)).
Proof.
  intros Hread Hnone. unfold extract_files, bind, lift. rewrite Hread.
  rewrite scan_lines_skip; [done|].
  intros l p (l0 & Hin & Hopen & ->)%open_lines_elem Hp. by eapply Hnone.
Qed.

(** A line never raises: it leaves the table as it is or notes one
    action. *)
Lemma scan_line_total includes (files : gmap string (list string)) l :
  exists files', scan_line E includes files l = Ok files' /\
    (files' = files \/
     exists p, matched_file l = Some p /\ kept E includes p = true /\
               files' = note_action (relpath E p) (action_of l) files).
Proof.
  unfold scan_line, kept.
  destruct (matched_file l) as [p|] eqn:Hp; [|exists files; split; [done|by left]].
  destruct (path_exists E p && path_isfile E p) eqn:Hk;
    [|exists files; split; [done|by left]].
  assert (os_path_relpath E p = Ok (relpath E p)) as ->.
  { unfold os_path_relpath.
    by rewrite bool_decide_eq_false_2 by by eapply matched_file_nonempty. }
  rewrite note_includes_spec. eexists. split; [done|].
  destruct (existsb _ _) eqn:Hm; [|by left]. right. exists p. by rewrite Hk, Hm.
Qed.

Lemma note_action_ok key l (files : gmap string (list string)) :
  actions_ok files -> actions_ok (note_action key (action_of l) files).
Proof.
  intros Hok k actions Hk. split.
  - revert k actions Hk. apply note_action_NoDup. intros k' a' H'. by apply (Hok k' a').
  - destruct (decide (k = key)) as [->|Hne].
    + rewrite note_action_lookup in Hk. injection Hk as <-.
      assert (action_of l = "input" \/ action_of l = "output") as Hact.
      { unfold action_of. destruct (contains "O_RDONLY" l); auto. }
      destruct (files !! key) as [old|] eqn:Hold.
      * destruct (Hok key old Hold) as (_ & Hne & Hio).
        destruct (bool_decide (action_of l ∈ old)); [done|].
        split; [by destruct old|].
        intros a [Ha|Ha%list_elem_of_singleton]%elem_of_app; [auto|by subst].
      * split; [done|]. by intros a ->%list_elem_of_singleton.
    + rewrite note_action_other in Hk by done. by apply (Hok k actions).
Qed.

Lemma scan_lines_actions includes lines :
  forall files : gmap string (list string),
  actions_ok files ->
  exists files', scan_lines E includes lines files = Ok files' /\ actions_ok files'.
Proof.
  induction lines as [|l lines IH]; intros files Hok; simpl; [by eexists|].
  destruct (scan_line_total includes files l) as (files1 & -> & [->|(p & _ & _ & ->)]).
  - by apply IH.
  - apply IH. by apply note_action_ok.
Qed.

(** *** [find_executable_commitpath] *)
Lemma find_first_skip repo before rest :
  Forall (fun g => path_exists E g = false) before ->
  find_first E repo (before ++ rest) = find_first E repo rest.
Proof.
  induction 1 as [|g before Hg _ IH]; simpl; [done|]. by rewrite Hg.
Qed.

Lemma find_first_none repo args :
  Forall (fun g => path_exists E g = false) args ->
  find_first E repo args = Ok (None, None).
Proof. induction 1 as [|g args Hg _ IH]; simpl; [done|]. by rewrite Hg. Qed.

(** C6. Let [f] be the first argument naming an existing path, and
    [realpath f] its canonical absolute form. When the repository
    manager answers [(rel, link)] with a permalink for it, the result is
    [(rel, link)]; when it answers with no permalink and the home
    directory is a prefix of [realpath f], the result is
    [(realpath f, None)]. When no argument names an existing path the
    result is [(None, None)], both components absent. *)
Theorem find_executable_commitpath_cases repo args w :
  let w' := mkWorld (clock w) (uuids w)
              (trace w ++ [PrintList "Finding executable commit path" args])
              (edits w) (keystrokes w) (documents w) in
  (forall before f after rel,
     args = before ++ f :: after ->
     Forall (fun g => path_exists E g = false) before ->
     path_exists E f = true ->
     (forall link, permalink repo (realpath E f) = (rel, Some link) ->
        find_executable_commitpath E repo args w = (Ok (rel, Some link), w')) /\
     (forall home, permalink repo (realpath E f) = (rel, None) ->
        environ_HOME E = Some home ->
        String.prefix home (realpath E f) = true ->
        find_executable_commitpath E repo args w = (Ok (Some (realpath E f), None), w'))) /\
  (Forall (fun g => path_exists E g = false) args ->
     find_executable_commitpath E repo args w = (Ok (None, None), w')).
Proof.
  intros w'. split.
  - intros before f after rel -> Hbefore Hf.
    unfold find_executable_commitpath, bind, emit, lift.
    rewrite find_first_skip by done. cbn [find_first]. rewrite Hf. split.
    + intros link ->. done.
    + intros home -> Hhome Hunder. unfold environ_getitem_HOME. rewrite Hhome.
      by rewrite (prefix_contains _ _ Hunder).
  - intros Hnone. unfold find_executable_commitpath, bind, emit, lift.
    by rewrite find_first_none.
Qed.
End Host.

(** C7, on the small host: a script that is also a generator. *)
Lemma add_file_normal_type_witness :
  let out := add_file_normal demo.host "/tmp/in.csv" "sub" true true (PyStr "lab")
               demo.world0 in
  exists base update w',
    out = (Ok (base, update), w') /\
    update !! "type" = Some (PyStr "generator").
Proof.
  intros out.
  set (base := match out.1 with Ok p => p.1 | Raise _ => EmptyString end).
  set (update := match out.1 with Ok p => p.2 | Raise _ => (∅ : record) end).
  assert (H : out = (Ok (base, update), out.2)) by (vm_cast_no_check (eq_refl out)).
  exists base, update, out.2. split; [exact H|].
  exact (add_file_normal_type demo.host "/tmp/in.csv" "sub" true true (PyStr "lab")
           demo.world0 base update out.2 H).
Defined.

(** C8, on the small host: target directory "sub". *)
Lemma add_file_normal_relativepath_witness :
  let out := add_file_normal demo.host "/tmp/in.csv" "sub" false false PyNone
               demo.world0 in
  exists base update w',
    out = (Ok (base, update), w') /\
    update !! "relativepath" = Some (PyStr "sub/in.csv").
Proof.
  intros out.
  set (base := match out.1 with Ok p => p.1 | Raise _ => EmptyString end).
  set (update := match out.1 with Ok p => p.2 | Raise _ => (∅ : record) end).
  assert (H : out = (Ok (base, update), out.2)) by (vm_cast_no_check (eq_refl out)).
  exists base, update, out.2. split; [exact H|].
  assert (Hsub : "sub" <> ".") by discriminate.
  exact (proj1 (proj2 (add_file_normal_relativepath demo.host "/tmp/in.csv" "sub"
                         false false PyNone demo.world0 base update out.2 H) Hsub)).
Defined.

(** C3, on the small host: the same file twice around a link. *)
Lemma add_files_batch_witness :
  let out := add_files demo.host ["/tmp/in.csv"; "https://x/data.csv"; "/tmp/in.csv"]
               "." false PyNone false demo.world0 in
  exists files w',
    out = (Ok files, w') /\
    forall update, files !! 2 = Some update ->
      update !! "change" = Some (PyStr "update") /\
      update !! "ts" = Some (PyStr (now_iso demo.host 0)).
Proof.
  intros out.
  set (files := match out.1 with Ok l => l | Raise _ => [] end).
  assert (H : out = (Ok files, out.2)) by (vm_cast_no_check (eq_refl out)).
  exists files, out.2. split; [exact H|].
  intros update Hu.
  exact (proj2 (proj2 (proj2 (add_files_batch demo.host
                 ["/tmp/in.csv"; "https://x/data.csv"; "/tmp/in.csv"]
                 "." false PyNone false demo.world0 files out.2 H))
                 2 "/tmp/in.csv" update eq_refl Hu)).
Defined.

(** A record for "b.csv" merged into a manifest that lists "a.csv"
    and "b.csv". *)
Lemma merge_record_upsert_witness :
  let a : record := {["relativepath" := PyStr "a.csv"]} in
  let b : record := {["relativepath" := PyStr "b.csv"]} in
  let h : record := <["sha256" := PyStr "00"]> b in
  merge_record [a; b] h = Ok [a; h] /\ length [a; h] = 2.
Proof.
  intros a b h.
  destruct (proj1 (merge_record_upsert [a; b] h (PyStr "b.csv") eq_refl) 1 b eq_refl eq_refl)
    as (Hm & _ & _ & Hlen).
  - intros [|j] r' Hj Hr'; [|lia]. injection Hr' as <-.
    exists (PyStr "a.csv"). split; [reflexivity|discriminate].
  - split; [exact Hm|exact Hlen].
Defined.

(** On the small host: a read-only open of a csv file seen before in
    write mode. *)
Lemma scan_line_classifies_witness :
  let l := "20826 open(b'/tmp/in.csv', O_RDONLY|O_CLOEXEC) = 3" in
  let files : gmap string (list string) := {["../../../tmp/in.csv" := ["output"]]} in
  exists files',
    scan_line demo.host ["*.csv"] files l = Ok files' /\
    files' !! "../../../tmp/in.csv" = Some ["output"; "input"].
Proof.
  intros l files.
  assert (Hinc : exists i, i ∈ ["*.csv"] /\
                   fnmatch demo.host (relpath demo.host "/tmp/in.csv") i = true).
  { exists "*.csv". split; [apply list_elem_of_here|reflexivity]. }
  destruct (scan_line_classifies demo.host ["*.csv"] files l "/tmp/in.csv"
              eq_refl eq_refl eq_refl Hinc) as (files' & Hscan & Hkey & _).
  exists files'. split; [exact Hscan|exact Hkey].
Defined.

(** C5, on the small host: the trace opens csv files only. *)
Lemma extract_files_no_match_witness :
  extract_files demo.host "strace.out.txt" ["*.json"] demo.world0
  = (Ok [], mkWorld 0 0 [Print "No input or output files found that match pattern"] [] 0 ∅).
Proof.
  refine (extract_files_no_match demo.host "strace.out.txt" ["*.json"] demo.trace_log
            demo.world0 eq_refl _).
  intros l p Hin _.
  repeat (apply elem_of_cons in Hin as [->|Hin]); [..|by apply elem_of_nil in Hin];
    intros Hp; vm_compute in Hp; first [discriminate Hp | injection Hp as <-; reflexivity].
Defined.

(** C6, on the small host: the interpreter is not found from the
    working directory, the script is tracked. *)
Lemma find_executable_commitpath_cases_witness :
  find_executable_commitpath demo.host demo.repo ["python3"; "model.py"] demo.world0
  = (Ok (Some "model.py", Some "https://example.org/alice/work/blob/3fa9c1/model.py"),
     mkWorld 0 0 [PrintList "Finding executable commit path" ["python3"; "model.py"]]
       [] 0 ∅).
Proof.
  assert (Hbefore : Forall (fun g => path_exists demo.host g = false) ["python3"]).
  { constructor; [reflexivity|constructor]. }
  exact (proj1 (proj1 (find_executable_commitpath_cases demo.host demo.repo
                         ["python3"; "model.py"] demo.world0)
                  ["python3"] "model.py" [] (Some "model.py") eq_refl Hbefore eq_refl)
           "https://example.org/alice/work/blob/3fa9c1/model.py" eq_refl).
Defined.

End files_spec.

(** ** Facts on [instrumentation.py] *)
Module instrumentation_spec.
Import instrumentation.

(** C10. Construction assigns the four attributes, [support] being the
    supplied aliases followed by the provider's own name, and then calls
    the [initialize] hook on the object, whatever the hook is. With the
    hook of the base class the constructed provider has exactly that
    support, as a set the supplied aliases plus the name: "platform"
    alone without extra aliases, "host" and "platform" with the extra
    alias "host". *)
Theorem init_support (P : Provider) (name version description : string)
    (supported : option (list string)) :
  let aliases := default [] supported in
  @init P name version description supported
  = @initialize P (mkBase name version description (aliases ++ [name])) /\
  support (@init base_provider name version description supported) = aliases ++ [name] /\
  (list_to_set (support (@init base_provider name version description supported))
     : gset string) = list_to_set aliases ∪ {[name]} /\
  (list_to_set (support (@init base_provider "platform" "1.0" "desc" None))
     : gset string) = {["platform"]} /\
  (list_to_set (support (@init base_provider "platform" "1.0" "desc" (Some ["host"])))
     : gset string) = {["host"; "platform"]}.
Proof.
  intros aliases. split; [reflexivity|]. split; [reflexivity|].
  unfold init, initialize, base_provider, base_initialize. cbn [support].
  split; [|split].
  - rewrite list_to_set_app_L. simpl. by rewrite (right_id_L ∅ (∪)).
  - simpl. by rewrite (right_id_L ∅ (∪)).
  - simpl. by rewrite (right_id_L ∅ (∪)).
Qed.

(** The default [config] accessor returns [None] and leaves the
    provider as it is. *)
Lemma config_default (self : InstrumentationBase) :
  config "get" None self = (self, Py.PyNone).
Proof. reflexivity. Qed.

End instrumentation_spec.

(** ** Further facts on [files.py] *)
Module files_extra.
Import Py files files_more PyFacts files_spec.

(** What an answer of the scan means. *)
Lemma find_resource_Some_inv (h : record) (rs : list record) :
  forall i0 i, find_resource h rs i0 = Ok (Some i) ->
  exists j r v, i = i0 + j /\ rs !! j = Some r /\
    h !! "relativepath" = Some v /\ r !! "relativepath" = Some v /\
    forall j' r', j' < j -> rs !! j' = Some r' ->
      exists v', r' !! "relativepath" = Some v' /\ v' <> v.
Proof.
  induction rs as [|r0 rs IH]; intros i0 i; [done|].
  cbn [find_resource]. unfold getitem.
  destruct (h !! "relativepath") as [v|] eqn:Hh; [|done].
  destruct (r0 !! "relativepath") as [v0|] eqn:Hr0; [|done].
  unfold py_eq. destruct (bool_decide_reflect (v = v0)) as [<-|Hne].
  - intros [= <-]. exists 0, r0, v. rewrite Nat.add_0_r. repeat split; try done.
    intros j' r' Hj'. lia.
  - intros H. apply IH in H as (j & r & v1 & -> & Hj & Hv1 & Hr & Hbefore).
    assert (v1 = v) as -> by congruence.
    exists (S j), r, v. split; [lia|]. repeat split; try done.
    intros [|j'] r' Hlt; simpl.
    + intros [= <-]. exists v0. split; [done|congruence].
    + apply Hbefore. lia.
Qed.

Lemma find_resource_None_inv (h : record) (rs : list record) :
  forall i0, find_resource h rs i0 = Ok None ->
  rs = [] \/
  exists v, h !! "relativepath" = Some v /\
    forall r, r ∈ rs -> exists v', r !! "relativepath" = Some v' /\ v' <> v.
Proof.
  induction rs as [|r0 rs IH]; intros i0; [by left|]. right.
  revert H. cbn [find_resource]. unfold getitem.
  destruct (h !! "relativepath") as [v|] eqn:Hh; [|done].
  destruct (r0 !! "relativepath") as [v0|] eqn:Hr0; [|done].
  unfold py_eq. destruct (bool_decide_reflect (v = v0)) as [<-|Hne]; [done|].
  intros H. exists v. split; [done|].
  intros r [->|Hr]%elem_of_cons.
  - exists v0. split; [done|congruence].
  - apply IH in H as [->|(v1 & Hv1 & Hall)]; [by apply elem_of_nil in Hr|].
    assert (v1 = v) as -> by congruence. by apply Hall.
Qed.

(** A step of the merge, read backwards. *)
Lemma merge_record_inv (rs : list record) (h : record) rs' :
  merge_record rs h = Ok rs' ->
  (exists i r v, rs !! i = Some r /\ h !! "relativepath" = Some v /\
     r !! "relativepath" = Some v /\ rs' = <[i := h]> rs /\
     forall j' r', j' < i -> rs !! j' = Some r' ->
       exists v', r' !! "relativepath" = Some v' /\ v' <> v) \/
  (rs' = rs ++ [h] /\
   (rs = [] \/ exists v, h !! "relativepath" = Some v /\
      forall r, r ∈ rs -> exists v', r !! "relativepath" = Some v' /\ v' <> v)).
Proof.
  unfold merge_record.
  destruct (find_resource h rs 0) as [[i|]|e] eqn:Hf; [| |done].
  - intros [= <-]. left. apply find_resource_Some_inv in Hf as (j & r & v & -> & H).
    exists j, r, v. simpl. tauto.
  - intros [= <-]. right. split; [done|]. by eapply find_resource_None_inv.
Qed.

Lemma paths_insert_same (rs : list record) (h r : record) i :
  rs !! i = Some r -> r !! "relativepath" = h !! "relativepath" ->
  paths (<[i := h]> rs) = paths rs.
Proof.
  intros Hr Hp. unfold paths. rewrite list_fmap_insert.
  apply list_insert_id. rewrite list_lookup_fmap, Hr. simpl. by rewrite Hp.
Qed.

Lemma paths_snoc (rs : list record) (h : record) :
  paths (rs ++ [h]) = paths rs ++ [h !! "relativepath"].
Proof. unfold paths. by rewrite fmap_app. Qed.

Lemma elem_of_paths (rs : list record) (r : record) :
  r ∈ rs -> r !! "relativepath" ∈ paths rs.
Proof. intros Hr. unfold paths. apply list_elem_of_fmap. by exists r. Qed.

(** The relativepaths after one step: unchanged, or one more at the end
    that was not there. *)
Lemma merge_record_paths (rs : list record) (h : record) rs' :
  merge_record rs h = Ok rs' ->
  (paths rs' = paths rs /\ length rs' = length rs /\ h !! "relativepath" ∈ paths rs) \/
  (rs' = rs ++ [h] /\ h !! "relativepath" ∉ paths rs).
Proof.
  intros [(i & r & v & Hi & Hh & Hr & -> & _)|(-> & Hnone)]%merge_record_inv.
  - left. split; [|split].
    + apply (paths_insert_same rs h r i Hi). congruence.
    + apply length_insert.
    + rewrite Hh, <- Hr. apply elem_of_paths. by eapply list_elem_of_lookup_2.
  - right. split; [done|].
    destruct Hnone as [->|(v & Hh & Hall)]; [apply not_elem_of_nil|].
    rewrite Hh. unfold paths. intros (r & Hv & Hr)%list_elem_of_fmap.
    destruct (Hall r Hr) as (v' & Hv' & Hne). congruence.
Qed.

Lemma merge_records_paths (files : list record) :
  forall (rs merged : list record),
  merge_records rs files = Ok merged ->
  paths rs `prefix_of` paths merged /\
  (forall p, p ∈ paths merged <-> p ∈ paths rs \/ p ∈ paths files) /\
  length rs <= length merged <= length rs + length files.
Proof.
  induction files as [|h files IH]; intros rs merged; simpl.
  - intros [= <-]. split; [done|]. split; [|lia].
    intros p. rewrite elem_of_nil. tauto.
  - destruct (merge_record rs h) as [rs'|e] eqn:Hstep; [|done].
    intros H. apply IH in H as (Hpre & Hmem & Hlen).
    apply merge_record_paths in Hstep as [(Hp & Hl & Hin)|(-> & Hnin)].
    + rewrite Hp in Hpre, Hmem. rewrite Hl in Hlen. split; [done|]. split; [|lia].
      intros p. rewrite Hmem, elem_of_cons. split; [tauto|].
      intros [?|[->|?]]; auto.
    + rewrite paths_snoc in Hpre, Hmem. rewrite length_app in Hlen. simpl in Hlen.
      split; [|split; [|lia]].
      * etrans; [|exact Hpre]. by apply prefix_app_r.
      * intros p. rewrite Hmem, elem_of_app, list_elem_of_singleton, elem_of_cons. tauto.
Qed.

Lemma merge_records_NoDup (files : list record) :
  forall (rs merged : list record),
  NoDup (paths rs) ->
  merge_records rs files = Ok merged ->
  NoDup (paths merged).
Proof.
  induction files as [|h files IH]; intros rs merged Hnd; simpl.
  - by intros [= <-].
  - destruct (merge_record rs h) as [rs'|e] eqn:Hstep; [|done].
    apply IH. apply merge_record_paths in Hstep as [(-> & _ & _)|(-> & Hnin)]; [done|].
    rewrite paths_snoc. apply NoDup_app. split; [done|]. split; [|apply NoDup_singleton].
    intros p Hp ->%list_elem_of_singleton. done.
Qed.

(** X1. The merge keeps the order of the manifest: the relativepaths of
    the old array are a prefix of those of the merged array, which are
    the old ones and those of the batch; the array grows by at most one
    entry per record; pairwise distinct relativepaths stay so. *)
Theorem merge_records_keeps_order (files rs merged : list record) :
  merge_records rs files = Ok merged ->
  paths rs `prefix_of` paths merged /\
  (forall p, p ∈ paths merged <-> p ∈ paths rs \/ p ∈ paths files) /\
  length rs <= length merged <= length rs + length files /\
  (NoDup (paths rs) -> NoDup (paths merged)).
Proof.
  intros H. destruct (merge_records_paths files rs merged H) as (Hpre & Hmem & Hlen).
  repeat split; try done; try lia; try apply Hmem.
  intros Hnd. by eapply merge_records_NoDup.
Qed.

(** X2. Merging records whose relativepaths are all in the manifest
    already leaves the relativepaths, in order, and the length of the
    array as they were: adding tracked paths again never grows the
    manifest. *)
Theorem merge_records_tracked (files : list record) :
  forall (rs merged : list record),
  (forall h, h ∈ files -> h !! "relativepath" ∈ paths rs) ->
  merge_records rs files = Ok merged ->
  paths merged = paths rs /\ length merged = length rs.
Proof.
  induction files as [|h files IH]; intros rs merged Hin; simpl.
  - by intros [= <-].
  - destruct (merge_record rs h) as [rs'|e] eqn:Hstep; [|done].
    apply merge_record_paths in Hstep as [(Hp & Hl & _)|(_ & Hnin)].
    + intros H. apply IH in H as (-> & ->); [done|].
      intros h' Hh'. rewrite Hp. apply Hin. by right.
    + destruct Hnin. apply Hin. by left.
Qed.

(** Of two records with one relativepath merged in a row, the second
    alone decides the array. *)
(** X3. Of two records with one relativepath merged in a row, the
    second alone decides the array: merging it after the first gives
    what merging it alone gives. *)
Theorem merge_record_last_wins (rs rs1 : list record) (h1 h2 : record) (v : pyval) :
  h1 !! "relativepath" = Some v -> h2 !! "relativepath" = Some v ->
  merge_record rs h1 = Ok rs1 ->
  merge_record rs1 h2 = merge_record rs h2 /\
  merge_records rs [h1; h2] = merge_record rs h2.
Proof.
  intros H1 H2 Hm.
  assert (merge_record rs1 h2 = merge_record rs h2) as Heq.
  { apply merge_record_inv in Hm as [(i & r & v1 & Hi & Hh & Hr & -> & Hbefore)|(-> & Hnone)].
    - assert (v1 = v) as -> by congruence.
      rewrite (merge_record_replace rs h2 v i r H2 Hi Hr Hbefore).
      rewrite (merge_record_replace (<[i := h1]> rs) h2 v i h1 H2).
      + by rewrite list_insert_insert_eq.
      + apply list_lookup_insert_eq. by eapply lookup_lt_Some.
      + done.
      + intros j r' Hj Hr'. rewrite list_lookup_insert_ne in Hr' by lia.
        by eapply Hbefore.
    - assert (forall r, r ∈ rs -> exists v', r !! "relativepath" = Some v' /\ v' <> v) as Hall.
      { destruct Hnone as [->|(v1 & Hv1 & Hall)]; [by intros r Hr%elem_of_nil|].
        assert (v1 = v) as -> by congruence. done. }
      rewrite (merge_record_append rs h2 v H2 Hall).
      rewrite (merge_record_replace (rs ++ [h1]) h2 v (length rs) h1 H2).
      + do 2 f_equal. rewrite insert_app_r_alt by lia.
        by rewrite Nat.sub_diag.
      + by rewrite lookup_app_r, Nat.sub_diag by lia.
      + done.
      + intros j r' Hj Hr'. rewrite lookup_app_l in Hr' by done.
        apply Hall. by eapply list_elem_of_lookup_2. }
  split; [done|]. simpl. rewrite Hm, <- Heq. by destruct (merge_record rs1 h2).
Qed.

(** A record stays in the array while records of other relativepaths
    are merged. *)
Lemma merge_record_keeps (rs rs' : list record) (r h : record) :
  r ∈ rs -> r !! "relativepath" <> h !! "relativepath" ->
  merge_record rs h = Ok rs' -> r ∈ rs'.
Proof.
  intros Hr Hne [(i & r0 & v & Hi & Hh & Hr0 & -> & _)|(-> & _)]%merge_record_inv.
  - apply list_elem_of_lookup in Hr as (k & Hk).
    apply list_elem_of_lookup. exists k. rewrite list_lookup_insert_ne; [done|].
    intros ->. congruence.
  - apply elem_of_app. by left.
Qed.

Lemma merge_record_holds (rs rs' : list record) (h : record) :
  merge_record rs h = Ok rs' -> h ∈ rs'.
Proof.
  intros [(i & r0 & v & Hi & _ & _ & -> & _)|(-> & _)]%merge_record_inv.
  - apply list_elem_of_lookup. exists i. apply list_lookup_insert_eq.
    by eapply lookup_lt_Some.
  - apply elem_of_app. right. by left.
Qed.

Lemma merge_records_keeps (files : list record) :
  forall (rs merged : list record) (r : record),
  r ∈ rs -> (forall h, h ∈ files -> h !! "relativepath" <> r !! "relativepath") ->
  merge_records rs files = Ok merged -> r ∈ merged.
Proof.
  induction files as [|h files IH]; intros rs merged r Hr Hne; simpl.
  - by intros [= <-].
  - destruct (merge_record rs h) as [rs'|e] eqn:Hstep; [|done].
    apply IH; [|intros h' Hh'; apply Hne; by right].
    eapply merge_record_keeps; [done| |done]. intros Heq. eapply Hne; [left|done].
Qed.

(** X4. A record of the batch whose relativepath no later record of
    the batch has is in the merged array. *)
Theorem merge_records_holds_last (before after : list record) (h : record) :
  forall (rs merged : list record),
  (forall h', h' ∈ after -> h' !! "relativepath" <> h !! "relativepath") ->
  merge_records rs (before ++ h :: after) = Ok merged ->
  h ∈ merged.
Proof.
  induction before as [|h0 before IH]; intros rs merged Hafter; simpl.
  - destruct (merge_record rs h) as [rs'|e] eqn:Hstep; [|done].
    apply merge_records_keeps; [by eapply merge_record_holds|done].
  - destruct (merge_record rs h0) as [rs'|e]; [|done]. by apply IH.
Qed.

(** Entries of the manifest whose relativepath the batch does not name
    are kept, at their position. *)
(** X5. An entry of the manifest whose relativepath no record of the
    batch has is in the merged array at the position it had. *)
Theorem merge_records_untouched (files : list record) :
  forall (rs merged : list record) i (r : record),
  rs !! i = Some r ->
  (forall h, h ∈ files -> h !! "relativepath" <> r !! "relativepath") ->
  merge_records rs files = Ok merged -> merged !! i = Some r.
Proof.
  induction files as [|h files IH]; intros rs merged i r Hr Hne; simpl.
  - by intros [= <-].
  - destruct (merge_record rs h) as [rs'|e] eqn:Hstep; [|done].
    apply IH; [|intros h' Hh'; apply Hne; by right].
    apply merge_record_inv in Hstep as [(k & r0 & v & Hk & Hh & Hr0 & -> & _)|(-> & _)].
    + rewrite list_lookup_insert_ne; [done|]. intros ->.
      apply (Hne h); [left|]. congruence.
    + by apply lookup_app_l_Some.
Qed.

(** The only exception of a step is the missing key. *)
(** X6. With an empty array the record is appended and its
    relativepath is not read. With an array that is not empty, a
    record without relativepath raises [KeyError] for that key, and so
    does an entry without one that is reached before any match. *)
Theorem merge_record_key_error (rs : list record) (h : record) :
  merge_record [] h = Ok [h] /\
  (rs <> [] -> h !! "relativepath" = None ->
     merge_record rs h = Raise (KeyError "relativepath")) /\
  (forall v before r after,
     h !! "relativepath" = Some v -> rs = before ++ r :: after ->
     (forall r', r' ∈ before -> exists v', r' !! "relativepath" = Some v' /\ v' <> v) ->
     r !! "relativepath" = None ->
     merge_record rs h = Raise (KeyError "relativepath")).
Proof.
  split; [done|]. split.
  - intros Hrs Hh. destruct rs as [|r rs]; [done|].
    unfold merge_record. cbn [find_resource]. unfold getitem. by rewrite Hh.
  - intros v before r after Hh -> Hbefore Hr. unfold merge_record.
    assert (forall i0, find_resource h (before ++ r :: after) i0
                       = Raise (KeyError "relativepath")) as ->; [|done].
    induction before as [|r0 before IH]; intros i0; cbn [find_resource app];
      unfold getitem; rewrite Hh.
    + by rewrite Hr.
    + destruct (Hbefore r0) as (v0 & -> & Hne); [left|].
      unfold py_eq. rewrite bool_decide_eq_false_2 by congruence.
      apply IH. intros r' Hr'. apply Hbefore. by right.
Qed.

Lemma offline_bind {A B} (m : M A) (k : A -> M B) :
  offline m -> (forall a, offline (k a)) -> offline (bind m k).
Proof.
  intros Hm Hk w r w'. unfold bind.
  destruct (m w) as [[a|e] w1] eqn:Hmw.
  - intros Hka. destruct (Hm _ _ _ Hmw) as (H1 & H2 & H3).
    destruct (Hk a _ _ _ Hka) as (H4 & H5 & H6). repeat split; congruence.
  - intros [= <- <-]. by eapply Hm.
Qed.

Lemma offline_ret {A} (a : A) : offline (ret a).
Proof. by intros w r w' [= <- <-]. Qed.

Lemma offline_lift {A} (r : res A) : offline (lift r).
Proof. by intros w r' w' [= <- <-]. Qed.

Lemma offline_print text : offline (print text).
Proof. by intros w r w' [= <- <-]. Qed.

Section Host.
Context (E : Env).

Lemma offline_uuid : offline (uuid_uuid1 E).
Proof. by intros w r w' [= <- <-]. Qed.

Lemma offline_now : offline (datetime_now E).
Proof. by intros w r w' [= <- <-]. Qed.

Lemma offline_add_link f : offline (add_link E f).
Proof.
  unfold add_link. apply offline_bind; [apply offline_uuid|]. intros u. apply offline_ret.
Qed.

Lemma offline_add_file_normal f targetdir generator script source :
  offline (add_file_normal E f targetdir generator script source).
Proof.
  unfold add_file_normal. apply offline_bind; [apply offline_lift|]. intros rel.
  apply offline_bind; [apply offline_uuid|]. intros u.
  apply offline_bind; [apply offline_lift|]. intros d. apply offline_ret.
Qed.

Lemma offline_add_files_step ts targetdir generator source script f seen :
  offline (add_files_step E ts targetdir generator source script f seen).
Proof.
  unfold add_files_step. apply offline_bind; [apply offline_print|]. intros _.
  apply offline_bind.
  - destruct (negb (contains "://" f)); [apply offline_add_file_normal|].
    apply offline_bind; [apply offline_print|]. intros _. apply offline_add_link.
  - intros [base update]. destruct (bool_decide (base ∉ seen)); apply offline_ret.
Qed.

Lemma offline_add_files_loop ts targetdir generator source script args :
  forall seen files,
  offline (add_files_loop E ts targetdir generator source script args seen files).
Proof.
  induction args as [|f args IH]; intros seen files; simpl; [apply offline_ret|].
  apply offline_bind; [apply offline_add_files_step|]. intros [seen' update]. apply IH.
Qed.

Lemma offline_add_files args targetdir generator source script :
  offline (add_files E args targetdir generator source script).
Proof.
  unfold add_files. apply offline_bind; [apply offline_now|]. intros ts.
  apply offline_add_files_loop.
Qed.

Section Add.
Variable run_executable : binding -> Repo -> list string -> list string -> M (list record).

(** X8. When [add_files] raises, [add] raises the same exception in
    the same world, and the manifests are those the call started
    with. *)
Theorem add_batch_failure repo args generator targetdir includes script source w e w1 :
  add_files E args targetdir generator source script w = (Raise e, w1) ->
  add E run_executable repo args false generator targetdir includes script source w
  = (Raise e, w1) /\
  documents w1 = documents w.
Proof.
  intros H. split.
  - unfold add. cbn [negb]. by apply bind_raise.
  - by apply offline_add_files in H as (? & _).
Qed.

(** X7. A batch is empty exactly when no path was given, and then
    [add] returns having read the clock once and nothing else: the
    manager is not called and no manifest is read, so none is needed. *)
Theorem add_nothing repo args generator targetdir includes script source w files w1 :
  add_files E args targetdir generator source script w = (Ok files, w1) ->
  (files = [] <-> args = []) /\
  (args = [] ->
     add E run_executable repo args false generator targetdir includes script source w
     = (Ok tt, w1) /\
     w1 = mkWorld (S (clock w)) (uuids w) (trace w) (edits w) (keystrokes w)
            (documents w)).
Proof.
  intros H. split.
  - unfold add_files, bind, datetime_now in H.
    apply add_files_loop_inv in H as (_ & new & -> & Hlen & _). cbn [app].
    destruct new, args; try discriminate Hlen; by split.
  - intros ->. injection H as <- <-. by split.
Qed.

(** X9. A call with records fails in three places: the manager's
    copy, the reading of the manifest ([IOError], after the copy), and
    the merge (after the copy); each time the exception is passed on,
    the world is as the manager left it and the manifest is not
    rewritten. *)
Theorem add_failure_points repo args generator targetdir includes script source
    w files w1 :
  add_files E args targetdir generator source script w = (Ok files, w1) ->
  files <> [] ->
  let call := add E run_executable repo args false generator targetdir includes
                script source w in
  let datapath := os_path_join (rootdir repo) "datapackage.json" in
  (forall e w2, manager_add_files repo files w1 = (Raise e, w2) ->
     call = (Raise e, w2)) /\
  (forall w2, manager_add_files repo files w1 = (Ok tt, w2) ->
     documents w2 !! datapath = None ->
     call = (Raise (IOError datapath), w2)) /\
  (forall w2 pkg e, manager_add_files repo files w1 = (Ok tt, w2) ->
     documents w2 !! datapath = Some pkg ->
     merge_records (resources pkg) files = Raise e ->
     call = (Raise e, w2)).
Proof.
  intros Hfiles Hne call datapath. subst call datapath. unfold add. cbn [negb].
  erewrite bind_run by exact Hfiles.
  destruct files as [|h files]; [done|].
  change (0 <? length (h :: files)) with true. cbv iota.
  split; [|split].
  - intros e w2 Hm. by apply bind_raise.
  - intros w2 Hm Hdoc. erewrite bind_run by exact Hm.
    apply bind_raise. unfold read_document. by rewrite Hdoc.
  - intros w2 pkg e Hm Hdoc Hmerge. erewrite bind_run by exact Hm.
    unfold read_document at 1. unfold bind at 1. rewrite Hdoc.
    apply bind_raise. unfold lift. by rewrite Hmerge.
Qed.
End Add.
End Host.

(** *** Keys and paths *)

Lemma rfind_None_contains c s :
  rfind c s = None <-> contains (String c EmptyString) s = false.
Proof.
  induction s as [|d s IH]; [done|].
  rewrite contains_unfold. cbn [rfind String.prefix].
  destruct (rfind c s) as [k|].
  - split; [done|]. destruct (ascii_dec c d); [by destruct s|]. intros H.
    destruct IH as [_ IH]. by specialize (IH H).
  - destruct (ascii_dec c d) as [->|Hne].
    + rewrite Ascii.eqb_refl. by destruct s.
    + assert (Ascii.eqb d c = false) as -> by (apply Ascii.eqb_neq; congruence).
      split; [intros _; by apply IH|done].
Qed.

Lemma basename_no_slash p : contains "/" (os_path_basename p) = false.
Proof.
  apply (rfind_None_contains slash). unfold os_path_basename.
  induction p as [|d p IH]; [done|]. cbn [rfind].
  destruct (rfind slash p) as [k|] eqn:Hk; [exact IH|].
  destruct (Ascii.eqb d slash) eqn:Hd; cbn [slice_from]; [exact Hk|].
  cbn [rfind]. by rewrite Hk, Hd.
Qed.

Lemma scheme_has_slash f : contains "://" f = true -> contains "/" f = true.
Proof.
  induction f as [|c f IH]; [done|].
  rewrite (contains_unfold "://"). destruct (String.prefix "://" (String c f)) eqn:Hp.
  - intros _. revert Hp. cbn [String.prefix]. destruct (ascii_dec ":" c) as [<-|]; [|done].
    destruct f as [|c1 f]; [done|]. cbn [String.prefix].
    destruct (ascii_dec "/" c1) as [<-|]; [|done].
    intros _. rewrite contains_unfold. cbn [String.prefix].
    destruct (ascii_dec "/" ":"); [done|].
    rewrite contains_unfold. cbn [String.prefix].
    destruct (ascii_dec "/" "/"); [|done]. by destruct f.
  - intros H. apply contains_tail. by apply IH.
Qed.

(** A link and a local file never have the same key: the key of a link
    contains a slash and a basename does not. *)
Lemma batch_key_kinds f g :
  contains "://" f = true -> contains "://" g = false -> batch_key f <> batch_key g.
Proof.
  unfold batch_key. intros Hf Hg. rewrite Hf, Hg. intros Heq.
  pose proof (scheme_has_slash f Hf) as Hs. rewrite Heq in Hs.
  by rewrite basename_no_slash in Hs.
Qed.

Lemma basename_cons d s k :
  rfind slash s = Some k -> os_path_basename (String d s) = os_path_basename s.
Proof. intros Hk. unfold os_path_basename. cbn [rfind]. by rewrite Hk. Qed.

Lemma rfind_app_slash a b : is_Some (rfind slash (a +:+ String slash b)).
Proof.
  induction a as [|d a [k IH]]; simpl.
  - destruct (rfind slash b); by eexists.
  - rewrite IH. by eexists.
Qed.

Lemma basename_app_slash a b :
  rfind slash b = None -> os_path_basename (a +:+ String slash b) = b.
Proof.
  intros Hb. induction a as [|d a IH].
  - unfold os_path_basename. simpl. by rewrite Hb.
  - change (String d a +:+ String slash b) with (String d (a +:+ String slash b)).
    destruct (rfind_app_slash a b) as [k Hk]. by rewrite (basename_cons _ _ k).
Qed.

Lemma basename_whole b : rfind slash b = None -> os_path_basename b = b.
Proof. intros Hb. unfold os_path_basename. by rewrite Hb. Qed.

Lemma endswith_split c a :
  endswith c a = true -> exists a', a = a' +:+ String c EmptyString.
Proof.
  induction a as [|d a IH]; [done|]. cbn [endswith]. destruct a as [|d' a].
  - intros ->%Ascii.eqb_eq. by exists EmptyString.
  - intros H. destruct (IH H) as (a' & ->). by exists (String d a').
Qed.

Lemma append_assoc_string (a b c : string) : (a +:+ b) +:+ c = a +:+ (b +:+ c).
Proof.
  induction a as [|d a IH]; [done|].
  change (String d ((a +:+ b) +:+ c) = String d (a +:+ b +:+ c)). by rewrite IH.
Qed.

Lemma basename_join a p :
  os_path_basename (os_path_join a (os_path_basename p)) = os_path_basename p.
Proof.
  assert (rfind slash (os_path_basename p) = None) as Hb.
  { apply rfind_None_contains. apply basename_no_slash. }
  rewrite join_basename.
  destruct (bool_decide_reflect (a = EmptyString)) as [->|Ha]; simpl.
  - by apply basename_whole.
  - destruct (endswith slash a) eqn:He.
    + apply endswith_split in He as (a' & ->). rewrite append_assoc_string. simpl.
      by apply basename_app_slash.
    + by apply basename_app_slash.
Qed.

Section Host.
Context (E : Env).

(** X12. The key [add_file_normal] returns is the basename of the
    record's relativepath, whatever the target directory; it contains
    no slash, and the record keeps the path it was given as
    localfullpath. *)
Theorem add_file_normal_key_of_relativepath f targetdir generator script source
    w base update w' :
  add_file_normal E f targetdir generator script source w = (Ok (base, update), w') ->
  exists rp, update !! "relativepath" = Some (PyStr rp) /\
             os_path_basename rp = base /\
             update !! "localfullpath" = Some (PyStr f) /\
             contains "/" base = false.
Proof.
  intros H. apply add_file_normal_inv in H as (rel & digest & _ & _ & -> & _ & ->).
  eexists. split; [reflexivity|]. split; [|split; [reflexivity|apply basename_no_slash]].
  destruct (bool_decide (targetdir <> ".")).
  - apply basename_join.
  - apply basename_whole. apply rfind_None_contains. apply basename_no_slash.
Qed.
End Host.

Section Host.
Context (E : Env).

(** One step draws one uuid. *)
Lemma add_files_step_uuid ts targetdir generator source script f seen w seen' update w' :
  add_files_step E ts targetdir generator source script f seen w = (Ok (seen', update), w') ->
  uuids w' = S (uuids w) /\ update !! "uuid" = Some (PyStr (uuid1 E (uuids w))).
Proof.
  unfold add_files_step. intros H.
  apply bind_Ok in H as ([] & w1 & Hp & H). injection Hp as <-.
  apply bind_Ok in H as ([base r] & w2 & Hd & H).
  assert (uuids w2 = S (uuids w) /\ r !! "uuid" = Some (PyStr (uuid1 E (uuids w))))
    as (Hu & Hr).
  { destruct (contains "://" f); cbn [negb] in Hd.
    - apply bind_Ok in Hd as ([] & w1' & Hp & Hd). injection Hp as <-.
      by injection Hd as <- <- <-.
    - by apply add_file_normal_inv in Hd as (? & ? & _ & _ & _ & -> & ->). }
  destruct (bool_decide (base ∉ seen)); injection H as <- <- <-;
    (split; [done|]); by rewrite !lookup_insert_ne.
Qed.

Lemma add_files_loop_uuid ts targetdir generator source script args :
  forall seen files w out w',
  add_files_loop E ts targetdir generator source script args seen files w = (Ok out, w') ->
  uuids w' = uuids w + length args /\
  forall i update, out !! (length files + i) = Some update ->
    update !! "uuid" = Some (PyStr (uuid1 E (uuids w + i))).
Proof.
  induction args as [|f args IH]; intros seen files w out w'; simpl.
  - intros [= <- <-]. split; [lia|]. intros i update Hu.
    apply lookup_lt_Some in Hu. lia.
  - intros H. apply bind_Ok in H as ([seen1 u1] & w1 & Hstep & H).
    pose proof (add_files_step_uuid _ _ _ _ _ _ _ _ _ _ _ Hstep) as (Hw1 & Hu1).
    pose proof H as Hout.
    apply IH in H as (Hw' & Hrest). split; [lia|].
    apply add_files_loop_inv in Hout as (_ & new & -> & _ & _).
    intros [|i] update.
    + rewrite Nat.add_0_r, <- app_assoc. rewrite lookup_app_r by lia.
      rewrite Nat.sub_diag. simpl. intros [= <-]. by rewrite Nat.add_0_r.
    + intros Hu. specialize (Hrest i update). rewrite length_app in Hrest. simpl in Hrest.
      replace (uuids w + S i) with (uuids w1 + i) by lia. apply Hrest.
      by replace (length files + 1 + i) with (length files + S i) by lia.
Qed.

(** X13. A batch draws one uuid per record, in order: the i-th record
    holds the i-th value after those drawn before the call; when the
    generator never repeats a value, no two records of a batch share a
    uuid. *)
Theorem add_files_uuids args targetdir generator source script w files w' :
  add_files E args targetdir generator source script w = (Ok files, w') ->
  uuids w' = uuids w + length args /\
  (forall i update, files !! i = Some update ->
     update !! "uuid" = Some (PyStr (uuid1 E (uuids w + i)))) /\
  ((forall m n, uuid1 E m = uuid1 E n -> m = n) ->
   forall i j ri rj, files !! i = Some ri -> files !! j = Some rj ->
     ri !! "uuid" = rj !! "uuid" -> i = j).
Proof.
  unfold add_files. intros H. apply bind_Ok in H as (ts & w1 & Hts & H).
  injection Hts as <- <-. apply add_files_loop_uuid in H as (Hw & Hu). simpl in *.
  split; [done|]. split; [done|].
  intros Hinj i j ri rj Hi Hj Heq.
  rewrite (Hu i ri Hi), (Hu j rj Hj) in Heq. injection Heq as Heq.
  apply Hinj in Heq. lia.
Qed.

(** X14. When the keys of the paths of a batch are pairwise distinct,
    the batch has one record per path and every record is tagged
    "add". *)
Theorem add_files_distinct_keys args targetdir generator source script w files w' :
  NoDup (batch_key <$> args) ->
  add_files E args targetdir generator source script w = (Ok files, w') ->
  length files = length args /\
  forall update, update ∈ files -> update !! "change" = Some (PyStr "add").
Proof.
  intros Hnd. unfold add_files. intros H. apply bind_Ok in H as (ts & w1 & _ & H).
  apply add_files_loop_inv in H as (_ & new & -> & Hlen & Hnew). simpl.
  split; [done|]. intros update (i & Hu)%list_elem_of_lookup.
  destruct (lookup_lt_is_Some_2 args i) as [f Hf].
  { rewrite <- Hlen. by eapply lookup_lt_Some. }
  destruct (Hnew i f update Hf Hu) as (r & wi & wi' & _ & ->).
  unfold stamped. rewrite lookup_insert_ne by done. rewrite lookup_insert_eq.
  rewrite bool_decide_eq_false_2; [done|]. simpl.
  intros (j & Hj)%list_elem_of_lookup.
  rewrite fmap_take in Hj. apply lookup_take_Some in Hj as [Hj Hlt].
  assert (j = i); [|lia].
  apply (NoDup_lookup _ j i (batch_key f) Hnd); [done|].
  by rewrite list_lookup_fmap, Hf.
Qed.

(** X11. In a batch a link is never taken for an update of a local
    file, nor a local file for an update of a link: a path that only
    paths of the other kind precede is tagged "add". *)
Theorem add_files_link_local args targetdir generator source script w files w'
    j f update :
  add_files E args targetdir generator source script w = (Ok files, w') ->
  args !! j = Some f -> files !! j = Some update ->
  (forall i g, i < j -> args !! i = Some g ->
     contains "://" g = negb (contains "://" f)) ->
  update !! "change" = Some (PyStr "add").
Proof.
  unfold add_files. intros H Hf Hu Hkinds. apply bind_Ok in H as (ts & w1 & _ & H).
  apply add_files_loop_inv in H as (_ & new & -> & _ & Hnew). simpl in Hu.
  destruct (Hnew j f update Hf Hu) as (r & wi & wi' & _ & ->).
  unfold stamped. rewrite lookup_insert_ne by done. rewrite lookup_insert_eq.
  rewrite bool_decide_eq_false_2; [done|]. simpl.
  intros (i & Hi)%list_elem_of_lookup.
  rewrite fmap_take in Hi. apply lookup_take_Some in Hi as [Hi Hlt].
  rewrite list_lookup_fmap in Hi.
  destruct (args !! i) as [g|] eqn:Hg; [|done]. injection Hi as Hi.
  specialize (Hkinds i g Hlt Hg).
  destruct (contains "://" f) eqn:Hkind; simpl in Hkinds.
  - by apply (batch_key_kinds f g).
  - by apply (batch_key_kinds g f).
Qed.
End Host.

Section Host.
Context (E : Env).

Lemma add_files_step_returns ts targetdir generator source script f seen w :
  (contains "://" f = false ->
     f <> EmptyString /\ exists digest, compute_sha256 E f = Ok digest) ->
  exists r w1, add_files_step E ts targetdir generator source script f seen w = (Ok r, w1).
Proof.
  intros Hf. unfold add_files_step. unfold bind at 1. unfold print, emit.
  destruct (contains "://" f) eqn:Hlink; cbn [negb].
  - cbv [bind print emit add_link uuid_uuid1 ret].
    destruct (bool_decide (f ∉ seen)); by eexists _, _.
  - destruct Hf as (Hne & digest & Hd); [done|].
    edestruct (add_file_normal_returns E f targetdir generator script source)
      as (update & w2 & Hn); [done..|].
    erewrite bind_run by exact Hn. cbv beta iota zeta.
    destruct (bool_decide (os_path_basename f ∉ seen)); cbv [ret]; by eexists _, _.
Qed.

Lemma add_files_step_empty ts targetdir generator source script seen w :
  add_files_step E ts targetdir generator source script EmptyString seen w
  = (Raise (ValueError "no path specified"),
     mkWorld (clock w) (uuids w) (trace w ++ [Print "Looking at "]) (edits w)
       (keystrokes w) (documents w)).
Proof. reflexivity. Qed.

Lemma add_files_loop_empty_path ts targetdir generator source script after before :
  (forall f, f ∈ before -> contains "://" f = false ->
     f <> EmptyString /\ exists digest, compute_sha256 E f = Ok digest) ->
  forall seen files w,
  exists w', add_files_loop E ts targetdir generator source script
               (before ++ EmptyString :: after) seen files w
             = (Raise (ValueError "no path specified"), w').
Proof.
  induction before as [|f before IH]; intros Hbefore seen files w; simpl.
  - eexists. apply bind_raise. apply add_files_step_empty.
  - destruct (add_files_step_returns ts targetdir generator source script f seen w)
      as ([seen1 u1] & w1 & Hstep).
    { apply Hbefore. left. }
    erewrite bind_run by exact Hstep. apply IH.
    intros g Hg. apply Hbefore. by right.
Qed.

(** X15. An empty path fails the whole batch with [ValueError], once
    the paths before it have been built: no record is returned, and the
    manifests are untouched. *)
Theorem add_files_empty_path before after targetdir generator source script w :
  (forall f, f ∈ before -> contains "://" f = false ->
     f <> EmptyString /\ exists digest, compute_sha256 E f = Ok digest) ->
  exists w', add_files E (before ++ EmptyString :: after) targetdir generator source script w
             = (Raise (ValueError "no path specified"), w') /\
             documents w' = documents w.
Proof.
  intros Hbefore. unfold add_files, bind, datetime_now.
  edestruct (add_files_loop_empty_path (now_iso E (clock w)) targetdir generator source
               script after before Hbefore [] []) as (w' & Hw').
  exists w'. split; [exact Hw'|].
  by apply offline_add_files_loop in Hw' as (? & _).
Qed.

Section Add.
Variable run_executable : binding -> Repo -> list string -> list string -> M (list record).

End Add.
End Host.

Lemma lazy_group_split stop t g :
  lazy_group stop t = Some g ->
  exists q rest, t = g +:+ String q rest /\ stop q = true /\
                 g <> EmptyString /\ contains (String newline EmptyString) g = false.
Proof.
  revert g. induction t as [|c t IH]; intros g; [done|]. cbn [lazy_group].
  destruct (Ascii.eqb c newline) eqn:Hc; [done|].
  assert (forall s, contains (String newline EmptyString) s = false ->
                    contains (String newline EmptyString) (String c s) = false) as Hnl.
  { intros s Hs. rewrite contains_unfold. cbn [String.prefix].
    destruct (ascii_dec newline c) as [<-|]; [|done].
    by rewrite Ascii.eqb_refl in Hc. }
  destruct t as [|d t]; [done|].
  destruct (stop d) eqn:Hd.
  - intros [= <-]. exists d, t. repeat split; try done. by apply Hnl.
  - destruct (lazy_group stop (String d t)) as [g'|]; [|done]. simpl.
    intros [= <-]. destruct (IH g' eq_refl) as (q & rest & Ht & Hq & _ & Hg').
    exists q, rest. rewrite Ht. repeat split; try done. by apply Hnl.
Qed.

Lemma after_prefix_split p s r : after_prefix p s = Some r -> s = p +:+ r.
Proof.
  revert s. induction p as [|a p IH]; intros s; simpl; [by intros [= ->]|].
  destruct s as [|b s]; [done|].
  destruct (Ascii.eqb a b) eqn:Hab; [|done]. apply Ascii.eqb_eq in Hab as ->.
  intros H. by rewrite (IH s H).
Qed.

Lemma re_search_split at_head l g :
  re_search at_head l = Some g -> exists pre l', l = pre +:+ l' /\ at_head l' = Some g.
Proof.
  induction l as [|c l IH]; simpl.
  - destruct (at_head EmptyString) eqn:H; [|done]. intros [= <-].
    by exists EmptyString, EmptyString.
  - destruct (at_head (String c l)) eqn:H.
    + intros [= <-]. by exists EmptyString, (String c l).
    + intros (pre & l' & -> & Hl')%IH. by exists (String c pre), l'.
Qed.

(** X16. The path a line yields is not empty, has no newline, and
    stands in the line between an opening quote that follows "open(b"
    (either quote) or "open(" (double quote) and a closing quote
    (either quote in the first form, a double quote in the second). *)
Theorem matched_file_shape l p :
  matched_file l = Some p ->
  p <> EmptyString /\ contains (String newline EmptyString) p = false /\
  exists pre q0 q post,
    is_quote q0 = true /\ is_quote q = true /\
    (l = pre +:+ "open(b" +:+ String q0 (p +:+ String q post) \/
     (q0 = dquote /\ q = dquote /\
      l = pre +:+ "open(" +:+ String q0 (p +:+ String q post))).
Proof.
  unfold matched_file.
  destruct (re_search match_open_bytes l) as [g|] eqn:Hb.
  - intros [= <-]. apply re_search_split in Hb as (pre & l' & -> & Hb).
    unfold match_open_bytes in Hb.
    destruct (after_prefix "open(b" l') as [[|q0 t]|] eqn:Hp; [done| |done].
    apply after_prefix_split in Hp as ->.
    destruct (is_quote q0) eqn:Hq0; [|done].
    apply lazy_group_split in Hb as (q & rest & -> & Hq & Hne & Hnl).
    split; [done|]. split; [done|]. exists pre, q0, q, rest. split; [done|].
    split; [done|]. by left.
  - intros Hp. apply re_search_split in Hp as (pre & l' & -> & Hp).
    unfold match_open_plain in Hp.
    destruct (after_prefix "open(" l') as [[|q0 t]|] eqn:Hpre; [done| |done].
    apply after_prefix_split in Hpre as ->.
    destruct (Ascii.eqb q0 dquote) eqn:Hq0; [|done]. apply Ascii.eqb_eq in Hq0 as ->.
    apply lazy_group_split in Hp as (q & rest & -> & Hq & Hne & Hnl).
    apply Ascii.eqb_eq in Hq as ->.
    split; [done|]. split; [done|]. exists pre, dquote, dquote, rest.
    split; [done|]. split; [done|]. by right.
Qed.

Lemma contains_app_l sub pre s : contains sub s = true -> contains sub (pre +:+ s) = true.
Proof.
  intros H. induction pre as [|c pre IH]; [done|].
  change (String c pre +:+ s) with (String c (pre +:+ s)). by apply contains_tail.
Qed.

Lemma string_prefix_app sub rest : String.prefix sub (sub +:+ rest) = true.
Proof.
  induction sub as [|c sub IH]; [by destruct rest|].
  change (String c sub +:+ rest) with (String c (sub +:+ rest)). cbn [String.prefix].
  by destruct (ascii_dec c c).
Qed.

Lemma string_prefix_app_r sub s rest :
  String.prefix sub s = true -> String.prefix sub (s +:+ rest) = true.
Proof.
  revert s. induction sub as [|c sub IH]; intros s; [by destruct s, rest|].
  destruct s as [|d s]; [done|].
  change (String d s +:+ rest) with (String d (s +:+ rest)). cbn [String.prefix].
  destruct (ascii_dec c d); [apply IH|done].
Qed.

Lemma contains_app_r sub s rest : contains sub s = true -> contains sub (s +:+ rest) = true.
Proof.
  induction s as [|c s IH].
  - rewrite contains_unfold. destruct (String.prefix sub EmptyString) eqn:Hp; [|done].
    intros _. apply prefix_contains. by apply (string_prefix_app_r sub EmptyString rest).
  - rewrite contains_unfold. destruct (String.prefix sub (String c s)) eqn:Hp.
    + intros _. apply prefix_contains. by apply string_prefix_app_r.
    + intros H. change (String c s +:+ rest) with (String c (s +:+ rest)).
      apply contains_tail. by apply IH.
Qed.

Lemma lstrip_split s : exists ws, s = ws +:+ lstrip s.
Proof.
  induction s as [|c s (ws & IH)]; [by exists EmptyString|]. cbn [lstrip].
  destruct (isspace c); [|by exists EmptyString].
  exists (String c ws). change (String c ws +:+ lstrip s) with (String c (ws +:+ lstrip s)).
  by rewrite <- IH.
Qed.

Lemma rstrip_split p s : exists ws, s = rstrip_with p s +:+ ws.
Proof.
  induction s as [|c s (ws & IH)]; [by exists EmptyString|]. cbn [rstrip_with].
  destruct (rstrip_with p s) as [|d t] eqn:Hr.
  - destruct (p c).
    + exists (String c s). done.
    + exists ws. simpl in IH. by rewrite IH at 1.
  - exists ws. change (String c (String d t) +:+ ws) with (String c (String d t +:+ ws)).
    by rewrite <- IH.
Qed.

Lemma contains_strip sub s : contains sub (strip s) = true -> contains sub s = true.
Proof.
  intros H. unfold strip in H.
  destruct (lstrip_split s) as (ws1 & Hs). destruct (rstrip_split isspace (lstrip s)) as (ws2 & Hl).
  rewrite Hs. apply contains_app_l. rewrite Hl. by apply contains_app_r.
Qed.

Lemma matched_file_has_open l p :
  matched_file l = Some p -> contains "open(" l = true.
Proof.
  unfold matched_file.
  assert (forall pre rest, contains "open(" (pre +:+ "open(" +:+ rest) = true) as Hc.
  { intros pre rest. apply contains_app_l, prefix_contains, string_prefix_app. }
  destruct (re_search match_open_bytes l) as [g|] eqn:Hb.
  - intros _. apply re_search_split in Hb as (pre & l' & -> & Hb).
    unfold match_open_bytes in Hb.
    destruct (after_prefix "open(b" l') as [r|] eqn:Hp; [|done].
    apply after_prefix_split in Hp as ->. apply (Hc pre ("b" +:+ r)).
  - intros Hp. apply re_search_split in Hp as (pre & l' & -> & Hp).
    unfold match_open_plain in Hp.
    destruct (after_prefix "open(" l') as [r|] eqn:Hpre; [|done].
    apply after_prefix_split in Hpre as ->. apply Hc.
Qed.

(** X17. The filter on "open(" loses no candidate: a line whose
    stripped form a pattern matches is among the lines kept. *)
Theorem open_lines_complete lines l p :
  l ∈ lines -> matched_file (strip l) = Some p -> strip l ∈ open_lines lines.
Proof.
  intros Hl Hp. unfold open_lines. apply list_elem_of_fmap. exists l. split; [done|].
  apply list_elem_of_In, filter_In. split; [by apply list_elem_of_In|].
  apply contains_strip. by eapply matched_file_has_open.
Qed.

Section Host.
Context (E : Env).

Lemma scan_line_eq includes (files : gmap string (list string)) l :
  scan_line E includes files l =
    Ok match matched_file l with
       | Some p => if kept E includes p
                   then note_action (relpath E p) (action_of l) files
                   else files
       | None => files
       end.
Proof.
  unfold scan_line, kept. destruct (matched_file l) as [p|] eqn:Hp; [|done].
  destruct (path_exists E p && path_isfile E p); [|done]. cbn [andb].
  assert (os_path_relpath E p = Ok (relpath E p)) as ->.
  { unfold os_path_relpath.
    by rewrite bool_decide_eq_false_2 by by eapply matched_file_nonempty. }
  by rewrite note_includes_spec.
Qed.

Lemma noted_note_action key action (files : gmap string (list string)) k a :
  noted (note_action key action files) k a <-> noted files k a \/ (k = key /\ a = action).
Proof.
  unfold noted. destruct (decide (k = key)) as [->|Hk].
  - rewrite note_action_lookup. destruct (files !! key) as [old|] eqn:Hold.
    + destruct (bool_decide_reflect (action ∈ old)) as [Hin|Hin].
      * split; [intros (acts & [= <-] & Ha); left; eauto|].
        intros [(acts & [= <-] & Ha)|[_ ->]]; eauto.
      * split.
        -- intros (acts & [= <-] & [Ha|Ha%list_elem_of_singleton]%elem_of_app);
             [left; eauto|by right].
        -- intros [(acts & [= <-] & Ha)|[_ ->]]; eexists; (split; [done|]);
             apply elem_of_app; [by left|right; by left].
    + split.
      * intros (acts & [= <-] & ->%list_elem_of_singleton). by right.
      * intros [(acts & [=] & _)|[_ ->]]. eexists. split; [done|]. by left.
  - rewrite note_action_other by done. split; [by left|]. intros [?|[? _]]; done.
Qed.

Lemma scan_lines_noted includes lines :
  forall (files files' : gmap string (list string)) k a,
  scan_lines E includes lines files = Ok files' ->
  noted files' k a <->
    noted files k a \/
    exists l p, l ∈ lines /\ matched_file l = Some p /\ kept E includes p = true /\
                relpath E p = k /\ action_of l = a.
Proof.
  induction lines as [|l lines IH]; intros files files' k a; simpl.
  - intros [= <-]. split; [by left|]. intros [?|(l & p & []%elem_of_nil & _)]. done.
  - rewrite scan_line_eq. intros H. rewrite (IH _ _ k a H). clear IH H.
    destruct (matched_file l) as [p|] eqn:Hp.
    + destruct (kept E includes p) eqn:Hk.
      * rewrite noted_note_action. split.
        -- intros [[?|[-> ->]]|(l' & p' & Hl' & H')]; [by left|right|right].
           ++ exists l, p. split; [left|done].
           ++ exists l', p'. split; [by right|done].
        -- intros [?|(l' & p' & [->|Hl']%elem_of_cons & Hp' & Hk' & <- & <-)].
           ++ by left; left.
           ++ left. right. by assert (p' = p) as -> by congruence.
           ++ right. by exists l', p'.
      * split.
        -- intros [?|(l' & p' & Hl' & H')]; [by left|right].
           exists l', p'. split; [by right|done].
        -- intros [?|(l' & p' & [->|Hl']%elem_of_cons & Hp' & Hk' & H')]; [by left| |].
           ++ assert (p' = p) as -> by congruence. congruence.
           ++ right. by exists l', p'.
    + split.
      * intros [?|(l' & p' & Hl' & H')]; [by left|right].
        exists l', p'. split; [by right|done].
      * intros [?|(l' & p' & [->|Hl']%elem_of_cons & Hp' & H')]; [by left|congruence|].
        right. by exists l', p'.
Qed.

(** X18. Scanning a log never raises, and from an empty table it
    notes exactly what the log shows: an action is listed for a path if
    and only if some line opens an existing regular file with that
    relative path matching an include pattern, in the mode of that
    action; the lists are free of duplicates and not empty. *)
Theorem scan_lines_exact includes lines :
  exists files,
    scan_lines E includes lines ∅ = Ok files /\
    (forall k a,
       (exists actions, files !! k = Some actions /\ a ∈ actions) <->
       exists l p, l ∈ lines /\ matched_file l = Some p /\
                   path_exists E p = true /\ path_isfile E p = true /\
                   (exists i, i ∈ includes /\ fnmatch E (relpath E p) i = true) /\
                   relpath E p = k /\
                   a = (if contains "O_RDONLY" l then "input" else "output")) /\
    (forall k actions, files !! k = Some actions -> NoDup actions /\ actions <> []).
Proof.
  destruct (scan_lines_actions E includes lines ∅) as (files & Hscan & Hok).
  { intros k actions Hk. by rewrite lookup_empty in Hk. }
  exists files. split; [done|]. split.
  - intros k a. pose proof (scan_lines_noted includes lines ∅ files k a Hscan) as Hn.
    unfold noted in Hn. etrans; [exact Hn|]. clear Hn.
    split.
    + intros [(acts & Hacts & _)|(l & p & Hl & Hp & Hk & <- & <-)];
        [by rewrite lookup_empty in Hacts|].
      exists l, p. unfold kept in Hk.
      apply andb_prop in Hk as [[Hex Hfile]%andb_prop Hm].
      apply existsb_exists in Hm as (i & Hi & Hm).
      repeat split; try done. exists i. by rewrite list_elem_of_In.
    + intros (l & p & Hl & Hp & Hex & Hfile & (i & Hi & Hm) & <- & ->). right.
      exists l, p. unfold kept. rewrite Hex, Hfile. repeat split; try done.
      simpl. apply existsb_exists. exists i. by rewrite <- list_elem_of_In.
  - intros k actions Hk. destruct (Hok k actions Hk) as (? & ? & _). done.
Qed.
End Host.

(** *** The interactive part of [extract_files] *)

Lemma insert_sorted_perm x l : Permutation (insert_sorted x l) (x :: l).
Proof.
  induction l as [|y l IH]; simpl; [done|].
  destruct (String.leb x y); [done|]. rewrite IH. apply perm_swap.
Qed.

Lemma insert_sorted_sorted x l :
  Sorted (fun a b => String.leb a b = true) l ->
  Sorted (fun a b => String.leb a b = true) (insert_sorted x l).
Proof.
  induction 1 as [|y l Hl IH Hhd]; simpl; [by repeat constructor|].
  destruct (String.leb x y) eqn:Hxy.
  - constructor; [by constructor|by constructor].
  - constructor; [done|].
    assert (String.leb y x = true) as Hyx.
    { destruct (String.leb_total x y); congruence. }
    destruct l as [|z l]; simpl; [by constructor|].
    destruct (String.leb x z); constructor; [done|]. by inversion Hhd.
Qed.

Lemma sorted_perm (l : list string) : Permutation (sorted l) l.
Proof.
  unfold sorted. induction l as [|x l IH]; simpl; [done|].
  rewrite insert_sorted_perm. by apply perm_skip.
Qed.

Lemma sorted_Sorted (l : list string) :
  Sorted (fun a b => String.leb a b = true) (sorted l).
Proof.
  unfold sorted. induction l as [|x l IH]; simpl; [constructor|].
  by apply insert_sorted_sorted.
Qed.

Section Host.
Context (E : Env).

Lemma remap_loop_unfold n (prefixes : gmap string string) w :
  remap_loop n prefixes w =
    match revised_of (next_edit (YMap prefixes) w) with
    | Raise e => (Raise e, edited (YMap prefixes) w)
    | Ok keys =>
        if bool_decide (dom keys = dom prefixes) then (Ok keys, edited (YMap prefixes) w)
        else
          let w1 := edited (YMap prefixes) w in
          let w2 := mkWorld (clock w1) (uuids w1) (trace w1 ++ reprompt) (edits w1)
                      (pred (keystrokes w1)) (documents w1) in
          match keystrokes w with
          | 0 => (Raise EOFError, w2)
          | S _ => match n with
                   | 0 => (Raise EOFError, w2)
                   | S n' => remap_loop n' prefixes w2
                   end
          end
    end.
Proof.
  destruct n as [|n]; cbn [remap_loop]; unfold bind at 1; unfold editor;
    fold (next_edit (YMap prefixes) w); fold (edited (YMap prefixes) w);
    unfold bind at 1, lift; fold (revised_of (next_edit (YMap prefixes) w));
    destruct (revised_of _) as [keys|e]; try done;
    destruct (bool_decide (dom keys = dom prefixes)); try done;
    unfold bind, print, emit, input, raise; cbn [keystrokes trace clock uuids edits documents edited];
    destruct (keystrokes w); cbn [pred]; unfold reprompt; by rewrite <- ?app_assoc.
Qed.

(** X21. A mapping accepted by the directory loop has exactly the keys
    that were shown. *)
Theorem remap_loop_keys n :
  forall (prefixes m : gmap string string) w w',
  remap_loop n prefixes w = (Ok m, w') -> dom m = dom prefixes.
Proof.
  induction n as [|n IH]; intros prefixes m w w'; rewrite remap_loop_unfold;
    destruct (revised_of _) as [keys|e]; try done;
    destruct (bool_decide_reflect (dom keys = dom prefixes)) as [Hd|Hd];
    try (by intros [= <- <-]); destruct (keystrokes w); try done.
  cbv zeta. apply IH.
Qed.

(** X22. One round of the directory loop. A saved document that is
    not a mapping raises [AttributeError]. A mapping with the keys
    shown is accepted; text that does not load counts as the empty
    mapping. Anything else is refused: the operator is told and asked
    for ENTER; at the end of input that raises [EOFError], otherwise
    the loop starts again with the same mapping shown. *)
Theorem remap_loop_round n (prefixes : gmap string string) w :
  let v := match edits w with [] => YMap prefixes | saved :: _ => saved end in
  let w1 := mkWorld (clock w) (uuids w) (trace w ++ [Editor (YMap prefixes)])
              (tail (edits w)) (keystrokes w) (documents w) in
  (v = YNull \/ (exists l, v = YSeq l) ->
     remap_loop n prefixes w = (Raise AttributeError, w1)) /\
  (forall m, (v = YMap m \/ (v = YInvalid /\ m = ∅)) -> dom m = dom prefixes ->
     remap_loop n prefixes w = (Ok m, w1)) /\
  (forall m, (v = YMap m \/ (v = YInvalid /\ m = ∅)) -> dom m <> dom prefixes ->
     let w2 := mkWorld (clock w) (uuids w)
                 (trace w ++ Editor (YMap prefixes) :: reprompt)
                 (tail (edits w)) (pred (keystrokes w)) (documents w) in
     (keystrokes w = 0 -> remap_loop n prefixes w = (Raise EOFError, w2)) /\
     (keystrokes w <> 0 -> remap_loop (S n) prefixes w = remap_loop n prefixes w2)).
Proof.
  intros v w1. split; [|split].
  - intros Hv. rewrite remap_loop_unfold. unfold next_edit. fold v.
    by destruct Hv as [->|(l & ->)].
  - intros m Hv Hd. rewrite remap_loop_unfold. unfold next_edit. fold v.
    assert (revised_of v = Ok m) as -> by (by destruct Hv as [->|[-> ->]]).
    by rewrite bool_decide_eq_true_2.
  - intros m Hv Hd w2.
    assert (revised_of v = Ok m) as Hr by (by destruct Hv as [->|[-> ->]]).
    split.
    + intros Hk. rewrite remap_loop_unfold. unfold next_edit. fold v. rewrite Hr.
      rewrite bool_decide_eq_false_2 by done. rewrite Hk. cbv zeta. unfold edited.
      cbn [keystrokes trace clock uuids edits documents]. rewrite Hk.
      subst w2. by rewrite <- app_assoc, Hk.
    + intros Hk. rewrite (remap_loop_unfold (S n)). unfold next_edit. fold v. rewrite Hr.
      rewrite bool_decide_eq_false_2 by done.
      destruct (keystrokes w) as [|k] eqn:Hkw; [done|]. cbv zeta. unfold edited.
      cbn [keystrokes trace clock uuids edits documents]. rewrite Hkw.
      subst w2. by rewrite <- app_assoc.
Qed.

Lemma run_output_inv (files : gmap string (list string)) (prefixes : gmap string string)
    ts f w r w' :
  run_output E files prefixes ts f w = (Ok r, w') ->
  exists d actions content digest rel,
    prefixes !! os_path_dirname f = Some d /\ files !! f = Some actions /\
    read512 E f = Ok content /\ compute_sha256 E f = Ok digest /\
    os_path_relpath E f = Ok rel /\
    w' = mkWorld (clock w) (S (uuids w)) (trace w) (edits w) (keystrokes w) (documents w) /\
    r = list_to_map [
      ("relativepath", PyStr (if bool_decide (d = ".") then os_path_basename f
                              else os_path_join d (os_path_basename f)));
      ("type", PyStr "run-output");
      ("actions", PyList actions);
      ("uuid", PyStr (uuid1 E (uuids w)));
      ("mimetypes", opt_str (guess_type E f));
      ("content", PyStr content);
      ("sha256", digest);
      ("ts", PyStr ts);
      ("localrelativepath", PyStr rel);
      ("localfullpath", PyStr (abspath E f))].
Proof.
  unfold run_output, bind, lift, ret, uuid_uuid1.
  destruct (prefixes !! os_path_dirname f) as [d|]; [|done].
  destruct (files !! f) as [actions|]; [|done].
  destruct (read512 E f) as [content|]; [|done].
  destruct (compute_sha256 E f) as [digest|]; [|done].
  destruct (os_path_relpath E f) as [rel|]; [|done].
  intros [= <- <-]. by exists d, actions, content, digest, rel.
Qed.

Lemma run_outputs_inv (files : gmap string (list string)) (prefixes : gmap string string)
    ts filenames :
  forall result w out w',
  run_outputs E files prefixes ts filenames result w = (Ok out, w') ->
  exists new, out = result ++ new /\
    Forall2 (fun f r => exists w1 w2, run_output E files prefixes ts f w1 = (Ok r, w2))
            filenames new.
Proof.
  induction filenames as [|f filenames IH]; intros result w out w'; simpl.
  - intros [= <- <-]. exists []. by rewrite app_nil_r.
  - intros H. apply bind_Ok in H as (r & w1 & Hr & H).
    apply IH in H as (new & -> & Hnew). exists (r :: new).
    rewrite <- app_assoc. split; [done|]. constructor; [by eexists _, _|done].
Qed.

(** X23. A captured file keeps its name when it is relocated: its
    relativepath is the bare basename under target ".", the target
    joined with the basename otherwise, and in both cases the basename
    of the relativepath is the basename of the file. *)
Theorem run_output_relativepath (files : gmap string (list string))
    (prefixes : gmap string string) ts f w r w' :
  run_output E files prefixes ts f w = (Ok r, w') ->
  exists d rp,
    prefixes !! os_path_dirname f = Some d /\
    r !! "relativepath" = Some (PyStr rp) /\
    (d = "." -> rp = os_path_basename f) /\
    (d <> "." -> rp = os_path_join d (os_path_basename f)) /\
    os_path_basename rp = os_path_basename f.
Proof.
  intros (d & actions & content & digest & rel & Hd & _ & _ & _ & _ & _ & ->)%run_output_inv.
  exists d. eexists. split; [done|]. split; [reflexivity|].
  destruct (bool_decide_reflect (d = ".")) as [->|Hne].
  - split; [done|]. split; [done|].
    apply basename_whole, rfind_None_contains, basename_no_slash.
  - split; [done|]. split; [done|]. apply basename_join.
Qed.

Lemma curate_inv (files : gmap string (list string)) w result w' :
  curate E files w = (Ok result, w') ->
  result = [] \/
  exists prefixes ts filenames w1 w2,
    run_outputs E files prefixes ts filenames [] w1 = (Ok result, w2).
Proof.
  unfold curate. intros H.
  apply bind_Ok in H as ([] & w1 & _ & H). apply bind_Ok in H as ([] & w2 & _ & H).
  apply bind_Ok in H as (data & w3 & _ & H). apply bind_Ok in H as (selected & w4 & _ & H).
  apply bind_Ok in H as (n & w5 & _ & H). apply bind_Ok in H as ([] & w6 & _ & H).
  destruct (n =? 0); [left; by injection H as <-|]. right.
  apply bind_Ok in H as ([] & w7 & _ & H). apply bind_Ok in H as ([] & w8 & _ & H).
  apply bind_Ok in H as ([] & w9 & _ & H). apply bind_Ok in H as (prefixes & w10 & _ & H).
  apply bind_Ok in H as (ts & w11 & _ & H). apply bind_Ok in H as (res & w12 & Hrun & H).
  apply bind_Ok in H as ([] & w13 & _ & H). injection H as <- <-.
  by eexists _, _, _, _, _.
Qed.

(** X24. Every record [extract_files] returns has type "run-output",
    no generator key, the timestamp all records of the call share, and
    a list of actions that is not empty, free of duplicates and made of
    "input" and "output". *)
Theorem extract_files_records filename includes w result w' :
  extract_files E filename includes w = (Ok result, w') ->
  exists ts, forall r, r ∈ result ->
    r !! "type" = Some (PyStr "run-output") /\
    r !! "ts" = Some (PyStr ts) /\
    r !! "generator" = None /\
    exists actions,
      r !! "actions" = Some (PyList actions) /\
      NoDup actions /\ actions <> [] /\
      forall a, a ∈ actions -> a = "input" \/ a = "output".
Proof.
  unfold extract_files. intros H.
  apply bind_Ok in H as (lines & w1 & _ & H). apply bind_Ok in H as (files & w2 & Hscan & H).
  injection Hscan as Hscan _.
  destruct (scan_lines_actions E includes (open_lines lines) ∅) as (files' & Hscan' & Hok).
  { intros k actions Hk. by rewrite lookup_empty in Hk. }
  assert (files' = files) as -> by congruence.
  destruct (size files =? 0).
  { apply bind_Ok in H as ([] & w3 & _ & H). injection H as <- _.
    exists EmptyString. by intros r Hr%elem_of_nil. }
  apply curate_inv in H as [->|(prefixes & ts & filenames & v1 & v2 & Hrun)].
  { exists EmptyString. by intros r Hr%elem_of_nil. }
  exists ts. intros r Hr.
  apply run_outputs_inv in Hrun as (new & Hnew & Hall). simpl in Hnew. subst new.
  apply list_elem_of_lookup in Hr as (i & Hi).
  destruct (Forall2_lookup_r _ _ _ _ _ Hall Hi) as (f & _ & u1 & u2 & Hf).
  apply run_output_inv in Hf as (d & actions & content & digest & rel & _ & Hact & _ & _ & _ & _ & ->).
  split; [reflexivity|]. split; [reflexivity|]. split; [reflexivity|].
  exists actions. split; [reflexivity|]. exact (Hok f actions Hact).
Qed.

Lemma grows_bind {A B} (m : M A) (k : A -> M B) :
  grows m -> (forall a, grows (k a)) -> grows (bind m k).
Proof.
  intros Hm Hk w r w'. unfold bind. destruct (m w) as [[a|e] w1] eqn:Hmw.
  - intros Hka. etrans; [by eapply Hm|by eapply Hk].
  - intros [= <- <-]. by eapply Hm.
Qed.

Lemma grows_ret {A} (a : A) : grows (ret a).
Proof. by intros w r w' [= <- <-]. Qed.

Lemma grows_lift {A} (r : res A) : grows (lift r).
Proof. by intros w r' w' [= <- <-]. Qed.

Lemma grows_emit e : grows (emit e).
Proof. intros w r w' [= <- <-]. by apply prefix_app_r. Qed.

Lemma grows_print text : grows (print text).
Proof. apply grows_emit. Qed.

Lemma grows_editor shown : grows (editor shown).
Proof. intros w r w' [= <- <-]. by apply prefix_app_r. Qed.

Lemma grows_input prompt : grows (input prompt).
Proof.
  intros w r w'. unfold input. destruct (keystrokes w); intros [= <- <-];
    by apply prefix_app_r.
Qed.

Lemma grows_now : grows (datetime_now E).
Proof. by intros w r w' [= <- <-]. Qed.

Lemma grows_uuid : grows (uuid_uuid1 E).
Proof. by intros w r w' [= <- <-]. Qed.

Lemma grows_remap_loop n : forall prefixes, grows (remap_loop n prefixes).
Proof.
  induction n as [|n IH]; intros prefixes; cbn [remap_loop];
    (apply grows_bind; [apply grows_editor|]; intros data;
     apply grows_bind; [apply grows_lift|]; intros keys;
     destruct (bool_decide _); [apply grows_ret|];
     apply grows_bind; [apply grows_print|]; intros _;
     apply grows_bind; [apply grows_input|]; intros _).
  - by intros w r w' [= <- <-].
  - apply IH.
Qed.

Lemma grows_run_output files prefixes ts f : grows (run_output E files prefixes ts f).
Proof.
  unfold run_output.
  repeat (apply grows_bind; [first [apply grows_lift|apply grows_uuid]|]; intros ?).
  apply grows_ret.
Qed.

Lemma grows_run_outputs files prefixes ts filenames :
  forall result, grows (run_outputs E files prefixes ts filenames result).
Proof.
  induction filenames as [|f filenames IH]; intros result; simpl; [apply grows_ret|].
  apply grows_bind; [apply grows_run_output|]. intros r. apply IH.
Qed.

(** X19. The first editor session of the interactive part comes
    after the two notices and shows a list in ascending order, free of
    duplicates, that holds exactly the paths of the table; this is so
    whatever the call does afterwards. *)
Theorem curate_shows_sorted (files : gmap string (list string)) w :
  exists shown,
    (trace w ++ [Print "We captured files that matched the pattern you specified.";
                 Print "Please select files to keep (press ENTER)";
                 Editor (YSeq shown)]) `prefix_of` trace (curate E files w).2 /\
    Sorted (fun a b => String.leb a b = true) shown /\
    NoDup shown /\
    (forall k, k ∈ shown <-> is_Some (files !! k)) /\
    length shown = size files.
Proof.
  set (shown := sorted (map fst (map_to_list files))).
  exists shown. split; [|split; [apply sorted_Sorted|split; [|split]]].
  - assert (forall k : yamlval -> M (list record),
              (forall v, grows (k v)) ->
              (trace w ++ [Print "We captured files that matched the pattern you specified.";
                           Print "Please select files to keep (press ENTER)";
                           Editor (YSeq shown)])
              `prefix_of`
              trace (bind (print "We captured files that matched the pattern you specified.")
                (fun _ => bind (print "Please select files to keep (press ENTER)")
                   (fun _ => bind (editor (YSeq shown)) k)) w).2) as Hstart.
    { intros k Hk. unfold bind at 1 2 3, print, emit, editor.
      cbn [trace edits clock uuids keystrokes documents].
      match goal with |- _ `prefix_of` trace (k ?v ?w1).2 =>
        destruct (k v w1) as [r w'] eqn:Hrun; apply Hk in Hrun; revert Hrun end.
      cbn [trace snd]. by rewrite <- !app_assoc. }
    apply Hstart. intros v.
    apply grows_bind; [apply grows_lift|]; intros selected.
    apply grows_bind; [apply grows_lift|]; intros n.
    apply grows_bind; [apply grows_emit|]; intros _.
    destruct (n =? 0); [apply grows_ret|].
    apply grows_bind; [apply grows_print|]; intros _.
    apply grows_bind; [apply grows_print|]; intros _.
    apply grows_bind; [apply grows_input|]; intros _.
    apply grows_bind; [intros w0; apply grows_remap_loop|]; intros prefixes.
    apply grows_bind; [apply grows_now|]; intros ts.
    apply grows_bind; [apply grows_run_outputs|]; intros result.
    apply grows_bind; [apply grows_emit|]; intros _. apply grows_ret.
  - unfold shown. rewrite sorted_perm. apply NoDup_fst_map_to_list.
  - intros k. unfold shown. rewrite sorted_perm. rewrite list_elem_of_fmap. split.
    + intros ([k' v] & -> & Hkv). apply elem_of_map_to_list in Hkv. by eexists.
    + intros (v & Hv). exists (k, v). split; [done|]. by apply elem_of_map_to_list.
  - unfold shown. by rewrite (Permutation_length (sorted_perm _)), length_map,
      length_map_to_list.
Qed.

(** X20. The first editor session shows the sorted candidates. Text
    that does not load raises [YAMLError] and an emptied file
    [TypeError], neither recovered; an empty selection returns the
    empty list without any prompt. *)
Theorem curate_first_round (files : gmap string (list string)) w :
  let filenames := sorted (map fst (map_to_list files)) in
  let saved := match edits w with [] => YSeq filenames | v :: _ => v end in
  let w1 := mkWorld (clock w) (uuids w)
              (trace w ++ [Print "We captured files that matched the pattern you specified.";
                           Print "Please select files to keep (press ENTER)";
                           Editor (YSeq filenames)])
              (tail (edits w)) (keystrokes w) (documents w) in
  (saved = YInvalid -> curate E files w = (Raise YAMLError, w1)) /\
  (saved = YNull -> curate E files w = (Raise TypeError, w1)) /\
  (saved = YSeq [] \/ saved = YMap ∅ ->
     curate E files w
     = (Ok [], mkWorld (clock w) (uuids w) (trace w1 ++ [PrintCount 0])
                 (tail (edits w)) (keystrokes w) (documents w))).
Proof.
  intros filenames saved w1.
  assert (forall k : yamlval -> M (list record),
            bind (print "We captured files that matched the pattern you specified.")
              (fun _ => bind (print "Please select files to keep (press ENTER)")
                 (fun _ => bind (editor (YSeq filenames)) k)) w = k saved w1) as Hstart.
  { intros k. unfold bind, print, emit, editor. cbn [trace edits clock uuids keystrokes documents].
    subst w1. by rewrite <- !app_assoc. }
  unfold curate. fold filenames. rewrite Hstart. clear Hstart.
  split; [|split].
  - by intros ->.
  - by intros ->.
  - by intros [->| ->].
Qed.
End Host.

Section Host.
Context (E : Env).

(** X25. An existing argument without a permalink is returned when its
    canonical path contains the home directory string anywhere, and
    skipped otherwise, the scan going on with the arguments after it;
    without HOME in the environment the test raises [KeyError]. *)
Theorem find_first_untracked repo f rest rel :
  path_exists E f = true ->
  permalink repo (realpath E f) = (rel, None) ->
  (environ_HOME E = None ->
     find_first E repo (f :: rest) = Raise (KeyError "HOME")) /\
  (forall home, environ_HOME E = Some home ->
     (contains home (realpath E f) = true ->
        find_first E repo (f :: rest) = Ok (Some (realpath E f), None)) /\
     (contains home (realpath E f) = false ->
        find_first E repo (f :: rest) = find_first E repo rest)).
Proof.
  intros Hex Hlink. cbn [find_first]. rewrite Hex, Hlink. unfold environ_getitem_HOME.
  split.
  - by intros ->.
  - intros home ->. split; by intros ->.
Qed.

(** X26. An answer of the scan is either empty, every existing
    argument being untracked and away from home, or comes from an
    argument that exists: a permalink is always one the manager gave
    for it, and a path without permalink is its canonical path, which
    contains the home directory string. *)
Theorem find_first_sound repo args a b :
  find_first E repo args = Ok (a, b) ->
  (a = None /\ b = None /\
   forall f, f ∈ args -> path_exists E f = true ->
     (permalink repo (realpath E f)).2 = None /\
     exists home, environ_HOME E = Some home /\ contains home (realpath E f) = false) \/
  exists f, f ∈ args /\ path_exists E f = true /\
    ((exists link, b = Some link /\ permalink repo (realpath E f) = (a, Some link)) \/
     (b = None /\ a = Some (realpath E f) /\
      (permalink repo (realpath E f)).2 = None /\
      exists home, environ_HOME E = Some home /\ contains home (realpath E f) = true)).
Proof.
  induction args as [|f args IH]; cbn [find_first].
  - intros [= <- <-]. left. split; [done|]. split; [done|]. by intros g Hg%elem_of_nil.
  - destruct (path_exists E f) eqn:Hex.
    + destruct (permalink repo (realpath E f)) as [rel [link|]] eqn:Hlink.
      * intros [= <- <-]. right. exists f. split; [apply list_elem_of_here|]. split; [done|]. left. by exists link.
      * unfold environ_getitem_HOME. destruct (environ_HOME E) as [home|] eqn:Hhome; [|done].
        destruct (contains home (realpath E f)) eqn:Hc.
        -- intros [= <- <-]. right. exists f. split; [apply list_elem_of_here|]. split; [done|]. right.
           split; [done|]. split; [done|]. split; [by rewrite Hlink|]. by exists home.
        -- intros [(-> & -> & Hall)|(g & Hg & Hrest)]%IH.
           ++ left. split; [done|]. split; [done|].
              intros g [->|Hg]%elem_of_cons Hgex; [|by apply Hall].
              rewrite Hlink. split; [done|]. by exists home.
           ++ right. exists g. split; [by apply list_elem_of_further|done].
    + intros [(-> & -> & Hall)|(g & Hg & Hrest)]%IH.
      * left. split; [done|]. split; [done|].
        intros g [->|Hg]%elem_of_cons Hgex; [congruence|by apply Hall].
      * right. exists g. split; [by apply list_elem_of_further|done].
Qed.
End Host.

Section Run.
Context (E : Env) (R : Runner).

(** X27. [run_executable] returns the records of [extract_files], in
    order, each with one mapping added under execution_metadata and
    nothing else changed. The mapping is the same for all; it holds the
    platform metadata, and likelyexecutable, commitpath and args where
    the platform metadata have no such key, the platform's value
    winning otherwise. *)
Theorem run_executable_stamps repo args includes w out w' :
  run_executable E R repo args includes w = (Ok out, w') ->
  exists (platform metadata : gmap string pyval) tmpdir (files : list record) w1 w2 w3 w4,
    platform_metadata R w = (Ok platform, w1) /\
    mkdtemp R w2 = (Ok tmpdir, w3) /\
    extract_files E (os_path_join tmpdir "strace.out.txt") includes w4 = (Ok files, w') /\
    length out = length files /\
    (forall i f, files !! i = Some f ->
       exists s, out !! i = Some s /\
         s !! "execution_metadata" = Some (Mapping metadata) /\
         forall k, k <> "execution_metadata" -> s !! k = Plain <$> f !! k) /\
    (forall k v, platform !! k = Some v -> metadata !! k = Some v) /\
    (platform !! "args" = None -> metadata !! "args" = Some (PyList args)) /\
    dom metadata = dom platform ∪ {["likelyexecutable"; "commitpath"; "args"]}.
Proof.
  unfold run_executable. intros H.
  apply bind_Ok in H as (platform & w1 & Hplat & H).
  apply bind_Ok in H as ([] & w1' & _ & H).
  apply bind_Ok in H as ([executable commiturl] & w2 & _ & H).
  apply bind_Ok in H as (tmpdir & w3 & Htmp & H).
  apply bind_Ok in H as ([] & w3' & _ & H).
  apply bind_Ok in H as ([o e] & w4 & _ & H).
  apply bind_Ok in H as ([] & w5 & _ & H). apply bind_Ok in H as ([] & w6 & _ & H).
  apply bind_Ok in H as (files & w7 & Hfiles & H). injection H as <- <-.
  eexists platform, _, tmpdir, files, w1, w2, w3, w6.
  split; [done|]. split; [done|]. split; [done|]. split; [by rewrite length_map|].
  split; [|split; [|split]].
  - intros i f Hf. eexists. split; [by rewrite list_lookup_fmap, Hf|].
    split; [by rewrite lookup_insert_eq|].
    intros k Hk. by rewrite lookup_insert_ne, lookup_fmap.
  - intros k v Hk. by apply lookup_union_Some_l.
  - intros Hk. by rewrite lookup_union_r.
  - rewrite dom_union_L. by f_equal.
Qed.
End Run.

Section Host.
Context (E : Env).

Lemma directories_acc (filenames : list string) :
  forall (acc : gmap string string) k,
  is_Some (acc !! k) ->
  is_Some (foldl (fun prefixes f => <[directory f := directory f]> prefixes) acc filenames !! k).
Proof.
  induction filenames as [|g filenames IH]; intros acc k Hk; simpl; [done|].
  apply IH. destruct (decide (directory g = k)) as [->|Hne].
  - rewrite lookup_insert_eq. by eexists.
  - by rewrite lookup_insert_ne.
Qed.

Lemma directories_has (filenames : list string) f :
  f ∈ filenames -> is_Some (directories filenames !! directory f).
Proof.
  unfold directories. generalize (∅ : gmap string string).
  induction filenames as [|g filenames IH]; intros acc Hf; [by apply elem_of_nil in Hf|].
  simpl. apply elem_of_cons in Hf as [->|Hf]; [|by apply IH].
  apply directories_acc. rewrite lookup_insert_eq. by eexists.
Qed.

(** The table the records are built from: the accepted mapping with
    the root directory added back under the empty name. *)
Lemma rooted_lookup (m : gmap string string) f d :
  m !! directory f = Some d ->
  match m !! "." with Some d' => <[EmptyString := d']> m | None => m end
    !! os_path_dirname f = Some d.
Proof.
  unfold directory. destruct (bool_decide_reflect (os_path_dirname f = EmptyString)) as [->|Hne].
  - intros ->. by rewrite lookup_insert_eq.
  - intros Hd. destruct (m !! ".") as [d'|]; [|done]. by rewrite lookup_insert_ne.
Qed.

Lemma selection_tracked (files : gmap string (list string)) selected f :
  f ∈ selection files selected -> is_Some (files !! f).
Proof.
  unfold selection. intros Hf%list_elem_of_In%filter_In. destruct Hf as [Hf _].
  apply list_elem_of_In in Hf. rewrite sorted_perm in Hf.
  apply list_elem_of_fmap in Hf as ([k v] & -> & Hkv).
  apply elem_of_map_to_list in Hkv. by eexists.
Qed.

Lemma run_output_returns (files : gmap string (list string)) (prefixes : gmap string string)
    ts f w d actions content digest :
  prefixes !! os_path_dirname f = Some d -> files !! f = Some actions ->
  read512 E f = Ok content -> compute_sha256 E f = Ok digest -> f <> EmptyString ->
  exists r,
    run_output E files prefixes ts f w
    = (Ok r, mkWorld (clock w) (S (uuids w)) (trace w) (edits w) (keystrokes w)
               (documents w)).
Proof.
  intros Hd Ha Hc Hs Hf. unfold run_output, bind, lift, ret, uuid_uuid1, os_path_relpath.
  rewrite Hd, Ha, Hc, Hs. rewrite bool_decide_eq_false_2 by done. by eexists.
Qed.

Lemma run_outputs_returns (files : gmap string (list string)) (prefixes : gmap string string)
    ts filenames :
  (forall f, f ∈ filenames ->
     is_Some (prefixes !! os_path_dirname f) /\ is_Some (files !! f) /\
     f <> EmptyString /\
     (exists content, read512 E f = Ok content) /\
     exists digest, compute_sha256 E f = Ok digest) ->
  forall result w,
  exists new,
    run_outputs E files prefixes ts filenames result w
    = (Ok (result ++ new),
       mkWorld (clock w) (uuids w + length filenames) (trace w) (edits w) (keystrokes w)
         (documents w)) /\
    length new = length filenames /\
    forall i f, filenames !! i = Some f ->
      exists r w1 w2, new !! i = Some r /\ uuids w1 = uuids w + i /\
        run_output E files prefixes ts f w1 = (Ok r, w2).
Proof.
  induction filenames as [|f filenames IH]; intros Hall result w; simpl.
  - exists []. rewrite app_nil_r, Nat.add_0_r. split; [by destruct w|]. split; [done|].
    by intros i f [=].
  - destruct (Hall f) as ((d & Hd) & (actions & Ha) & Hf & (content & Hc) & (digest & Hs));
      [apply list_elem_of_here|].
    destruct (run_output_returns files prefixes ts f w d actions content digest
                Hd Ha Hc Hs Hf) as (r & Hr).
    erewrite bind_run by exact Hr.
    destruct (IH (fun g Hg => Hall g (list_elem_of_further _ _ _ Hg)) (result ++ [r])
                (mkWorld (clock w) (S (uuids w)) (trace w) (edits w) (keystrokes w)
                   (documents w))) as (new & Hrun & Hlen & Hnew).
    exists (r :: new). rewrite Hrun. cbn [clock uuids trace edits keystrokes documents].
    rewrite <- app_assoc. split; [do 2 f_equal; lia|]. split; [simpl; by rewrite Hlen|].
    intros [|i] g Hg.
    + injection Hg as <-. eexists r, w, _. split; [done|]. split; [lia|exact Hr].
    + destruct (Hnew i g Hg) as (r' & w1 & w2 & Hr' & Hu & Hrun').
      exists r', w1, w2. split; [done|]. split; [|done].
      rewrite Hu. cbn [uuids]. lia.
Qed.

End Host.

Section Host.
Context (E : Env).

(** The interactive part, run to its end: the first document saved is
    a selection that is not empty, a keystroke is left, the second is a
    mapping from the directories shown to strings, and the host can
    read and hash the kept files. *)
Lemma curate_run (files : gmap string (list string)) w selected n
    (m : gmap string string) :
  next_edit (YSeq (sorted (map fst (map_to_list files)))) w = selected ->
  yaml_len selected = Ok n -> n <> 0 ->
  keystrokes w <> 0 ->
  match tail (edits w) with
  | [] => YMap (directories (selection files selected))
  | saved :: _ => saved
  end = YMap m ->
  dom m = dom (directories (selection files selected)) ->
  (forall f, f ∈ selection files selected ->
     f <> EmptyString /\ (exists content, read512 E f = Ok content) /\
     exists digest, compute_sha256 E f = Ok digest) ->
  exists result w',
    curate E files w = (Ok result, w') /\
    length result = length (selection files selected) /\
    edits w' = tail (tail (edits w)) /\
    forall i f, selection files selected !! i = Some f ->
      exists r d actions,
        result !! i = Some r /\
        m !! directory f = Some d /\
        files !! f = Some actions /\
        r !! "relativepath"
        = Some (PyStr (if bool_decide (d = ".") then os_path_basename f
                       else os_path_join d (os_path_basename f))) /\
        r !! "actions" = Some (PyList actions) /\
        r !! "localfullpath" = Some (PyStr (abspath E f)).
Proof.
  intros Hfirst Hlen Hn Hkeys Hsecond Hdom Hhost.
  destruct w as [c u t e k docs]. unfold next_edit in Hfirst.
  cbn [edits keystrokes] in Hfirst, Hkeys, Hsecond.
  destruct k as [|k]; [done|].
  assert (yaml_load selected = Ok selected) as Hload by (by destruct selected).
  unfold curate. cbv [bind print emit editor lift ret input datetime_now].
  cbn [edits keystrokes clock uuids trace documents tail].
  rewrite Hfirst, Hload, Hlen.
  destruct (n =? 0) eqn:Hz; [by apply Nat.eqb_eq in Hz|].
  cbn [edits keystrokes clock uuids trace documents].
  rewrite remap_loop_unfold. unfold revised_of, next_edit, edited.
  cbn [edits keystrokes clock uuids trace documents tail].
  fold (selection files selected).
  change (foldl _ ∅ (selection files selected))
    with (directories (selection files selected)).
  rewrite Hsecond. cbn [yaml_load yaml_keys].
  rewrite bool_decide_eq_true_2 by exact Hdom.
  cbn [edits keystrokes clock uuids trace documents].
  set (rooted := match m !! "." with Some d => <[EmptyString := d]> m | None => m end).
  assert (Hm : forall f, f ∈ selection files selected -> is_Some (m !! directory f)).
  { intros f Hf. apply elem_of_dom. rewrite Hdom. apply elem_of_dom.
    by apply directories_has. }
  match goal with
  | |- context [run_outputs E files rooted ?ts (selection files selected) [] ?w0] =>
      destruct (run_outputs_returns E files rooted ts (selection files selected)) with
        (result := @nil record) (w := w0) as (new & Hrun & Hnew & Hall)
  end.
  { intros f Hf. destruct (Hm f Hf) as (d & Hd). destruct (Hhost f Hf) as (Hne & Hc & Hs).
    split; [exists d; by apply rooted_lookup|]. split; [by eapply selection_tracked|done]. }
  rewrite Hrun. cbn [app edits keystrokes clock uuids trace documents].
  eexists _, _. split; [reflexivity|]. split; [done|]. split; [reflexivity|].
  intros i f Hi. destruct (Hall i f Hi) as (r & w1 & w2 & Hr & _ & Hout).
  apply run_output_inv in Hout
    as (d & actions & content & digest & rel & Hd & Ha & _ & _ & _ & _ & ->).
  assert (Hf : f ∈ selection files selected) by (by eapply list_elem_of_lookup_2).
  destruct (Hm f Hf) as (d' & Hd').
  assert (d' = d) as ->.
  { apply (rooted_lookup m f d') in Hd'. fold rooted in Hd'. congruence. }
  eexists _, d, actions. split; [exact Hr|]. split; [exact Hd'|]. split; [exact Ha|].
  split; [reflexivity|]. split; reflexivity.
Qed.

(** X28. The interactive part runs to completion when the operator
    keeps a non-empty selection, a keystroke is left for the prompt,
    the second document saved is a mapping from exactly the
    directories shown to strings, and the host can read and hash the
    kept files: no lookup in the tables fails. There is one record per
    kept file, in the order shown; its relativepath comes from the
    target chosen for the file's directory, a file without directory
    using the entry ".". *)
Theorem curate_returns (files : gmap string (list string)) w selected n
    (m : gmap string string) rest :
  edits w = selected :: YMap m :: rest ->
  yaml_len selected = Ok n -> n <> 0 ->
  keystrokes w <> 0 ->
  dom m = dom (directories (selection files selected)) ->
  (forall f, f ∈ selection files selected ->
     f <> EmptyString /\ (exists content, read512 E f = Ok content) /\
     exists digest, compute_sha256 E f = Ok digest) ->
  exists result w',
    curate E files w = (Ok result, w') /\
    length result = length (selection files selected) /\
    edits w' = rest /\
    forall i f, selection files selected !! i = Some f ->
      exists r d actions,
        result !! i = Some r /\
        m !! directory f = Some d /\
        files !! f = Some actions /\
        r !! "relativepath"
        = Some (PyStr (if bool_decide (d = ".") then os_path_basename f
                       else os_path_join d (os_path_basename f))) /\
        r !! "actions" = Some (PyList actions) /\
        r !! "localfullpath" = Some (PyStr (abspath E f)).
Proof.
  intros Hedits Hlen Hn Hkeys Hdom Hhost.
  destruct (curate_run files w selected n m) as (result & w' & Hrun & Hl & He & Hall);
    try done.
  - unfold next_edit. by rewrite Hedits.
  - by rewrite Hedits.
  - exists result, w'. rewrite Hedits in He. done.
Qed.
End Host.

(** ** Instances on the sample data *)

Import demo_more.

Lemma merge_records_keeps_order_witness :
  paths [ra; rb] `prefix_of` paths [ra; rb2; rc] /\ length [ra; rb2; rc] = 3.
Proof.
  assert (H : merge_records [ra; rb] [rb1; rc; rb2] = Ok [ra; rb2; rc])
    by (vm_cast_no_check (eq_refl (Ok [ra; rb2; rc]))).
  split; [|reflexivity].
  exact (proj1 (merge_records_keeps_order [rb1; rc; rb2] [ra; rb] [ra; rb2; rc] H)).
Defined.

Lemma merge_records_tracked_witness :
  paths [ra; rb2] = paths [ra; rb] /\ length [ra; rb2] = length [ra; rb].
Proof.
  assert (Hin : forall h, h ∈ [rb1; rb2] -> h !! "relativepath" ∈ paths [ra; rb]).
  { intros h Hh. apply elem_of_cons in Hh as [->|Hh];
      [|apply list_elem_of_singleton in Hh as ->];
      apply list_elem_of_further, list_elem_of_here. }
  assert (H : merge_records [ra; rb] [rb1; rb2] = Ok [ra; rb2])
    by (vm_cast_no_check (eq_refl (Ok [ra; rb2]))).
  exact (merge_records_tracked [rb1; rb2] [ra; rb] [ra; rb2] Hin H).
Defined.

Lemma merge_record_last_wins_witness :
  merge_record [ra; rb1] rb2 = merge_record [ra] rb2 /\
  merge_records [ra] [rb1; rb2] = merge_record [ra] rb2.
Proof.
  assert (H : merge_record [ra] rb1 = Ok [ra; rb1])
    by (vm_cast_no_check (eq_refl (Ok [ra; rb1]))).
  exact (merge_record_last_wins [ra] [ra; rb1] rb1 rb2 (PyStr "b.csv") eq_refl eq_refl H).
Defined.

Lemma merge_records_holds_last_witness : rb2 ∈ [ra; rb2; rc].
Proof.
  assert (Hafter : forall h', h' ∈ [rc] -> h' !! "relativepath" <> rb2 !! "relativepath").
  { intros h' Hh. apply list_elem_of_singleton in Hh as ->. discriminate. }
  assert (H : merge_records [ra] ([rb1] ++ rb2 :: [rc]) = Ok [ra; rb2; rc])
    by (vm_cast_no_check (eq_refl (Ok [ra; rb2; rc]))).
  exact (merge_records_holds_last [rb1] [rc] rb2 [ra] [ra; rb2; rc] Hafter H).
Defined.

Lemma merge_records_untouched_witness : [ra; rb2; rc] !! 0 = Some ra.
Proof.
  assert (Hne : forall h, h ∈ [rb2; rc] -> h !! "relativepath" <> ra !! "relativepath").
  { intros h Hh. apply elem_of_cons in Hh as [->|Hh];
      [|apply list_elem_of_singleton in Hh as ->]; discriminate. }
  assert (H : merge_records [ra; rb] [rb2; rc] = Ok [ra; rb2; rc])
    by (vm_cast_no_check (eq_refl (Ok [ra; rb2; rc]))).
  exact (merge_records_untouched [rb2; rc] [ra; rb] [ra; rb2; rc] 0 ra eq_refl Hne H).
Defined.

Lemma add_batch_failure_witness :
  let w1 := mkWorld 1 1 [Print "Looking at /nowhere/x.csv"] [] 0 ∅ in
  add demo.host no_run demo.repo ["/nowhere/x.csv"] false false "." [] false PyNone
    demo.world0 = (Raise (IOError "/nowhere/x.csv"), w1) /\
  documents w1 = documents demo.world0.
Proof.
  intros w1.
  assert (H : add_files demo.host ["/nowhere/x.csv"] "." false PyNone false demo.world0
              = (Raise (IOError "/nowhere/x.csv"), w1))
    by (vm_cast_no_check (eq_refl (@Raise (list record) (IOError "/nowhere/x.csv"), w1))).
  exact (add_batch_failure demo.host no_run demo.repo ["/nowhere/x.csv"] false "." []
           false PyNone demo.world0 (IOError "/nowhere/x.csv") w1 H).
Defined.

Lemma add_failure_points_witness :
  let out := add_files demo.host ["https://x/a.csv"] "." false PyNone false demo.world0 in
  add demo.host no_run demo.repo ["https://x/a.csv"] false false "." [] false PyNone
    demo.world0 = (Raise (IOError manifest_path), out.2).
Proof.
  intros out.
  set (files := match out.1 with Ok l => l | Raise _ => [] end).
  assert (H : out = (Ok files, out.2)) by (vm_cast_no_check (eq_refl out)).
  assert (Hlen : length files = 1) by (vm_cast_no_check (eq_refl 1)).
  assert (Hne : files <> []) by (intros Heq; rewrite Heq in Hlen; discriminate Hlen).
  assert (Hdoc : documents out.2 !! os_path_join (rootdir demo.repo) "datapackage.json" = None)
    by (vm_cast_no_check (eq_refl (@None package))).
  exact (proj1 (proj2 (add_failure_points demo.host no_run demo.repo ["https://x/a.csv"]
                         false "." [] false PyNone demo.world0 files out.2 H Hne))
           out.2 eq_refl Hdoc).
Defined.


Lemma add_files_link_local_witness :
  let args := ["/tmp/in.csv"; "https://x/in.csv"] in
  exists files w' update,
    add_files demo.host args "." false PyNone false demo.world0 = (Ok files, w') /\
    files !! 1 = Some update /\ update !! "change" = Some (PyStr "add").
Proof.
  intros args.
  set (out := add_files demo.host args "." false PyNone false demo.world0).
  set (files := match out.1 with Ok l => l | Raise _ => [] end).
  set (update := match files !! 1 with Some u => u | None => (∅ : record) end).
  assert (H : out = (Ok files, out.2)) by (vm_cast_no_check (eq_refl out)).
  assert (Hu : files !! 1 = Some update) by (vm_cast_no_check (eq_refl (files !! 1))).
  assert (Hkinds : forall i g, i < 1 -> args !! i = Some g ->
            contains "://" g = negb (contains "://" "https://x/in.csv")).
  { intros [|i] g Hi Hg; [|lia]. injection Hg as <-. reflexivity. }
  exists files, out.2, update. split; [exact H|]. split; [exact Hu|].
  exact (add_files_link_local demo.host args "." false PyNone false demo.world0 files out.2
           1 "https://x/in.csv" update H eq_refl Hu Hkinds).
Defined.

Lemma add_file_normal_key_of_relativepath_witness :
  let out := add_file_normal demo.host "/tmp/in.csv" "raw/2016" false false PyNone
               demo.world0 in
  exists base update w',
    out = (Ok (base, update), w') /\
    exists rp, update !! "relativepath" = Some (PyStr rp) /\ os_path_basename rp = base.
Proof.
  intros out.
  set (base := match out.1 with Ok p => p.1 | Raise _ => EmptyString end).
  set (update := match out.1 with Ok p => p.2 | Raise _ => (∅ : record) end).
  assert (H : out = (Ok (base, update), out.2)) by (vm_cast_no_check (eq_refl out)).
  exists base, update, out.2. split; [exact H|].
  destruct (add_file_normal_key_of_relativepath demo.host "/tmp/in.csv" "raw/2016" false
              false PyNone demo.world0 base update out.2 H) as (rp & Hrp & Hbase & _).
  exists rp. split; [exact Hrp|exact Hbase].
Defined.

Lemma add_files_uuids_witness :
  let out := add_files demo.host ["/tmp/in.csv"; "https://x/data.csv"; "/tmp/in.csv"]
               "." false PyNone false demo.world0 in
  exists files w', out = (Ok files, w') /\ uuids w' = 0 + 3.
Proof.
  intros out.
  set (files := match out.1 with Ok l => l | Raise _ => [] end).
  assert (H : out = (Ok files, out.2)) by (vm_cast_no_check (eq_refl out)).
  exists files, out.2. split; [exact H|].
  exact (proj1 (add_files_uuids demo.host
                  ["/tmp/in.csv"; "https://x/data.csv"; "/tmp/in.csv"]
                  "." false PyNone false demo.world0 files out.2 H)).
Defined.

Lemma add_files_distinct_keys_witness :
  let args := ["/tmp/in.csv"; "https://x/data.csv"] in
  let out := add_files demo.host args "." false PyNone false demo.world0 in
  exists files w', out = (Ok files, w') /\ length files = length args.
Proof.
  intros args out.
  set (files := match out.1 with Ok l => l | Raise _ => [] end).
  assert (H : out = (Ok files, out.2)) by (vm_cast_no_check (eq_refl out)).
  assert (Hnd : NoDup (batch_key <$> args)).
  { apply (bool_decide_eq_true_1 (NoDup (batch_key <$> args))).
    vm_cast_no_check (eq_refl true). }
  exists files, out.2. split; [exact H|].
  exact (proj1 (add_files_distinct_keys demo.host args "." false PyNone false demo.world0
                  files out.2 Hnd H)).
Defined.

Lemma add_files_empty_path_witness :
  exists w',
    add_files demo.host (["https://x/data.csv"] ++ EmptyString :: ["/tmp/in.csv"])
      "." false PyNone false demo.world0
    = (Raise (ValueError "no path specified"), w') /\
    documents w' = documents demo.world0.
Proof.
  assert (Hbefore : forall f, f ∈ ["https://x/data.csv"] -> contains "://" f = false ->
            f <> EmptyString /\ exists digest, compute_sha256 demo.host f = Ok digest).
  { intros f Hf Hc. apply list_elem_of_singleton in Hf. rewrite Hf in Hc. discriminate Hc. }
  exact (add_files_empty_path demo.host ["https://x/data.csv"] ["/tmp/in.csv"] "." false
           PyNone false demo.world0 Hbefore).
Defined.

Lemma matched_file_shape_witness :
  matched_file "20826 open(b'/tmp/in.csv', O_RDONLY) = 3" = Some "/tmp/in.csv" /\
  contains (String newline EmptyString) "/tmp/in.csv" = false.
Proof.
  assert (H : matched_file "20826 open(b'/tmp/in.csv', O_RDONLY) = 3" = Some "/tmp/in.csv")
    by (vm_cast_no_check (eq_refl (Some "/tmp/in.csv"))).
  split; [exact H|].
  exact (proj1 (proj2 (matched_file_shape "20826 open(b'/tmp/in.csv', O_RDONLY) = 3"
                         "/tmp/in.csv" H))).
Defined.

Lemma open_lines_complete_witness :
  let l := "20826 open(b'/tmp/in.csv', O_RDONLY) = 4" +:+ String newline EmptyString in
  l ∈ demo.trace_log /\ strip l ∈ open_lines demo.trace_log.
Proof.
  intros l.
  assert (Hl : l ∈ demo.trace_log).
  { apply list_elem_of_further, list_elem_of_further, list_elem_of_here. }
  assert (H : matched_file (strip l) = Some "/tmp/in.csv")
    by (vm_cast_no_check (eq_refl (Some "/tmp/in.csv"))).
  split; [exact Hl|].
  exact (open_lines_complete demo.trace_log l "/tmp/in.csv" Hl H).
Defined.

Lemma remap_loop_keys_witness :
  let shown : gmap string string := {["/home/alice/work/out" := "."]} in
  let saved : gmap string string := {["/home/alice/work/out" := "results"]} in
  let w := mkWorld 0 0 [] [YMap saved] 0 ∅ in
  exists w', remap_loop 3 shown w = (Ok saved, w') /\ dom saved = dom shown.
Proof.
  intros shown saved w.
  set (out := remap_loop 3 shown w).
  assert (H : out = (Ok saved, out.2)) by (vm_cast_no_check (eq_refl out)).
  exists out.2. split; [exact H|].
  exact (remap_loop_keys 3 shown saved w out.2 H).
Defined.

Lemma run_output_relativepath_witness :
  let f := "/home/alice/work/out/result.csv" in
  let files : gmap string (list string) := {[f := ["output"]]} in
  let prefixes : gmap string string := {["/home/alice/work/out" := "results"]} in
  exists r w',
    run_output demo.host files prefixes "2016-03-01" f demo.world0 = (Ok r, w') /\
    exists rp, r !! "relativepath" = Some (PyStr rp) /\
               os_path_basename rp = os_path_basename f.
Proof.
  intros f files prefixes.
  set (out := run_output demo.host files prefixes "2016-03-01" f demo.world0).
  set (r := match out.1 with Ok r => r | Raise _ => (∅ : record) end).
  assert (H : out = (Ok r, out.2)) by (vm_cast_no_check (eq_refl out)).
  exists r, out.2. split; [exact H|].
  destruct (run_output_relativepath demo.host files prefixes "2016-03-01" f demo.world0
              r out.2 H) as (d & rp & _ & Hrp & _ & _ & Hbase).
  exists rp. split; [exact Hrp|exact Hbase].
Defined.

Lemma extract_files_records_witness :
  exists result w' ts,
    extract_files capture_host "/tmp/tmpx/strace.out.txt" ["*.csv"] attended
    = (Ok result, w') /\
    length result <> 0 /\
    forall r, r ∈ result ->
      r !! "type" = Some (PyStr "run-output") /\ r !! "ts" = Some (PyStr ts).
Proof.
  assert (Hok : match (extract_files capture_host "/tmp/tmpx/strace.out.txt" ["*.csv"]
                         attended).1 with
                | Ok (_ :: _) => true
                | _ => false
                end = true) by (vm_cast_no_check (eq_refl true)).
  revert Hok.
  destruct (extract_files capture_host "/tmp/tmpx/strace.out.txt" ["*.csv"] attended)
    as [[[|r0 result]|e] w'] eqn:H; intros Hok; try discriminate Hok.
  destruct (extract_files_records capture_host "/tmp/tmpx/strace.out.txt" ["*.csv"]
              attended (r0 :: result) w' H) as (ts & Hall).
  exists (r0 :: result), w', ts. split; [reflexivity|]. split; [discriminate|].
  intros r Hr. destruct (Hall r Hr) as (Hty & Hts & _).
  split; [exact Hty|exact Hts].
Defined.

Lemma find_first_untracked_witness :
  path_exists demo.host "/usr/bin/python3" = true /\
  find_first demo.host demo.repo ["/usr/bin/python3"; "model.py"]
  = find_first demo.host demo.repo ["model.py"].
Proof.
  split; [reflexivity|].
  exact (proj2 (proj2 (find_first_untracked demo.host demo.repo "/usr/bin/python3"
                         ["model.py"] None eq_refl eq_refl)
                  "/home/alice" eq_refl) eq_refl).
Defined.

Lemma find_first_sound_witness :
  let args := ["python3"; "/usr/bin/python3"; "model.py"] in
  let link := "https://example.org/alice/work/blob/3fa9c1/model.py" in
  find_first demo.host demo.repo args = Ok (Some "model.py", Some link) /\
  exists f, f ∈ args /\ path_exists demo.host f = true /\
    permalink demo.repo (realpath demo.host f) = (Some "model.py", Some link).
Proof.
  intros args link.
  assert (H : find_first demo.host demo.repo args = Ok (Some "model.py", Some link))
    by (vm_cast_no_check (eq_refl (Ok (Some "model.py", Some link)))).
  split; [exact H|].
  destruct (find_first_sound demo.host demo.repo args (Some "model.py") (Some link) H)
    as [(Ha & _)|(f & Hf & Hex & [(l & Hl & Hp)|(Hb & _)])].
  - discriminate Ha.
  - exists f. split; [exact Hf|]. split; [exact Hex|].
    injection Hl as <-. exact Hp.
  - discriminate Hb.
Defined.

Lemma run_executable_stamps_witness :
  exists recs w' (metadata : gmap string pyval),
    run_executable capture_host runner demo.repo ["python3"; "model.py"] ["*.csv"] attended
    = (Ok recs, w') /\
    length recs <> 0 /\
    metadata !! "args" = Some (PyList ["python3"; "model.py"]) /\
    forall s, s ∈ recs -> s !! "execution_metadata" = Some (Mapping metadata).
Proof.
  assert (Hok : match (run_executable capture_host runner demo.repo ["python3"; "model.py"]
                         ["*.csv"] attended).1 with
                | Ok (_ :: _) => true
                | _ => false
                end = true) by (vm_cast_no_check (eq_refl true)).
  revert Hok.
  destruct (run_executable capture_host runner demo.repo ["python3"; "model.py"]
              ["*.csv"] attended) as [[[|s0 recs]|e] w'] eqn:H; intros Hok;
    try discriminate Hok.
  destruct (run_executable_stamps capture_host runner demo.repo ["python3"; "model.py"]
              ["*.csv"] attended (s0 :: recs) w' H)
    as (platform & metadata & tmpdir & files & w1 & w2 & w3 & w4
        & Hplat & _ & _ & Hl & Hall & _ & Hargs & _).
  exists (s0 :: recs), w', metadata. split; [reflexivity|]. split; [discriminate|]. split.
  - apply Hargs. injection Hplat as <- _. reflexivity.
  - intros s Hs. apply list_elem_of_lookup in Hs as (i & Hi).
    destruct (lookup_lt_is_Some_2 files i) as (f & Hf).
    { rewrite <- Hl. eapply lookup_lt_Some, Hi. }
    destruct (Hall i f Hf) as (s' & Hs' & Hm & _).
    rewrite Hi in Hs'. injection Hs' as <-. exact Hm.
Defined.

Lemma merge_record_key_error_witness :
  merge_record [ra] (∅ : record) = Raise (KeyError "relativepath").
Proof.
  assert (Hne : [ra] <> []) by discriminate.
  exact (proj1 (proj2 (merge_record_key_error [ra] ∅)) Hne eq_refl).
Defined.

Lemma scan_lines_exact_witness :
  exists files actions,
    scan_lines demo.host ["*.csv"] (open_lines demo.trace_log) ∅ = Ok files /\
    files !! relpath demo.host "/tmp/in.csv" = Some actions /\ "input" ∈ actions.
Proof.
  destruct (scan_lines_exact demo.host ["*.csv"] (open_lines demo.trace_log))
    as (files & Hscan & Hiff & _).
  set (l := "20826 open(b'/tmp/in.csv', O_RDONLY|O_CLOEXEC) = 3").
  assert (Hl : l ∈ open_lines demo.trace_log).
  { apply (bool_decide_eq_true_1 (l ∈ open_lines demo.trace_log)).
    vm_cast_no_check (eq_refl true). }
  assert (Hp : matched_file l = Some "/tmp/in.csv")
    by (vm_cast_no_check (eq_refl (Some "/tmp/in.csv"))).
  assert (Hm : fnmatch demo.host (relpath demo.host "/tmp/in.csv") "*.csv" = true)
    by (vm_cast_no_check (eq_refl true)).
  assert (Ha : "input" = if contains "O_RDONLY" l then "input" else "output")
    by (vm_cast_no_check (eq_refl "input")).
  destruct (proj2 (Hiff (relpath demo.host "/tmp/in.csv") "input")) as (actions & Hk & Hin).
  { exists l, "/tmp/in.csv". split; [exact Hl|]. split; [exact Hp|].
    split; [reflexivity|]. split; [reflexivity|].
    split; [exists "*.csv"; split; [apply list_elem_of_here|exact Hm]|].
    split; [reflexivity|exact Ha]. }
  exists files, actions. split; [exact Hscan|]. split; [exact Hk|exact Hin].
Defined.

Lemma curate_first_round_witness :
  let files : gmap string (list string) := {["/home/alice/work/out/result.csv" := ["output"]]} in
  exists w', curate demo.host files (mkWorld 0 0 [] [YSeq []] 1 ∅) = (Ok [], w').
Proof.
  intros files. eexists.
  exact (proj2 (proj2 (curate_first_round demo.host files (mkWorld 0 0 [] [YSeq []] 1 ∅)))
           (or_introl eq_refl)).
Defined.

Lemma remap_loop_round_witness :
  let shown : gmap string string := {["/home/alice/work/out" := "."]} in
  exists w', remap_loop 2 shown (mkWorld 0 0 [] [YInvalid] 0 ∅) = (Raise EOFError, w').
Proof.
  intros shown. eexists.
  assert (Hd : dom (∅ : gmap string string) <> dom shown).
  { apply (bool_decide_eq_false_1 (dom (∅ : gmap string string) = dom shown)).
    vm_cast_no_check (eq_refl false). }
  exact (proj1 (proj2 (proj2 (remap_loop_round 2 shown (mkWorld 0 0 [] [YInvalid] 0 ∅)))
                  ∅ (or_intror (conj eq_refl eq_refl)) Hd) eq_refl).
Defined.

Lemma add_nothing_witness :
  add demo.host no_run demo.repo [] false false "." [] false PyNone demo.world0
  = (Ok tt, mkWorld 1 0 [] [] 0 ∅).
Proof.
  exact (proj1 (proj2 (add_nothing demo.host no_run demo.repo [] false "." [] false PyNone
                         demo.world0 [] (mkWorld 1 0 [] [] 0 ∅) eq_refl) eq_refl)).
Defined.

Lemma curate_returns_witness :
  let files : gmap string (list string) := {["out/result.csv" := ["output"]]} in
  let w := mkWorld 0 0 [] [YSeq ["out/result.csv"]; YMap {["out" := "results"]}] 1 ∅ in
  exists result w', curate demo.host files w = (Ok result, w') /\ length result = 1.
Proof.
  intros files w.
  set (selected := YSeq ["out/result.csv"]).
  set (m := {["out" := "results"]} : gmap string string).
  assert (Hsel : selection files selected = ["out/result.csv"])
    by (vm_cast_no_check (eq_refl ["out/result.csv"])).
  assert (Hn : 1 <> 0) by discriminate.
  assert (Hdom : dom m = dom (directories (selection files selected))).
  { apply (bool_decide_eq_true_1 (dom m = dom (directories (selection files selected)))).
    vm_cast_no_check (eq_refl true). }
  assert (Hhost : forall f, f ∈ selection files selected ->
            f <> EmptyString /\ (exists content, read512 demo.host f = Ok content) /\
            exists digest, compute_sha256 demo.host f = Ok digest).
  { intros f Hf. rewrite Hsel in Hf. apply list_elem_of_singleton in Hf. rewrite Hf.
    split; [discriminate|]. split; [exists EmptyString; reflexivity|].
    exists (PyStr "sha256:/home/alice/work/out/result.csv").
    vm_cast_no_check (eq_refl (@Ok pyval (PyStr "sha256:/home/alice/work/out/result.csv"))). }
  destruct (curate_returns demo.host files w selected 1 m [] eq_refl eq_refl Hn Hn Hdom Hhost)
    as (result & w' & Hrun & Hlen & _).
  exists result, w'. split; [exact Hrun|]. rewrite Hlen, Hsel. reflexivity.
Defined.

End files_extra.

(** ** Whole calls: the manifest merge of [add] and the scan of
    [extract_files] *)
Module files_calls.
Import Py files files_more PyFacts files_spec files_extra.

(** *** The manifest merge *)



Section Host.
Context (E : Env).
Section Add.
Variable run_executable : binding -> Repo -> list string -> list string -> M (list record).

End Add.
End Host.

(** *** The scan of the trace log *)

Lemma open_lines_intro lines l :
  l ∈ lines -> contains "open(" l = true -> strip l ∈ open_lines lines.
Proof.
  intros Hl Hopen. unfold open_lines. apply list_elem_of_fmap. exists l. split; [done|].
  apply list_elem_of_In, filter_In. split; [by apply list_elem_of_In|done].
Qed.

Lemma open_lines_snoc lines l :
  open_lines (lines ++ [l])
  = open_lines lines ++ (if contains "open(" l then [strip l] else []).
Proof.
  unfold open_lines. rewrite List.filter_app, map_app. simpl.
  by destruct (contains "open(" l).
Qed.

Lemma filter_all {A} (P : A -> bool) (l : list A) :
  (forall x, x ∈ l -> P x = true) -> List.filter P l = l.
Proof.
  induction l as [|x l IH]; intros Hall; simpl; [done|].
  rewrite (Hall x) by apply list_elem_of_here.
  f_equal. apply IH. intros y Hy. apply Hall. by apply list_elem_of_further.
Qed.

(** Keeping the document as it is shown selects every captured path. *)
Lemma selection_all (files : gmap string (list string)) :
  selection files (YSeq (sorted (map fst (map_to_list files))))
  = sorted (map fst (map_to_list files)).
Proof.
  unfold selection. apply filter_all. intros f Hf. simpl. by apply bool_decide_eq_true_2.
Qed.

Lemma length_sorted (l : list string) : length (sorted l) = length l.
Proof. apply Permutation_length, sorted_perm. Qed.

Section Host.
Context (E : Env).

Lemma scan_lines_snoc includes ls l :
  forall files : gmap string (list string),
  scan_lines E includes (ls ++ [l]) files
  = match scan_lines E includes ls files with
    | Ok files' => scan_line E includes files' l
    | Raise e => Raise e
    end.
Proof.
  induction ls as [|l1 ls IH]; intros files; simpl.
  - by destruct (scan_line E includes files l).
  - destruct (scan_line E includes files l1); [apply IH|done].
Qed.

(** The table a log gives: exactly the opens that survive the filters,
    each under its action. *)
Lemma scan_table includes lines :
  exists files : gmap string (list string),
    scan_lines E includes (open_lines lines) ∅ = Ok files /\
    (forall k a,
       noted files k a <->
       exists l p, l ∈ lines /\ matched_file (strip l) = Some p /\
                   kept E includes p = true /\ relpath E p = k /\
                   a = action_of (strip l)) /\
    actions_ok files.
Proof.
  destruct (scan_lines_actions E includes (open_lines lines) ∅) as (files & Hscan & Hok).
  { intros k actions Hk. by rewrite lookup_empty in Hk. }
  exists files. split; [done|]. split; [|done].
  intros k a. rewrite (scan_lines_noted E includes (open_lines lines) ∅ files k a Hscan).
  split.
  - intros [(acts & Hacts & _)|(l & p & Hl & Hp & Hk & <- & <-)];
      [by rewrite lookup_empty in Hacts|].
    apply open_lines_elem in Hl as (l0 & Hl0 & _ & ->). by exists l0, p.
  - intros (l & p & Hl & Hp & Hk & <- & ->). right. exists (strip l), p.
    split; [|done]. apply open_lines_intro; [done|].
    apply contains_strip. by eapply matched_file_has_open.
Qed.

(** C4. [extract_files] works from the table its scan of the log
    builds. An action is listed for a path exactly when a line of the
    log opens a path that exists, is a regular file and, relative to
    the current directory, is that path and matches an include
    pattern, the action being "input" when the line contains O_RDONLY
    and "output" otherwise; the lists are free of duplicates and not
    empty. One more such line in the log leaves the list of its path as
    it is when the action is there already, and puts the action at its
    end otherwise, the other paths untouched. Every record returned
    carries the actions the table has for its file, and when the
    operator keeps what is shown there is one record per path of the
    table. *)
Theorem extract_files_classifies filename includes lines w :
  readlines E filename = Ok lines ->
  exists files : gmap string (list string),
    scan_lines E includes (open_lines lines) ∅ = Ok files /\
    (forall k a,
       (exists actions, files !! k = Some actions /\ a ∈ actions) <->
       exists l p, l ∈ lines /\ matched_file (strip l) = Some p /\
                   kept E includes p = true /\ relpath E p = k /\
                   a = (if contains "O_RDONLY" (strip l) then "input" else "output")) /\
    (forall k actions, files !! k = Some actions -> NoDup actions /\ actions <> []) /\
    (forall l p, matched_file (strip l) = Some p -> kept E includes p = true ->
       let action := if contains "O_RDONLY" (strip l) then "input" else "output" in
       exists files1,
         scan_lines E includes (open_lines (lines ++ [l])) ∅ = Ok files1 /\
         files1 !! relpath E p
         = Some match files !! relpath E p with
                | None => [action]
                | Some actions =>
                    if bool_decide (action ∈ actions) then actions
                    else actions ++ [action]
                end /\
         forall k, k <> relpath E p -> files1 !! k = files !! k) /\
    (forall result w', extract_files E filename includes w = (Ok result, w') ->
       forall r, r ∈ result ->
         exists k actions, files !! k = Some actions /\
           r !! "actions" = Some (PyList actions) /\
           r !! "localfullpath" = Some (PyStr (abspath E k))) /\
    (edits w = [] -> keystrokes w <> 0 ->
     (forall k, is_Some (files !! k) ->
        k <> EmptyString /\ (exists content, read512 E k = Ok content) /\
        exists digest, compute_sha256 E k = Ok digest) ->
     exists result w',
       extract_files E filename includes w = (Ok result, w') /\
       Forall2 (fun k (r : record) =>
                  r !! "actions" = PyList <$> files !! k /\
                  r !! "localfullpath" = Some (PyStr (abspath E k)))
               (sorted (map fst (map_to_list files))) result).
Proof.
  intros Hread.
  destruct (scan_table includes lines) as (files & Hscan & Hnoted & Hok).
  exists files. split; [done|]. split; [exact Hnoted|].
  split; [intros k actions Hk; destruct (Hok k actions Hk) as (? & ? & _); done|].
  split; [|split].
  - intros l p Hp Hkept action.
    rewrite open_lines_snoc.
    rewrite (contains_strip "open(" l) by (by eapply matched_file_has_open).
    rewrite scan_lines_snoc, Hscan, scan_line_eq, Hp, Hkept.
    eexists. split; [reflexivity|]. split; [apply note_action_lookup|].
    intros k Hk. by apply note_action_other.
  - intros result w' H r Hr. unfold extract_files in H.
    apply bind_Ok in H as (lines' & w1 & Hl & H).
    apply bind_Ok in H as (files' & w2 & Hs & H).
    unfold lift in Hl, Hs. rewrite Hread in Hl. injection Hl as <- <-.
    rewrite Hscan in Hs. injection Hs as <- <-.
    destruct (size files =? 0).
    { apply bind_Ok in H as ([] & w3 & _ & H). injection H as <- _.
      by apply elem_of_nil in Hr. }
    apply curate_inv in H as [->|(prefixes & ts & filenames & v1 & v2 & Hrun)];
      [by apply elem_of_nil in Hr|].
    apply run_outputs_inv in Hrun as (new & Hnew & Hall). simpl in Hnew. subst new.
    apply list_elem_of_lookup in Hr as (i & Hi).
    destruct (Forall2_lookup_r _ _ _ _ _ Hall Hi) as (f & _ & u1 & u2 & Hf).
    apply run_output_inv in Hf
      as (d & actions & content & digest & rel & _ & Hact & _ & _ & _ & _ & ->).
    by exists f, actions.
  - intros Hedits Hkeys Hhost. unfold extract_files.
    erewrite bind_run by (unfold lift; by rewrite Hread).
    erewrite bind_run by (unfold lift; by rewrite Hscan).
    destruct (size files =? 0) eqn:Hsize.
    { apply Nat.eqb_eq, map_size_empty_inv in Hsize. subst files.
      eexists _, _. split; [reflexivity|]. rewrite map_to_list_empty. constructor. }
    apply Nat.eqb_neq in Hsize.
    set (filenames := sorted (map fst (map_to_list files))).
    destruct (curate_run E files w (YSeq filenames) (length filenames)
                (directories (selection files (YSeq filenames))))
      as (result & w' & Hrun & Hlen & _ & Hall).
    + unfold next_edit. by rewrite Hedits.
    + done.
    + unfold filenames. by rewrite length_sorted, length_map, length_map_to_list.
    + done.
    + by rewrite Hedits.
    + done.
    + intros f Hf. apply Hhost. by eapply selection_tracked.
    + exists result, w'. split; [done|].
      rewrite selection_all in Hlen, Hall. fold filenames in Hlen, Hall.
      apply Forall2_same_length_lookup_2; [done|].
      intros i k r Hk Hr. destruct (Hall i k Hk) as (r' & d & actions & Hr' & _ & Ha & _ & Hact & Hfull).
      assert (r' = r) as -> by congruence. by rewrite Ha.
Qed.
End Host.

(** *** Instances on the sample data *)

Import demo_more.



Lemma extract_files_classifies_witness :
  exists result w' r,
    extract_files mixed_host "/tmp/tmpx/strace.out.txt" ["*.csv"] attended
    = (Ok result, w') /\
    result = [r] /\ r !! "actions" = Some (PyList ["input"; "output"]).
Proof.
  destruct (extract_files_classifies mixed_host "/tmp/tmpx/strace.out.txt" ["*.csv"]
              mixed_log attended eq_refl)
    as (files & Hscan & _ & _ & _ & _ & Hrun).
  set (key := "out/result.csv").
  assert (Htab : scan_lines mixed_host ["*.csv"] (open_lines mixed_log) ∅
                 = Ok {[key := ["input"; "output"]]})
    by (vm_cast_no_check
          (eq_refl (@Ok (gmap string (list string)) {[key := ["input"; "output"]]}))).
  assert (files = {[key := ["input"; "output"]]}) as -> by congruence.
  assert (Hkeys : keystrokes attended <> 0) by discriminate.
  destruct (Hrun eq_refl Hkeys) as (result & w' & Hcall & Hall).
  { intros k [v Hk]. apply lookup_singleton_Some in Hk as [<- _].
    split; [discriminate|]. split; [exists EmptyString; reflexivity|].
    exists (PyStr "sha256:/home/alice/work/out/result.csv").
    vm_cast_no_check (eq_refl (@Ok pyval (PyStr "sha256:/home/alice/work/out/result.csv"))). }
  rewrite map_to_list_singleton in Hall.
  change (sorted (map fst [(key, ["input"; "output"])])) with [key] in Hall.
  apply Forall2_cons_inv_l in Hall as (r & rest & (Hact & _) & Hrest & ->).
  apply Forall2_nil_inv_l in Hrest as ->.
  exists [r], w', r. split; [exact Hcall|]. split; [reflexivity|].
  rewrite Hact. by rewrite lookup_singleton_eq.
Defined.

End files_calls.
